(** * Order / invoice workflow of the store backend

    A shallow embedding of [routes/invoices.js] (the checkout handler
    [router.post('/')], its helpers and the invoice renderer) and of the order
    model with its sequence allocator ([getNextOrderId]).

    Modelling conventions.
    - A JavaScript Number is a value of [num]: an exact rational, or one of
      [NaN], [+Infinity], [-Infinity].  Arithmetic on finite values is exact:
      binary rounding error, overflow and the sign of zero are outside the
      model.
    - Request bodies and stored documents of schema-less fields are values of
      [json], read with the JavaScript operators ([||], [??], [&&], property
      access, [String], [Number]).  The conversions are total functions; the
      values on which JavaScript throws instead are excluded, where it
      matters, by the hypothesis that a value is plain.
    - The document store is explicit state; every store operation is logged
      and may fail, as decided by a fault oracle. *)

From Stdlib Require Import ZArith QArith Qabs Qround Lia Lqa Bool Sorted.
From Stdlib Require Import Ascii String DecimalString.
From stdpp Require Import gmap strings list fin_maps.

Local Open Scope string_scope.
Local Open Scope list_scope.

(* ===================================================================== *)
(** ** JavaScript numbers *)
(* ===================================================================== *)

Inductive num : Type :=
| Fin (q : Q)
| PInf
| NInf
| NaN.

Module Num.

(** Finite results are kept in lowest terms, so that equal numbers are
    equal terms. *)
Definition fin (q : Q) : num := Fin (Qred q).

Definition ofZ (z : Z) : num := Fin (inject_Z z).

Definition zero : num := Fin 0.

(** [Number.isFinite] on a value that is a Number. *)
Definition isFinite (n : num) : bool :=
  match n with Fin _ => true | _ => false end.

Definition neg (a : num) : num :=
  match a with
  | Fin x => fin (- x)
  | PInf => NInf
  | NInf => PInf
  | NaN => NaN
  end.

Definition add (a b : num) : num :=
  match a, b with
  | NaN, _ | _, NaN => NaN
  | Fin x, Fin y => fin (x + y)
  | PInf, NInf | NInf, PInf => NaN
  | PInf, _ | _, PInf => PInf
  | NInf, _ | _, NInf => NInf
  end.

Definition sub (a b : num) : num := add a (neg b).

(** The infinity whose sign is that of [c] ([Gt] positive), [NaN] for a
    zero factor. *)
Definition signed_inf (c : comparison) : num :=
  match c with Gt => PInf | Lt => NInf | Eq => NaN end.

Definition mul (a b : num) : num :=
  match a, b with
  | NaN, _ | _, NaN => NaN
  | Fin x, Fin y => fin (x * y)
  | Fin x, PInf | PInf, Fin x => signed_inf (x ?= 0)%Q
  | Fin x, NInf | NInf, Fin x => signed_inf (0 ?= x)%Q
  | PInf, PInf | NInf, NInf => PInf
  | PInf, NInf | NInf, PInf => NInf
  end.

Definition div (a b : num) : num :=
  match a, b with
  | NaN, _ | _, NaN => NaN
  | Fin x, Fin y =>
      if Qeq_bool y 0 then signed_inf (x ?= 0)%Q else fin (x / y)
  | Fin _, (PInf | NInf) => zero
  | (PInf | NInf), (PInf | NInf) => NaN
  | PInf, Fin y => if Qle_bool 0 y then PInf else NInf
  | NInf, Fin y => if Qle_bool 0 y then NInf else PInf
  end.

Definition Qltb (x y : Q) : bool :=
  match (x ?= y)%Q with Lt => true | _ => false end.

(** [a < b]; false as soon as one side is [NaN]. *)
Definition ltb (a b : num) : bool :=
  match a, b with
  | NaN, _ | _, NaN => false
  | Fin x, Fin y => Qltb x y
  | NInf, NInf | PInf, _ => false
  | NInf, _ => true
  | Fin _, PInf => true
  | Fin _, NInf => false
  end.

(** [a <= b]. *)
Definition leb (a b : num) : bool :=
  match a, b with
  | NaN, _ | _, NaN => false
  | Fin x, Fin y => Qle_bool x y
  | NInf, _ | _, PInf => true
  | PInf, _ => false
  | Fin _, NInf => false
  end.

(** [a >= b]. *)
Definition geb (a b : num) : bool := leb b a.

(** [Math.max(a, b)] and [Math.min(a, b)]. *)
Definition max (a b : num) : num :=
  match a, b with
  | NaN, _ | _, NaN => NaN
  | _, _ => if ltb a b then b else a
  end.

Definition min (a b : num) : num :=
  match a, b with
  | NaN, _ | _, NaN => NaN
  | _, _ => if ltb b a then b else a
  end.

(** [Math.floor]. *)
Definition floor (a : num) : num :=
  match a with Fin x => ofZ (Qfloor x) | _ => a end.

(** [Math.round]: nearest integer, a tie going up. *)
Definition round (a : num) : num :=
  match a with Fin x => ofZ (Qfloor (x + (1 # 2))) | _ => a end.

(** Truthiness of a Number: [0] and [NaN] are falsy. *)
Definition truthy (a : num) : bool :=
  match a with
  | Fin x => negb (Qeq_bool x 0)
  | NaN => false
  | _ => true
  end.

End Num.

(* ===================================================================== *)
(** ** JavaScript values *)
(* ===================================================================== *)

#[warnings="-register-all"]
Inductive json : Type :=
| JUndef
| JNull
| JBool (b : bool)
| JNum (n : num)
| JStr (s : string)
| JArr (l : list json)
| JObj (fields : list (string * json)).

(** What the runtime and the libraries supply and this repository does not
    define: the printing of a Number that is not a plain integer, the parsing
    of a string as a Number, the [ObjectId] of the driver and the formatting
    of dates. *)
Class Platform : Type := {
  (** [Number.prototype.toString] for a finite number that is not an integer
      below 10^21 *)
  fracToString : Q -> string;
  (** [Number(s)] for a string [s] *)
  stringToNumber : string -> num;
  (** [mongoose.Types.ObjectId.isValid(s)] *)
  isValidObjectId : string -> bool;
  (** [new mongoose.Types.ObjectId(s).toString()] *)
  objectIdHex : string -> string;
  (** [new Date(v).toLocaleString('es-EC')] *)
  toLocaleString : json -> string
}.

(* ===================================================================== *)
(** ** Strings *)
(* ===================================================================== *)

Module Str.

(** The double quote, the apostrophe and the other characters
    [escapeHtml] replaces. *)
Definition dquote : ascii := ascii_of_nat 34.
Definition squote : ascii := ascii_of_nat 39.
Definition amp : ascii := ascii_of_nat 38.
Definition lt : ascii := ascii_of_nat 60.
Definition gt : ascii := ascii_of_nat 62.

Definition dq : string := String dquote EmptyString.

(** The white space and line terminators [String.prototype.trim] removes.
    A string is held as its UTF-8 bytes: the six of ASCII take one byte, and
    U+00A0, U+1680, U+2000 to U+200A, U+2028, U+2029, U+202F, U+205F, U+3000
    and U+FEFF take two or three. *)
Definition is_space (c : ascii) : bool :=
  let n := nat_of_ascii c in
  (n =? 32)%nat || ((9 <=? n)%nat && (n <=? 13)%nat).

Definition byte_is (c : ascii) (n : N) : bool := (N_of_ascii c =? n)%N.

(** The third byte of a white space that starts with E2 80 or E2 81. *)
Definition space_e2 (d e : ascii) : bool :=
  (byte_is d 128
   && (((128 <=? N_of_ascii e)%N && (N_of_ascii e <=? 138)%N)
       || byte_is e 168 || byte_is e 169 || byte_is e 175))
  || (byte_is d 129 && byte_is e 159).

(** The white space of more than one byte, given by its bytes in order. *)
Definition space2 (c d : ascii) : bool := byte_is c 194 && byte_is d 160.

Definition space3 (c d e : ascii) : bool :=
  (byte_is c 225 && byte_is d 154 && byte_is e 128)
  || (byte_is c 226 && space_e2 d e)
  || (byte_is c 227 && byte_is d 128 && byte_is e 128)
  || (byte_is c 239 && byte_is d 187 && byte_is e 191).

(** What follows one white space at the head of [s], if [s] starts with
    one. *)
Definition dropSpace (s : string) : option string :=
  match s with
  | String c r =>
      if is_space c then Some r
      else
        match r with
        | String d r1 =>
            if space2 c d then Some r1
            else
              match r1 with
              | String e r2 => if space3 c d e then Some r2 else None
              | EmptyString => None
              end
        | EmptyString => None
        end
  | EmptyString => None
  end.

(** The same on the reversed bytes, for the end of a string. *)
Definition dropSpaceRev (s : string) : option string :=
  match s with
  | String c r =>
      if is_space c then Some r
      else
        match r with
        | String d r1 =>
            if space2 d c then Some r1
            else
              match r1 with
              | String e r2 => if space3 e d c then Some r2 else None
              | EmptyString => None
              end
        | EmptyString => None
        end
  | EmptyString => None
  end.

Fixpoint dropSpaces (drop : string -> option string) (fuel : nat) (s : string)
  : string :=
  match fuel with
  | O => s
  | S f =>
      match drop s with
      | Some r => dropSpaces drop f r
      | None => s
      end
  end.

Definition trimStart (s : string) : string :=
  dropSpaces dropSpace (String.length s) s.

Definition trim (s : string) : string :=
  let t := String.rev (trimStart s) in
  String.rev (dropSpaces dropSpaceRev (String.length t) t).

(** [toUpperCase] on the letters a-z. *)
Definition upper (c : ascii) : ascii :=
  let n := nat_of_ascii c in
  if (97 <=? n)%nat && (n <=? 122)%nat then ascii_of_nat (n - 32) else c.

Fixpoint toUpperCase (s : string) : string :=
  match s with
  | EmptyString => EmptyString
  | String c r => String (upper c) (toUpperCase r)
  end.

(** [parts.join(sep)] *)
Fixpoint join (sep : string) (parts : list string) : string :=
  match parts with
  | [] => ""
  | [x] => x
  | x :: r => x +:+ sep +:+ join sep r
  end.

(** Decimal digits of an integer. *)
Definition ofZ (z : Z) : string := NilZero.string_of_int (Z.to_int z).

(** [s] occurs in [t] *)
Definition occursIn (s t : string) : Prop :=
  exists pre post, t = pre +:+ s +:+ post.

(** The character [c] occurs in [s] *)
Fixpoint hasChar (c : ascii) (s : string) : bool :=
  match s with
  | EmptyString => false
  | String d r => Ascii.eqb c d || hasChar c r
  end.

End Str.

(* ===================================================================== *)
(** ** JavaScript operators on values *)
(* ===================================================================== *)

Declare Scope js_scope.
Delimit Scope js_scope with js.

Module JS.

(** Property access [v.k].  The first binding of a key is the object's;
    a value that is not an object has none of the properties read here. *)
Fixpoint assoc (k : string) (fs : list (string * json)) : json :=
  match fs with
  | [] => JUndef
  | (k', v) :: r => if String.eqb k k' then v else assoc k r
  end.

Definition get (v : json) (k : string) : json :=
  match v with JObj fs => assoc k fs | _ => JUndef end.

Definition truthy (v : json) : bool :=
  match v with
  | JUndef | JNull => false
  | JBool b => b
  | JNum n => Num.truthy n
  | JStr s => negb (String.eqb s "")
  | JArr _ | JObj _ => true
  end.

Definition nullish (v : json) : bool :=
  match v with JUndef | JNull => true | _ => false end.

(** [a || b], [a && b], [a ?? b] (on values: both sides are pure here) *)
Definition or (a b : json) : json := if truthy a then a else b.
Definition and (a b : json) : json := if truthy a then b else a.
Definition coalesce (a b : json) : json := if nullish a then b else a.

Definition isArray (v : json) : bool :=
  match v with JArr _ => true | _ => false end.

Section WithPlatform.
Context `{Platform}.

(** [String(n)] for a Number *)
Definition numberToString (n : num) : string :=
  match n with
  | NaN => "NaN"
  | PInf => "Infinity"
  | NInf => "-Infinity"
  | Fin q =>
      let r := Qred q in
      if (Qden r =? 1)%positive && (Z.abs (Qnum r) <? 10 ^ 21)%Z
      then Str.ofZ (Qnum r)
      else fracToString q
  end.

(** [String(v)], where the conversion returns.  An object that has a
    [toString] property of its own (a JSON value, not a function) makes
    [String], [Number] and the template conversions throw a [TypeError]; the
    properties that depend on a conversion are stated for values that hold
    no such object. *)
Fixpoint toString (v : json) : string :=
  match v with
  | JUndef => "undefined"
  | JNull => "null"
  | JBool b => if b then "true" else "false"
  | JNum n => numberToString n
  | JStr s => s
  | JArr l =>
      (fix joinElems (l : list json) : string :=
         match l with
         | [] => ""
         | x :: r =>
             let e := match x with
                      | JUndef | JNull => ""
                      | _ => toString x
                      end in
             match r with
             | [] => e
             | _ => e +:+ "," +:+ joinElems r
             end
         end) l
  | JObj _ => "[object Object]"
  end.

(** [Number(v)], where the conversion returns (see [toString]). *)
Definition Number (v : json) : num :=
  match v with
  | JUndef => NaN
  | JNull => Fin 0
  | JBool b => if b then Fin 1 else Fin 0
  | JNum n => n
  | JStr s => stringToNumber s
  | JArr _ => stringToNumber (toString v)
  | JObj _ => NaN
  end.

(** [a + b]: concatenation as soon as one operand is (or converts to) a
    string, the sum of the numbers otherwise. *)
Definition stringy (v : json) : bool :=
  match v with JStr _ | JArr _ | JObj _ => true | _ => false end.

Definition plus (a b : json) : json :=
  if stringy a || stringy b
  then JStr (toString a +:+ toString b)
  else JNum (Num.add (Number a) (Number b)).

(** [a - b] *)
Definition minus (a b : json) : num := Num.sub (Number a) (Number b).

(** [n.toFixed(2)] *)
Definition toFixed2 (n : num) : string :=
  match n with
  | Fin q =>
      if Qle_bool (inject_Z (10 ^ 21)) (Qabs q) then numberToString n
      else
        let k := Qfloor (Qabs q * 100 + (1 # 2)) in
        let cents := (k mod 100)%Z in
        (if Num.Qltb q 0 then "-" else "")
          +:+ Str.ofZ (k / 100) +:+ "."
          +:+ (if (cents <? 10)%Z then "0" else "") +:+ Str.ofZ cents
  | _ => numberToString n
  end.

End WithPlatform.

End JS.

Infix "|||" := JS.or (at level 50, left associativity) : js_scope.
Infix "&&&" := JS.and (at level 40, left associativity) : js_scope.
Infix "??" := JS.coalesce (at level 45, right associativity) : js_scope.
Notation "v ./ k" := (JS.get v k) (at level 19, left associativity) : js_scope.

Local Open Scope js_scope.

(* ===================================================================== *)
(** ** Documents, store and requests *)
(* ===================================================================== *)

(** Modelled from the spec: the Product model ([models/Product.js]) is not
    part of the sources; a product has a display name, a unit price, a
    discount percentage and an available stock, the three read as Numbers by
    the checkout ([NaN] stands for a field that is not set).  Its identifier
    is the key under which the store holds it. *)
Record product : Type := {
  p_nombre : string;
  p_precio : num;
  p_descuento : num;
  p_stock : num
}.

(** [models/User.js]: the profile fields, and the two arrays the checkout
    writes. *)
Record user : Type := {
  u_profile : list (string * json);
  u_cart : list json;
  u_orders : list json
}.

(** The order schema of the order model: [id] (the sequential code, a string
    once allocated), [userId], [items], [resumen], [estado], [fecha]. *)
Record order : Type := {
  o_id : json;
  o_userId : option string;
  o_items : list json;
  o_resumen : json;
  o_estado : string;
  o_fecha : Z
}.

(** The collections.  [db_sequence] is the value of the counter document
    named [order-id], [None] while that document does not exist. *)
Record db : Type := {
  db_products : gmap string product;
  db_users : gmap string user;
  db_orders : list (string * order);
  db_sequence : option Z
}.

(** Operations sent to the store, in the order they are issued. *)
Inductive dbop : Type :=
| OpUserFindById
| OpStartSession
| OpProductFind
| OpProductSave (id : string)
| OpSequenceInc
| OpSequenceSet
| OpOrderSave
| OpUserFindInSession
| OpUserSave
| OpCommit
| OpAbort
| OpEndSession
| OpOrderFindById.

Record world : Type := {
  w_db : db;
  w_log : list dbop
}.

(** What a request draws from its environment: which store operations fail
    (by their position in the log), the clock, the random draw of
    [buildInvoiceNumber] and the [_id] given to a new order document. *)
Record env : Type := {
  fails : nat -> bool;
  nowMillis : Z;
  nowISO : string;
  random1000 : Z;
  newObjectId : string
}.

(** [BASE_SHIPPING_FEE], [PER_ITEM_SHIPPING_FEE], [MAX_SHIPPING_FEE]: read
    from the process environment, taken to be finite numbers. *)
Record config : Type := {
  BASE_SHIPPING_FEE : Q;
  PER_ITEM_SHIPPING_FEE : Q;
  MAX_SHIPPING_FEE : Q
}.

Definition default_config : config :=
  {| BASE_SHIPPING_FEE := 7 # 2;
     PER_ITEM_SHIPPING_FEE := 1 # 2;
     MAX_SHIPPING_FEE := 20 |}.

Definition DEFAULT_TAX_RATE : num := Fin (3 # 20).
Definition DEFAULT_CURRENCY : string := "USD".

(** A JavaScript [Error]: [err.status], [err.name], [err.message]. *)
Record error : Type := {
  e_status : option nat;
  e_name : string;
  e_message : string
}.

Definition httpError (st : nat) (msg : string) : error :=
  {| e_status := Some st; e_name := "Error"; e_message := msg |}.

(** A rejected store operation. *)
Definition storageError : error :=
  {| e_status := None; e_name := "MongoServerError"; e_message := "storage failure" |}.

Definition castError (value : string) : error :=
  {| e_status := None; e_name := "CastError";
     e_message := "Cast to ObjectId failed for value " +:+ value |}.

Record response : Type := {
  status : nat;
  payload : json
}.

Definition errorBody (msg : string) : json := JObj [("error", JStr msg)].

(* ===================================================================== *)
(** ** Store operations: state, exceptions, faults *)
(* ===================================================================== *)

Inductive outcome (A : Type) : Type :=
| Ok (a : A)
| Throw (e : error).

Arguments Ok {A} a.
Arguments Throw {A} e.

Definition M (A : Type) : Type := world -> outcome A * world.

Definition ret {A} (a : A) : M A := fun w => (Ok a, w).

Definition throw {A} (e : error) : M A := fun w => (Throw e, w).

Definition bind {A B} (m : M A) (k : A -> M B) : M B :=
  fun w =>
    match m w with
    | (Ok a, w') => k a w'
    | (Throw e, w') => (Throw e, w')
    end.

Notation "x <- m ;; k" := (bind m (fun x => k))
  (at level 100, m at next level, right associativity).
Notation "m ;;; k" := (bind m (fun _ => k))
  (at level 100, right associativity).

Definition getDb : M db := fun w => (Ok (w_db w), w).

Definition putDb (d : db) : M unit :=
  fun w => (Ok tt, {| w_db := d; w_log := w_log w |}).

Definition logged (o : dbop) (w : world) : world :=
  {| w_db := w_db w; w_log := w_log w ++ [o] |}.

(* ===================================================================== *)
(** ** [routes/invoices.js]: helpers *)
(* ===================================================================== *)

(** A canonical line item, as [sanitizeItems] pushes it. *)
Record item : Type := {
  productId : string;
  quantity : num
}.

(** An entry of [invoiceItems]. *)
Record line : Type := {
  l_productId : string;
  l_nombre : string;
  l_quantity : num;
  l_unitPrice : num;
  l_currency : string;
  l_discountPercentage : num;
  l_lineTotal : num
}.

Section Helpers.
Context `{Platform}.
Variable cfg : config.

(** [toNumber(value, fallback)] *)
Definition toNumber (value : json) (fallback : num) : num :=
  let n := JS.Number value in
  if Num.isFinite n then n else fallback.

(** [roundMoney(value)]: [Math.round(value * 100) / 100] *)
Definition roundMoney (value : num) : num :=
  Num.div (Num.round (Num.mul value (Fin 100))) (Fin 100).

(** [s.padStart(3, '0')] *)
Definition padStart3 (s : string) : string :=
  match String.length s with
  | 0%nat => "000" +:+ s
  | 1%nat => "00" +:+ s
  | 2%nat => "0" +:+ s
  | _ => s
  end.

(** [buildInvoiceNumber()], from the clock and the random draw
    [Math.floor(Math.random() * 1000)]. *)
Definition buildInvoiceNumber (E : env) : string :=
  "INV-" +:+ Str.ofZ (nowMillis E) +:+ "-" +:+ padStart3 (Str.ofZ (random1000 E)).

(** [calculateShippingCost(shippingSource, items)] *)
Definition calculateShippingCost (shippingSource : json) (items : list item) : num :=
  let shippingSource :=
    match shippingSource with JUndef => JObj [] | _ => shippingSource end in
  let manualCost :=
    toNumber (shippingSource ./ "costo" ?? shippingSource ./ "cost"
                ?? shippingSource ./ "shippingFee" ?? JNull) NaN in
  if Num.isFinite manualCost && Num.geb manualCost (Fin 0)
  then roundMoney manualCost
  else
    let totalUnits :=
      fold_left
        (fun sum it =>
           Num.add sum (if Num.truthy (quantity it) then quantity it else Fin 0))
        items (Fin 0) in
    let incremental :=
      Num.mul (Num.max (Fin 0) (Num.sub totalUnits (Fin 1)))
              (Fin (PER_ITEM_SHIPPING_FEE cfg)) in
    let computed := Num.add (Fin (BASE_SHIPPING_FEE cfg)) incremental in
    roundMoney (Num.min (Fin (MAX_SHIPPING_FEE cfg)) computed).

(** [const productId = rawId ? String(rawId).trim() : ''] of the loop of
    [sanitizeItems]. *)
Definition itemProductId (it : json) : string :=
  let rawId :=
    it &&& (it ./ "productId" ||| it ./ "id" ||| it ./ "_id" ||| it ./ "codigo") in
  if JS.truthy rawId then Str.trim (JS.toString rawId) else "".

(** [const quantity = toNumber(item && (item.quantity ?? item.cantidad), NaN)] *)
Definition itemQuantity (it : json) : num :=
  toNumber (it &&& (it ./ "quantity" ?? it ./ "cantidad")) NaN.

(** The body of the loop of [sanitizeItems]: the error message, or the
    entry pushed. *)
Definition sanitizeItem (it : json) : string + item :=
  let productId := itemProductId it in
  let quantity := itemQuantity it in
  if String.eqb productId "" then
    inl "Each item must include productId"
  else if negb (isValidObjectId productId) then
    inl ("Invalid productId format: " +:+ productId)
  else if negb (Num.isFinite quantity) || Num.leb quantity (Fin 0) then
    inl ("Invalid quantity for product " +:+ productId)
  else
    inr {| productId := productId; quantity := Num.floor quantity |}.

Fixpoint sanitizeLoop (products : list json) (sanitized : list item)
  : string + list item :=
  match products with
  | [] => inr sanitized
  | it :: rest =>
      match sanitizeItem it with
      | inl e => inl e
      | inr i => sanitizeLoop rest (sanitized ++ [i])
      end
  end.

(** [sanitizeItems(products = [])]: [{ error }] on the left, [{ items }]
    on the right. *)
Definition sanitizeItems (products : json) : string + list item :=
  let products := match products with JUndef => JArr [] | _ => products end in
  match products with
  | JArr (it :: rest) => sanitizeLoop (it :: rest) []
  | _ => inl "products array is required"
  end.

(** [pickUserFields(userDoc)] *)
Definition pickUserFields (userDoc : json) : json :=
  if negb (JS.truthy userDoc) then JNull
  else
    JObj [
      ("id", if JS.truthy (userDoc ./ "_id")
             then JStr (JS.toString (userDoc ./ "_id"))
             else (userDoc ./ "id" ||| JUndef));
      ("nombre", userDoc ./ "nombre" ||| userDoc ./ "firstName"
                   ||| userDoc ./ "name" ||| JStr "");
      ("apellido", userDoc ./ "apellido" ||| userDoc ./ "lastName" ||| JStr "");
      ("email", userDoc ./ "email" ||| JStr "");
      ("telefono", userDoc ./ "telefono" ||| userDoc ./ "phone" ||| JStr "");
      ("cedula", userDoc ./ "cedula" ||| userDoc ./ "document" ||| JStr "")
    ].

(** The replacement [escapeHtml] makes for one character. *)
Definition escapeChar (c : ascii) : string :=
  if Ascii.eqb c Str.amp then "&amp;"
  else if Ascii.eqb c Str.lt then "&lt;"
  else if Ascii.eqb c Str.gt then "&gt;"
  else if Ascii.eqb c Str.dquote then "&quot;"
  else if Ascii.eqb c Str.squote then "&#39;"
  else String c EmptyString.

Fixpoint escapeString (s : string) : string :=
  match s with
  | EmptyString => EmptyString
  | String c r => escapeChar c +:+ escapeString r
  end.

(** [escapeHtml(str)] *)
Definition escapeHtml (str : json) : string :=
  if negb (JS.truthy str) then "" else escapeString (JS.toString str).

(** [formatMoney(value)] *)
Definition formatMoney (value : json) : string :=
  JS.toFixed2 (toNumber value (Fin 0)).

End Helpers.

(* ===================================================================== *)
(** ** The order model and [router.post('/')] *)
(* ===================================================================== *)

Section Checkout.
Context `{Platform}.
Variable cfg : config.
Variable E : env.

(** One operation on the store: logged, and rejected when the oracle says
    so for its position. *)
Definition op (o : dbop) : M unit :=
  fun w =>
    if fails E (length (w_log w))
    then (Throw storageError, logged o w)
    else (Ok tt, logged o w).

(** *** Sequence allocator *)

(** [getNextOrderId()].  The first [findOneAndUpdate] increments the
    counter, creating it when absent ([$inc] on a missing field starts from
    zero: the schema default is not applied to a path the update writes);
    the second one sets it to 30.  Neither runs in the caller's session. *)
Definition getNextOrderId : M Z :=
  op OpSequenceInc ;;;
  d <- getDb ;;
  let updated := match db_sequence d with
                 | None => 1
                 | Some v => v + 1
                 end%Z in
  putDb {| db_products := db_products d; db_users := db_users d;
           db_orders := db_orders d; db_sequence := Some updated |} ;;;
  if (updated <? 30)%Z then
    op OpSequenceSet ;;;
    d <- getDb ;;
    putDb {| db_products := db_products d; db_users := db_users d;
             db_orders := db_orders d; db_sequence := Some 30%Z |} ;;;
    ret 30%Z
  else ret updated.

(** [orderDoc.save({ session })] for a new document: the [pre('save')]
    hook allocates [id] when the document has none, then the document is
    inserted. *)
Definition Order_save (oid : string) (o : order) : M order :=
  o' <- (if JS.truthy (o_id o) then ret o
         else
           nextId <- getNextOrderId ;;
           ret {| o_id := JStr (Str.ofZ nextId); o_userId := o_userId o;
                  o_items := o_items o; o_resumen := o_resumen o;
                  o_estado := o_estado o; o_fecha := o_fecha o |}) ;;
  op OpOrderSave ;;;
  d <- getDb ;;
  putDb {| db_products := db_products d; db_users := db_users d;
           db_orders := db_orders d ++ [(oid, o')];
           db_sequence := db_sequence d |} ;;;
  ret o'.

(** *** Session and transaction *)

(** The state after an aborted transaction that started in [w0] and
    reached [w1]: the writes made in the session are undone; the counter,
    written outside of it, is not. *)
Definition aborted (w0 w1 : world) : world :=
  {| w_db := {| db_products := db_products (w_db w0);
                db_users := db_users (w_db w0);
                db_orders := db_orders (w_db w0);
                db_sequence := db_sequence (w_db w1) |};
     w_log := w_log w1 ++ [OpAbort] |}.

(** [session.withTransaction(callback)]: commit when the callback
    returns, abort and rethrow when it throws or the commit fails.  A
    rejected operation is final: the driver's retry of the callback on a
    transient error is not modelled. *)
Definition withTransaction {A} (callback : M A) : M A :=
  fun w0 =>
    match callback w0 with
    | (Ok a, w1) =>
        match op OpCommit w1 with
        | (Ok _, w2) => (Ok a, w2)
        | (Throw e, w2) => (Throw e, aborted w0 w2)
        end
    | (Throw e, w1) => (Throw e, aborted w0 w1)
    end.

(** [mongoose.startSession()], the body, and [session.endSession()] in
    the [finally] block. *)
Definition withSession {A} (body : M A) : M A :=
  op OpStartSession ;;;
  fun w => let (r, w') := body w in (r, logged OpEndSession w').

(** *** Reads and writes of the handler *)

(** The stored user as the handler reads it. *)
Definition userDoc (uid : string) (u : user) : json :=
  JObj (("_id", JStr uid) :: u_profile u).

(** [Product.find({ _id: { $in: ids } }).session(session)], as the map from
    [_id] to document the handler builds from the result. *)
Definition Product_find (ids : list string) : M (gmap string product) :=
  op OpProductFind ;;;
  d <- getDb ;;
  ret (filter (fun kv => kv.1 ∈ ids) (db_products d)).

(** [product.save({ session })] *)
Definition Product_save (id : string) (p : product) : M unit :=
  op (OpProductSave id) ;;;
  d <- getDb ;;
  putDb {| db_products := <[id := p]> (db_products d); db_users := db_users d;
           db_orders := db_orders d; db_sequence := db_sequence d |}.

(** [models/User.js]: the paths declared [String, required: true]. *)
Definition requiredPaths : list string := ["nombre"; "email"; "passwordHash"].

(** The required-validator on a path of type [String]: a non-empty string
    passes; a number or a boolean held by the stored document was cast to
    its text when the document was loaded, and passes too. *)
Definition hasText (v : json) : bool :=
  match v with
  | JStr s => negb (String.eqb s "")
  | JNum _ | JBool _ => true
  | _ => false
  end.

Definition userValid (u : user) : bool :=
  forallb (fun k => hasText (JS.assoc k (u_profile u))) requiredPaths.

(** The [ValidationError] of a user document that lacks a required path. *)
Definition userValidationError : error :=
  {| e_status := None; e_name := "ValidationError";
     e_message := "User validation failed" |}.

(** [userForUpdate.save({ session })]: the document is validated against
    the schema before it is written. *)
Definition User_save (uid : string) (u : user) : M unit :=
  if negb (userValid u) then throw userValidationError
  else
    op OpUserSave ;;;
    d <- getDb ;;
    putDb {| db_products := db_products d; db_users := <[uid := u]> (db_users d);
             db_orders := db_orders d; db_sequence := db_sequence d |}.

(** *** The loop over the lines *)

Definition insufficientStock (it : item) (p : product) : error :=
  httpError 400
    ("Insufficient stock for " +:+
       (if String.eqb (p_nombre p) "" then productId it else p_nombre p)).

(** The invoice line of [it] for product [p]. *)
Definition priceLine (invoiceCurrency : string) (it : item) (p : product) : line :=
  let basePrice := toNumber (JNum (p_precio p)) (Fin 0) in
  let discountPct := toNumber (JNum (p_descuento p)) (Fin 0) in
  let priceAfterDiscount :=
    roundMoney
      (Num.mul basePrice (Num.sub (Fin 1) (Num.div discountPct (Fin 100)))) in
  let lineTotal := roundMoney (Num.mul priceAfterDiscount (quantity it)) in
  {| l_productId := productId it;
     l_nombre := p_nombre p;
     l_quantity := quantity it;
     l_unitPrice := priceAfterDiscount;
     l_currency := invoiceCurrency;
     l_discountPercentage := discountPct;
     l_lineTotal := lineTotal |}.

(** [for (const item of sanitizedItems) { ... }]: [productMap] holds the
    documents in memory (a line sees the stock left by the lines before
    it), [invoiceItems] and [subtotal] are the accumulators. *)
Fixpoint processItems (invoiceCurrency : string) (items : list item)
    (productMap : gmap string product) (invoiceItems : list line)
    (subtotal : num) : M (list line * num) :=
  match items with
  | [] => ret (invoiceItems, subtotal)
  | it :: rest =>
      match productMap !! productId it with
      | None =>
          throw (httpError 404 ("Product " +:+ productId it +:+ " not found"))
      | Some p =>
          let available := toNumber (JNum (p_stock p)) (Fin 0) in
          if Num.ltb available (quantity it) then
            throw (insufficientStock it p)
          else
            let p' := {| p_nombre := p_nombre p; p_precio := p_precio p;
                         p_descuento := p_descuento p;
                         p_stock := Num.sub available (quantity it) |} in
            Product_save (productId it) p' ;;;
            let ln := priceLine invoiceCurrency it p' in
            processItems invoiceCurrency rest
              (<[productId it := p']> productMap)
              (invoiceItems ++ [ln])
              (roundMoney (Num.add subtotal (l_lineTotal ln)))
      end
  end.

(** *** The transaction *)

Definition lineJson (l : line) : json :=
  JObj [("productId", JStr (l_productId l)); ("nombre", JStr (l_nombre l));
        ("quantity", JNum (l_quantity l)); ("unitPrice", JNum (l_unitPrice l));
        ("currency", JStr (l_currency l));
        ("discountPercentage", JNum (l_discountPercentage l));
        ("lineTotal", JNum (l_lineTotal l))].

Definition orderProduct (l : line) : json :=
  JObj [("id", JStr (l_productId l)); ("nombre", JStr (l_nombre l));
        ("cantidad", JNum (l_quantity l)); ("precio", JNum (l_unitPrice l));
        ("subtotal", JNum (l_lineTotal l)); ("currency", JStr (l_currency l))].

Definition orderItemForDb (l : line) : json :=
  JObj [("productId", JStr (l_productId l)); ("cantidad", JNum (l_quantity l));
        ("unitPrice", JNum (l_unitPrice l)); ("lineTotal", JNum (l_lineTotal l));
        ("currency", JStr (l_currency l))].

(** [totalsForUi] *)
Definition totalsForUi (subtotal taxes shippingCost discountValue : num) : json :=
  JObj [("subtotal", JNum subtotal); ("iva", JNum taxes);
        ("envio", JNum shippingCost); ("discount", JNum discountValue);
        ("total",
         JNum (roundMoney
                 (Num.max (Fin 0)
                    (Num.sub (Num.add (Num.add subtotal taxes) shippingCost)
                             discountValue))))].

Definition has (productMap : gmap string product) (id : string) : bool :=
  match productMap !! id with Some _ => true | None => false end.

(** [if (attachedUser) { ... }] at the end of the callback: the order is
    appended to the buyer's orders and the cart is emptied. *)
Definition updateBuyer (attachedUser : option (string * user))
    (orderDoc : order) (resumen : json) : M unit :=
  match attachedUser with
  | Some (uid, _) =>
      op OpUserFindInSession ;;;
      d <- getDb ;;
      match db_users d !! uid with
      | Some userForUpdate =>
          User_save uid
            {| u_profile := u_profile userForUpdate;
               u_cart := [];
               u_orders :=
                 u_orders userForUpdate ++
                   [JObj [("orderId", JStr (newObjectId E));
                          ("codigo", o_id orderDoc);
                          ("fecha", JNum (Num.ofZ (o_fecha orderDoc)));
                          ("resumen", resumen)]] |}
      | None => ret tt
      end
  | None => ret tt
  end.

(** The callback given to [session.withTransaction]; it returns
    [orderResponse] and [invoicePayload]. *)
Definition transaction (sanitizedItems : list item)
    (attachedUser : option (string * user))
    (invoiceUser shippingInfo paymentInfo : json)
    (shippingCost discountValue useTaxRate : num)
    (invoiceCurrency : string) : M (json * json) :=
  let ids := map (fun it => objectIdHex (productId it)) sanitizedItems in
  productMap <- Product_find ids ;;
  if negb (size productMap =? length sanitizedItems)%nat then
    let missing :=
      map productId
          (List.filter (fun it => negb (has productMap (productId it)))
                       sanitizedItems) in
    throw (httpError 404 ("Products not found: " +:+ Str.join ", " missing))
  else
    r <- processItems invoiceCurrency sanitizedItems productMap [] (Fin 0) ;;
    let invoiceItems := fst r in
    let subtotal := snd r in
    let taxes := roundMoney (Num.mul subtotal useTaxRate) in
    let totales := totalsForUi subtotal taxes shippingCost discountValue in
    let orderProducts := JArr (map orderProduct invoiceItems) in
    let invoiceNumber := buildInvoiceNumber E in
    let resumen :=
      JObj [("cliente", invoiceUser); ("productos", orderProducts);
            ("totales", totales); ("entrega", shippingInfo);
            ("pago", paymentInfo); ("invoiceNumber", JStr invoiceNumber)] in
    orderDoc <-
      Order_save (newObjectId E)
        {| o_id := JUndef;
           o_userId := match attachedUser with
                       | Some (uid, _) => Some uid
                       | None => None
                       end;
           o_items := map orderItemForDb invoiceItems;
           o_resumen := resumen;
           o_estado := "confirmado";
           o_fecha := nowMillis E |} ;;
    updateBuyer attachedUser orderDoc resumen ;;;
    let orderResponse :=
      JObj [("_id", JStr (newObjectId E)); ("id", o_id orderDoc);
            ("numeroOrden", o_id orderDoc);
            ("numeroFactura", JStr invoiceNumber);
            ("fecha", JNum (Num.ofZ (o_fecha orderDoc)));
            ("estado", JStr (o_estado orderDoc));
            ("cliente", invoiceUser); ("productos", orderProducts);
            ("totales", totales); ("entrega", shippingInfo);
            ("pago", paymentInfo)] in
    let invoicePayload :=
      JObj [("invoiceNumber", JStr invoiceNumber);
            ("issuedAt", JStr (nowISO E));
            ("currency", JStr invoiceCurrency);
            ("user", invoiceUser);
            ("items", JArr (map lineJson invoiceItems));
            ("totals",
             JObj [("subtotal", JNum subtotal); ("taxRate", JNum useTaxRate);
                   ("taxes", JNum taxes); ("shipping", JNum shippingCost);
                   ("discount", JNum discountValue);
                   ("total", totales ./ "total")]);
            ("orderId", JStr (newObjectId E));
            ("orderCode", o_id orderDoc)] in
    ret (orderResponse, invoicePayload).

(** *** The handler *)

Definition respond (st : nat) (body : json) : response :=
  {| status := st; payload := body |}.

(** [const shippingSource = body.shipping || body.entrega || {}] *)
Definition shippingSourceOf (body : json) : json :=
  body ./ "shipping" ||| body ./ "entrega" ||| JObj [].

(** [const discountValue = Math.max(0, roundMoney(toNumber(body.discount ??
    body.totals?.discount ?? 0, 0)))] *)
Definition discountValueOf (body : json) : num :=
  Num.max (Fin 0)
    (roundMoney
       (toNumber (body ./ "discount" ?? body ./ "totals" ./ "discount" ?? JNum (Fin 0))
                 (Fin 0))).

(** [const useTaxRate = Number.isFinite(body.taxRate) ? body.taxRate :
    DEFAULT_TAX_RATE] *)
Definition taxRateOf (body : json) : num :=
  match body ./ "taxRate" with
  | JNum (Fin q) => Fin q
  | _ => DEFAULT_TAX_RATE
  end.

(** [const invoiceCurrency = (typeof body.currency === 'string' &&
    body.currency.trim()) ? body.currency.trim().toUpperCase() :
    DEFAULT_CURRENCY] *)
Definition currencyOf (body : json) : string :=
  match body ./ "currency" with
  | JStr c => if String.eqb (Str.trim c) "" then DEFAULT_CURRENCY
              else Str.toUpperCase (Str.trim c)
  | _ => DEFAULT_CURRENCY
  end.

(** The [try] block of [router.post('/')], from the validated items and
    the resolved buyer on. *)
Definition placeOrder (body : json) (sanitizedItems : list item)
    (attachedUser : option (string * user)) (invoiceUser : json)
    (useTaxRate : num) (invoiceCurrency : string) : M response :=
  let shippingSource := shippingSourceOf body in
  let shippingCost := calculateShippingCost cfg shippingSource sanitizedItems in
  let shippingInfo :=
    JObj [("direccion", shippingSource ./ "direccion" ||| shippingSource ./ "address" ||| JStr "");
          ("referencias", shippingSource ./ "referencias" ||| shippingSource ./ "reference" ||| JStr "");
          ("contacto", shippingSource ./ "contacto" ||| shippingSource ./ "contact" ||| JStr "");
          ("instrucciones", shippingSource ./ "instrucciones" ||| shippingSource ./ "instructions"
                              ||| body ./ "comentarios" ||| JStr "");
          ("fechaEstimada", shippingSource ./ "fechaEstimada" ||| JNull);
          ("location", shippingSource ./ "location" ||| shippingSource ./ "latLong" ||| JNull);
          ("costo", JNum shippingCost)] in
  let discountValue := discountValueOf body in
  let paymentSource := body ./ "payment" ||| body ./ "pago" ||| JObj [] in
  let paymentInfo :=
    JObj [("metodo", paymentSource ./ "metodo" ||| paymentSource ./ "method"
                       ||| body ./ "metodoPago" ||| JStr "no-especificado");
          ("metodoPagoNombre",
           paymentSource ./ "metodoPagoNombre" ||| paymentSource ./ "methodName"
             ||| paymentSource ./ "metodo" ||| paymentSource ./ "method"
             ||| body ./ "metodoPago" ||| JStr "no-especificado");
          ("referencia", paymentSource ./ "referencia" ||| paymentSource ./ "reference" ||| JStr "");
          ("estado", paymentSource ./ "estado" ||| JStr "pagado")] in
  withSession
    (r <- withTransaction
            (transaction sanitizedItems attachedUser invoiceUser shippingInfo
                         paymentInfo shippingCost discountValue useTaxRate
                         invoiceCurrency) ;;
     ret (respond 201
            (JObj [("success", JBool true); ("order", fst r); ("invoice", snd r)]))).

(** The [try] block of [router.post('/')].  The notification mail sent
    after the commit touches neither the store nor the response and is
    left out.  [User.findById(body.userId)] is modelled for a [userId] that
    is a text: the cast Mongoose makes of an object or an array is not. *)
Definition handler (reqBody : json) : M response :=
  let body := reqBody ||| JObj [] in
  let useTaxRate := taxRateOf body in
  let invoiceCurrency := currencyOf body in
  match sanitizeItems (body ./ "products") with
  | inl itemsError => ret (respond 400 (errorBody itemsError))
  | inr sanitizedItems =>
      if JS.truthy (body ./ "userId") then
        let s := JS.toString (body ./ "userId") in
        if negb (isValidObjectId s) then throw (castError s)
        else
          op OpUserFindById ;;;
          d <- getDb ;;
          match db_users d !! objectIdHex s with
          | None => ret (respond 404 (errorBody "User not found"))
          | Some u =>
              placeOrder body sanitizedItems (Some (objectIdHex s, u))
                (pickUserFields (userDoc (objectIdHex s) u))
                useTaxRate invoiceCurrency
          end
      else if JS.truthy
                (body ./ "user" &&& body ./ "user" ./ "email"
                   &&& (body ./ "user" ./ "nombre" ||| body ./ "user" ./ "firstName"
                          ||| body ./ "user" ./ "name"))
      then
        placeOrder body sanitizedItems None (pickUserFields (body ./ "user"))
          useTaxRate invoiceCurrency
      else
        ret (respond 400
               (errorBody "Provide userId or user object with nombre and email"))
  end.

(** [err.status || (err.name === 'ValidationError' ? 400 : 500)] *)
Definition errorStatus (err : error) : nat :=
  match e_status err with
  | Some (S n) => S n
  | _ => if String.eqb (e_name err) "ValidationError" then 400%nat else 500%nat
  end.

(** [router.post('/')]: the response sent and the state left. *)
Definition post_invoices (reqBody : json) (w : world) : response * world :=
  match handler reqBody w with
  | (Ok r, w') => (r, w')
  | (Throw err, w') =>
      (respond (errorStatus err)
         (errorBody (if String.eqb (e_message err) "" then "Unable to generate invoice"
                     else e_message err)),
       w')
  end.

End Checkout.

(* ===================================================================== *)
(** ** The invoice renderer and [router.get('/:id')] *)
(* ===================================================================== *)

(** The result of [normalizeTotals]. *)
Record totals : Type := {
  t_subtotal : num;
  t_iva : num;
  t_envio : num;
  t_discount : num;
  t_total : num
}.

Module Template.

(** The static text of the template of [renderInvoiceHtml], cut at its
    interpolations: [rowN] for a product row, [tplN] for the page. *)

Definition row0 : string :=
    "<tr>
        <td>".

Definition row1 : string :=
    "</td>
        <td class=" +:+ Str.dq +:+ "text-center" +:+ Str.dq +:+ ">".

Definition row2 : string :=
    "</td>
        <td class=" +:+ Str.dq +:+ "text-right" +:+ Str.dq +:+ ">$".

Definition row3 : string :=
    "</td>
        <td class=" +:+ Str.dq +:+ "text-right" +:+ Str.dq +:+ ">$".

Definition row4 : string :=
    "</td>
      </tr>".

Definition tpl0 : string :=
    "<!DOCTYPE html>
<html lang=" +:+ Str.dq +:+ "es" +:+ Str.dq +:+ ">
<head>
  <meta charset=" +:+ Str.dq +:+ "UTF-8" +:+ Str.dq +:+ ">
  <title>Factura ".

Definition tpl1 : string :=
    "</title>
  <style>
    body { font-family: Arial, sans-serif; margin: 20px; color: #222; }
    .header { text-align: center; border-bottom: 2px solid #007bff; padding-bottom: 20px; margin-bottom: 20px; }
    .logo { color: #007bff; font-size: 24px; font-weight: bold; }
    table { width: 100%; border-collapse: collapse; margin-bottom: 20px; }
    th, td { border: 1px solid #ddd; padding: 8px; }
    th { background-color: #f8f9fa; }
    .text-right { text-align: right; }
    .text-center { text-align: center; }
    .totals { width: 320px; margin-left: auto; }
    .totals td { border: none; }
    .totals tr { border-bottom: 1px solid #eee; }
    .totals tr:last-child { border-bottom: none; }
    .totals .total-final { background: #e8f5e8; font-weight: bold; }
    .section-title { margin-top: 30px; font-size: 18px; border-bottom: 1px solid #ddd; padding-bottom: 5px; }
  </style>
</head>
<body>
  <div class=" +:+ Str.dq +:+ "header" +:+ Str.dq +:+ ">
    <div class=" +:+ Str.dq +:+ "logo" +:+ Str.dq +:+ ">Tatylu, Viveres</div>
    <p>Viveres de calidad</p>
    <p>Avenida Maldonado S29-106, Quito | +593 967 967 369</p>
  </div>

  <h2>Factura #".

Definition tpl2 : string :=
    "</h2>
  <p><strong>Fecha:</strong> ".

Definition tpl3 : string :=
    "</p>
  <p><strong>Cliente:</strong> ".

Definition tpl4 : string :=
    "</p>
  <p><strong>Email:</strong> ".

Definition tpl5 : string :=
    "</p>
  <p><strong>Teléfono:</strong> ".

Definition tpl6 : string :=
    "</p>

  <h3 class=" +:+ Str.dq +:+ "section-title" +:+ Str.dq +:+ ">Productos</h3>
  <table>
    <thead>
      <tr>
        <th>Producto</th>
        <th class=" +:+ Str.dq +:+ "text-center" +:+ Str.dq +:+ ">Cantidad</th>
        <th class=" +:+ Str.dq +:+ "text-right" +:+ Str.dq +:+ ">Precio unit.</th>
        <th class=" +:+ Str.dq +:+ "text-right" +:+ Str.dq +:+ ">Subtotal</th>
      </tr>
    </thead>
    <tbody>
      ".

Definition tpl7 : string :=
    "
    </tbody>
  </table>

  <table class=" +:+ Str.dq +:+ "totals" +:+ Str.dq +:+ ">
    <tr>
      <td>Subtotal:</td>
      <td class=" +:+ Str.dq +:+ "text-right" +:+ Str.dq +:+ ">$".

Definition tpl8 : string :=
    "</td>
    </tr>
    <tr>
      <td>IVA (15%):</td>
      <td class=" +:+ Str.dq +:+ "text-right" +:+ Str.dq +:+ ">$".

Definition tpl9 : string :=
    "</td>
    </tr>
    <tr>
      <td>Envío:</td>
      <td class=" +:+ Str.dq +:+ "text-right" +:+ Str.dq +:+ ">$".

Definition tpl10 : string :=
    "</td>
    </tr>
    ".

Definition tpl11 : string :=
    "
    <tr class=" +:+ Str.dq +:+ "total-final" +:+ Str.dq +:+ ">
      <td>Total:</td>
      <td class=" +:+ Str.dq +:+ "text-right" +:+ Str.dq +:+ ">$".

Definition tpl12 : string :=
    "</td>
    </tr>
  </table>

  <div class=" +:+ Str.dq +:+ "section-title" +:+ Str.dq +:+ ">Entrega</div>
  <p><strong>Dirección:</strong> ".

Definition tpl13 : string :=
    "</p>
  <p><strong>Contacto:</strong> ".

Definition tpl14 : string :=
    "</p>
  <p><strong>Referencias:</strong> ".

Definition tpl15 : string :=
    "</p>

  <div class=" +:+ Str.dq +:+ "section-title" +:+ Str.dq +:+ ">Pago</div>
  <p><strong>Método:</strong> ".

Definition tpl16 : string :=
    "</p>
  <p><strong>Estado:</strong> ".

Definition tpl17 : string :=
    "</p>
  <p><strong>Referencia:</strong> ".

Definition tpl18 : string :=
    "</p>

  <p style=" +:+ Str.dq +:+ "margin-top:40px; text-align:center; font-size:12px; color:#666;" +:+ Str.dq +:+ ">Gracias por tu compra en Tatylu, Viveres.</p>
</body>
</html>".

Definition noProducts : string :=
  "<tr><td colspan=" +:+ Str.dq +:+ "4" +:+ Str.dq +:+ " class=" +:+ Str.dq
    +:+ "text-center" +:+ Str.dq +:+ ">Sin productos</td></tr>".

Definition discountRow0 : string :=
  "<tr><td>Descuento:</td><td class=" +:+ Str.dq +:+ "text-right" +:+ Str.dq +:+ ">-$".

Definition discountRow1 : string := "</td></tr>".

End Template.

Section Renderer.
Context `{Platform}.

(** [arr.map((x, idx) => f(x, idx))] for a callback that reads properties of
    [x]: [None] stands for the [TypeError] thrown on a [null] or [undefined]
    element. *)
Fixpoint mapIdx (f : json -> Z -> option json) (l : list json) (idx : Z)
  : option (list json) :=
  match l with
  | [] => Some []
  | x :: r =>
      match f x idx with
      | None => None
      | Some y =>
          match mapIdx f r (idx + 1) with
          | None => None
          | Some ys => Some (y :: ys)
          end
      end
  end.

Definition productoLabel (idx : Z) : json :=
  JStr ("Producto " +:+ JS.numberToString (Num.ofZ (idx + 1))).

(** The callback of the first two shapes of [normalizeProducts]. *)
Definition fromProducto (prod : json) (idx : Z) : option json :=
  if JS.nullish prod then None
  else
    Some (JObj [
      ("nombre", prod ./ "nombre" ||| productoLabel idx);
      ("cantidad", prod ./ "cantidad" ||| prod ./ "quantity" ||| JNum (Fin 0));
      ("precio", prod ./ "precio" ||| prod ./ "unitPrice" ||| JNum (Fin 0));
      ("subtotal", prod ./ "subtotal" ||| prod ./ "lineTotal" ||| JNum (Fin 0))]).

(** The callback of the third shape. *)
Definition fromItem (it : json) (idx : Z) : option json :=
  if JS.nullish it then None
  else
    Some (JObj [
      ("nombre", it ./ "nombre" ||| it ./ "productName" ||| productoLabel idx);
      ("cantidad", it ./ "cantidad" ||| it ./ "quantity" ||| JNum (Fin 0));
      ("precio", it ./ "precio" ||| it ./ "unitPrice" ||| JNum (Fin 0));
      ("subtotal",
       it ./ "lineTotal"
         ||| JNum (Num.mul (JS.Number (it ./ "unitPrice" ||| JNum (Fin 0)))
                           (JS.Number (it ./ "cantidad" ||| JNum (Fin 0)))))]).

(** [normalizeProducts(order)] *)
Definition normalizeProducts (order : json) : option (list json) :=
  match order ./ "resumen" ./ "productos" with
  | JArr (x :: l) => mapIdx fromProducto (x :: l) 0
  | _ =>
      match order ./ "productos" with
      | JArr (x :: l) => mapIdx fromProducto (x :: l) 0
      | _ =>
          match order ./ "items" with
          | JArr (x :: l) => mapIdx fromItem (x :: l) 0
          | _ => Some []
          end
      end
  end.

(** [normalizeTotals(order, productos)] *)
Definition normalizeTotals (order : json) (productos : list json) : totals :=
  let baseTotals := order ./ "resumen" ./ "totales" ||| order ./ "totales" ||| JObj [] in
  let subtotal :=
    baseTotals ./ "subtotal"
      ?? JNum (fold_left
                 (fun sum prod => Num.add sum (toNumber (prod ./ "subtotal") (Fin 0)))
                 productos (Fin 0)) in
  let iva := baseTotals ./ "iva" ?? baseTotals ./ "taxes" ?? baseTotals ./ "tax" ?? JNum (Fin 0) in
  let envio := baseTotals ./ "envio" ?? baseTotals ./ "shipping" ?? JNum (Fin 0) in
  let discount := baseTotals ./ "discount" ?? JNum (Fin 0) in
  let total :=
    baseTotals ./ "total"
      ?? JNum (roundMoney
                 (JS.minus (JS.plus (JS.plus subtotal iva) envio) discount)) in
  {| t_subtotal := roundMoney (toNumber subtotal (Fin 0));
     t_iva := roundMoney (toNumber iva (Fin 0));
     t_envio := roundMoney (toNumber envio (Fin 0));
     t_discount := roundMoney (Num.max (Fin 0) (toNumber discount (Fin 0)));
     t_total := roundMoney (toNumber total (Fin 0)) |}.

(** One row of the product table. *)
Definition productRow (it : json) : string :=
  Template.row0 +:+ escapeHtml (it ./ "nombre")
    +:+ Template.row1 +:+ JS.toString (it ./ "cantidad")
    +:+ Template.row2 +:+ formatMoney (it ./ "precio")
    +:+ Template.row3 +:+ formatMoney (it ./ "subtotal")
    +:+ Template.row4.

(** The page, given its interpolated parts in the order of the template. *)
Definition page (numero fecha cliente email telefono productRows
                 subtotal iva envio discountRow total
                 direccion contacto referencias metodo estado referencia : string)
  : string :=
  Template.tpl0 +:+ numero +:+ Template.tpl1 +:+ numero
    +:+ Template.tpl2 +:+ fecha +:+ Template.tpl3 +:+ cliente
    +:+ Template.tpl4 +:+ email +:+ Template.tpl5 +:+ telefono
    +:+ Template.tpl6 +:+ productRows
    +:+ Template.tpl7 +:+ subtotal +:+ Template.tpl8 +:+ iva
    +:+ Template.tpl9 +:+ envio +:+ Template.tpl10 +:+ discountRow
    +:+ Template.tpl11 +:+ total
    +:+ Template.tpl12 +:+ direccion +:+ Template.tpl13 +:+ contacto
    +:+ Template.tpl14 +:+ referencias
    +:+ Template.tpl15 +:+ metodo +:+ Template.tpl16 +:+ estado
    +:+ Template.tpl17 +:+ referencia +:+ Template.tpl18.

(** [renderInvoiceHtml(order)]; [now] is [new Date().toLocaleString('es-EC')].
    [None] when [normalizeProducts] throws. *)
Definition renderInvoiceHtml (now : string) (order : json) : option string :=
  match normalizeProducts order with
  | None => None
  | Some productos =>
      let totales := normalizeTotals order productos in
      let cliente := order ./ "resumen" ./ "cliente" ||| order ./ "cliente" ||| JObj [] in
      let entrega := order ./ "resumen" ./ "entrega" ||| order ./ "entrega" ||| JObj [] in
      let pago := order ./ "resumen" ./ "pago" ||| order ./ "pago" ||| JObj [] in
      let numeroFactura :=
        order ./ "resumen" ./ "invoiceNumber" ||| order ./ "numeroFactura"
          ||| order ./ "id" ||| order ./ "_id" in
      let fecha :=
        if JS.truthy (order ./ "fecha") then toLocaleString (order ./ "fecha")
        else now in
      let joined := String.concat "" (map productRow productos) in
      let productRows :=
        if String.eqb joined "" then Template.noProducts else joined in
      let numero := escapeHtml (JStr (JS.toString (numeroFactura ||| JStr ""))) in
      Some
        (page numero
           (escapeHtml (JStr fecha))
           (escapeHtml
              (JStr (Str.trim (JS.toString (cliente ./ "nombre" ||| JStr "") +:+ " "
                                 +:+ JS.toString (cliente ./ "apellido" ||| JStr "")))
                 ||| JStr "N/D"))
           (escapeHtml (cliente ./ "email" ||| JStr "N/D"))
           (escapeHtml (cliente ./ "telefono" ||| JStr "N/D"))
           productRows
           (formatMoney (JNum (t_subtotal totales)))
           (formatMoney (JNum (t_iva totales)))
           (formatMoney (JNum (t_envio totales)))
           (if Num.truthy (t_discount totales)
            then Template.discountRow0 +:+ formatMoney (JNum (t_discount totales))
                   +:+ Template.discountRow1
            else "")
           (formatMoney (JNum (t_total totales)))
           (escapeHtml (entrega ./ "direccion" ||| JStr "N/D"))
           (escapeHtml (entrega ./ "contacto" ||| entrega ./ "telefono" ||| JStr "N/D"))
           (escapeHtml (entrega ./ "referencias" ||| JStr "N/D"))
           (escapeHtml (pago ./ "metodoPagoNombre" ||| pago ./ "metodo" ||| JStr "N/D"))
           (escapeHtml (pago ./ "estado" ||| JStr "pagado"))
           (escapeHtml (pago ./ "referencia" ||| JStr "N/D")))
  end.

(** The stored order as [Order.findById(id).lean()] returns it. *)
Definition leanOrder (oid : string) (o : order) : json :=
  JObj [("_id", JStr oid); ("id", o_id o);
        ("userId", match o_userId o with Some u => JStr u | None => JUndef end);
        ("items", JArr (o_items o)); ("resumen", o_resumen o);
        ("estado", JStr (o_estado o)); ("fecha", JNum (Num.ofZ (o_fecha o)))].

(** The first order stored under [oid]. *)
Fixpoint findOrder (oid : string) (orders : list (string * order)) : option order :=
  match orders with
  | [] => None
  | (k, o) :: r => if String.eqb k oid then Some o else findOrder oid r
  end.

(** What [router.get('/:id')] sends: the page, or an error body. *)
Inductive reply : Type :=
| Html (page : string)
| Json (st : nat) (body : json).

(** [router.get('/:id')] *)
Definition get_invoice (E : env) (now : string) (id : string) (w : world)
  : reply * world :=
  if negb (isValidObjectId id) then (Json 400 (errorBody "Invalid order id"), w)
  else
    match op E OpOrderFindById w with
    | (Throw _, w') => (Json 500 (errorBody "Unable to render invoice"), w')
    | (Ok _, w') =>
        match findOrder (objectIdHex id) (db_orders (w_db w')) with
        | None => (Json 404 (errorBody "Order not found"), w')
        | Some o =>
            match renderInvoiceHtml now (leanOrder (objectIdHex id) o) with
            | Some html => (Html html, w')
            | None => (Json 500 (errorBody "Unable to render invoice"), w')
            end
        end
    end.

End Renderer.

(* ===================================================================== *)
(** ** The public routes: [router.post('/orders')] *)
(* ===================================================================== *)

(** The [TypeError] of a property read on [undefined] or of a constructor
    that refuses its argument, and the [ValidationError] of a document whose
    path cannot be cast. *)
Definition typeError : error :=
  {| e_status := None; e_name := "TypeError"; e_message := "type error" |}.

Definition validationError : error :=
  {| e_status := None; e_name := "ValidationError";
     e_message := "Order validation failed" |}.

Section PublicOrders.
Context `{Platform}.
Variable E : env.

(** What Mongoose supplies to the route: [Types.ObjectId.isValid] on a value
    of the body, [Types.ObjectId(v)] ([None] when the call throws), the cast
    of a value to the [String] of the schema ([None] when the cast fails and
    the validation rejects the document), and the saved document as
    [res.json] serialises it. *)
Variable isValidId : json -> bool.
Variable toObjectId : json -> option string.
Variable castString : json -> option string.
Variable toJSON : string -> order -> json.

(** [new Order({ userId, items, resumen, estado })]: [estado] is the value
    cast for the path, the default of the schema when the body gives none;
    [fecha] is the default [Date.now]. *)
Definition newOrder (body : json) (userId : option string) (estado : string) : order :=
  {| o_id := JUndef;
     o_userId := userId;
     o_items := match body ./ "items" with JArr l => l | _ => [] end;
     o_resumen := body ./ "resumen" ||| JObj [];
     o_estado := estado;
     o_fecha := nowMillis E |}.

(** [new Order({...})] and [order.save()]: the validation runs before the
    [pre('save')] hook that allocates the code.  The document is stored as it
    was built: the removal of empty objects that Mongoose's [minimize] option
    makes when it writes a document is outside the model. *)
Definition createOrder (body : json) (userId : option string) : M response :=
  match (if JS.truthy (body ./ "estado") then castString (body ./ "estado")
         else Some "pendiente") with
  | None => throw validationError
  | Some estado =>
      saved <- Order_save E (newObjectId E) (newOrder body userId estado) ;;
      ret (respond 201 (toJSON (newObjectId E) saved))
  end.

(** The [try] block of [router.post('/orders')] *)
Definition orderHandler (body : json) : M response :=
  if JS.nullish body then throw typeError
  else if JS.truthy (body ./ "userId") then
    if negb (isValidId (body ./ "userId")) then
      ret (respond 400 (errorBody "Invalid userId format"))
    else
      match toObjectId (body ./ "userId") with
      | None => throw typeError
      | Some uid => createOrder body (Some uid)
      end
  else createOrder body None.

(** [router.post('/orders')]: the response sent and the state left. *)
Definition post_orders (reqBody : json) (w : world) : response * world :=
  match orderHandler reqBody w with
  | (Ok r, w') => (r, w')
  | (Throw _, w') => (respond 400 (errorBody "Invalid order payload"), w')
  end.

End PublicOrders.

(* ===================================================================== *)
(** ** A platform for the examples *)
(* ===================================================================== *)

Module Ref.

Definition isHex (c : ascii) : bool :=
  let n := nat_of_ascii c in
  ((48 <=? n)%nat && (n <=? 57)%nat)
  || ((97 <=? n)%nat && (n <=? 102)%nat)
  || ((65 <=? n)%nat && (n <=? 70)%nat).

Fixpoint allHex (s : string) : bool :=
  match s with
  | EmptyString => true
  | String c r => isHex c && allHex r
  end.

(** An ObjectId is written with 24 hexadecimal digits. *)
Definition isValid (s : string) : bool :=
  (String.length s =? 24)%nat && allHex s.

Definition lower (c : ascii) : ascii :=
  let n := nat_of_ascii c in
  if (65 <=? n)%nat && (n <=? 90)%nat then ascii_of_nat (n + 32) else c.

Fixpoint toLowerCase (s : string) : string :=
  match s with
  | EmptyString => EmptyString
  | String c r => String (lower c) (toLowerCase r)
  end.

(** The digits of [r / d] after the point, [r < d], at most [fuel] of them. *)
Fixpoint fracDigits (fuel : nat) (r d : Z) : string :=
  match fuel with
  | O => ""
  | S f =>
      if (r =? 0)%Z then ""
      else Str.ofZ (10 * r / d) +:+ fracDigits f ((10 * r) mod d) d
  end.

Definition printFrac (q : Q) : string :=
  let n := Z.abs (Qnum q) in
  let d := Zpos (Qden q) in
  (if (Qnum q <? 0)%Z then "-" else "")
    +:+ Str.ofZ (n / d) +:+ "." +:+ fracDigits 17 (n mod d) d.

Fixpoint digitsValue (s : string) (acc : Z) : option Z :=
  match s with
  | EmptyString => Some acc
  | String c r =>
      let n := nat_of_ascii c in
      if (48 <=? n)%nat && (n <=? 57)%nat
      then digitsValue r (10 * acc + Z.of_nat (n - 48))
      else None
  end.

(** Strings of decimal digits are read as integers, the others as [NaN]. *)
Definition parseNumber (s : string) : num :=
  match digitsValue (Str.trim s) 0 with
  | Some z => Num.ofZ z
  | None => NaN
  end.

#[export] Instance platform : Platform := {|
  fracToString := printFrac;
  stringToNumber := parseNumber;
  isValidObjectId := isValid;
  objectIdHex := toLowerCase;
  toLocaleString := fun _ => "1/1/2025, 0:00:00"
|}.

(** No store operation fails. *)
Definition quiet : env :=
  {| fails := fun _ => false;
     nowMillis := 1735689600000;
     nowISO := "2025-01-01T00:00:00.000Z";
     random1000 := 7;
     newObjectId := "65f000000000000000000001" |}.

(** The store operation at position [n] fails. *)
Definition failingAt (n : nat) : env :=
  {| fails := fun k => (k =? n)%nat;
     nowMillis := nowMillis quiet;
     nowISO := nowISO quiet;
     random1000 := random1000 quiet;
     newObjectId := newObjectId quiet |}.

Definition idA : string := "507f1f77bcf86cd799439011".
Definition idB : string := "507f1f77bcf86cd799439012".
Definition idU : string := "507f191e810c19729de860ea".

(** A store with two products, one user and no order yet. *)
Definition shop : db :=
  {| db_products :=
       <[idA := {| p_nombre := "Arroz"; p_precio := Fin 10;
                   p_descuento := Fin 10; p_stock := Fin 5 |}]>
       (<[idB := {| p_nombre := "Leche"; p_precio := Fin (5 # 4);
                    p_descuento := Fin 0; p_stock := Fin 2 |}]> ∅);
     db_users :=
       <[idU := {| u_profile := [("nombre", JStr "Ana"); ("email", JStr "ana@example.com");
                                 ("passwordHash", JStr "$2a$10$N9qo8uLOickgx2ZMRZoMye")];
                   u_cart := [JObj [("productId", JStr idA)]];
                   u_orders := [] |}]> ∅;
     db_orders := [];
     db_sequence := None |}.

Definition start : world := {| w_db := shop; w_log := [] |}.

Definition entry (id : string) (q : num) : json :=
  JObj [("productId", JStr id); ("quantity", JNum q)].

Definition request (userId : json) (products : list json) (extra : list (string * json)) : json :=
  JObj (("userId", userId) :: ("products", JArr products) :: extra).

End Ref.

#[local] Existing Instance Ref.platform | 100.

(* ===================================================================== *)
(** ** Vocabulary of the properties *)
(* ===================================================================== *)

(** [0 <= n] for a Number. *)
Definition nonneg (n : num) : Prop := Num.leb (Fin 0) n = true.

(** Every product of the store has a stock that is at least zero. *)
Definition stockNonneg (d : db) : Prop :=
  map_Forall (fun _ p => nonneg (p_stock p)) (db_products d).

(** The value of the counter after [$inc: { value: 1 }]. *)
Definition incremented (c : option Z) : Z :=
  match c with
  | None => 1
  | Some v => v + 1
  end.

(** The values returned by the allocations that succeed among a run of
    calls of [getNextOrderId], one per environment, and the state left. *)
Fixpoint allocations (Es : list env) (w : world) : list Z * world :=
  match Es with
  | [] => ([], w)
  | E :: rest =>
      match getNextOrderId E w with
      | (Ok v, w') => let (vs, w'') := allocations rest w' in (v :: vs, w'')
      | (Throw _, w') => allocations rest w'
      end
  end.

(** A value of a request that holds no object with a [toString] property of
    its own, at any depth.  [String(v)], [Number(v)] and the conversions of a
    template throw a [TypeError] on such an object (its [toString] is not a
    function), and only there: on the other values the conversions are those
    of [JS.toString] and [JS.Number]. *)
Fixpoint plain (v : json) : bool :=
  match v with
  | JArr l => forallb plain l
  | JObj fs =>
      forallb (fun kv => match kv with
                         | (k, x) => negb (String.eqb k "toString") && plain x
                         end) fs
  | _ => true
  end.

(** An entry [sanitizeItems] must refuse: no product identifier, one that
    is not an ObjectId, or a quantity that, converted by [Number], is not a
    finite number above zero. *)
Definition invalidEntry `{Platform} (it : json) : Prop :=
  itemProductId it = ""
  \/ isValidObjectId (itemProductId it) = false
  \/ Num.isFinite (itemQuantity it) = false
  \/ Num.leb (itemQuantity it) (Fin 0) = true.

(** The message for a refused entry names the field or the product. *)
Definition namesEntry `{Platform} (it : json) (msg : string) : Prop :=
  msg = "Each item must include productId"
  \/ msg = "Invalid productId format: " +:+ itemProductId it
  \/ msg = "Invalid quantity for product " +:+ itemProductId it.

(** The request went through: the handler answered 201. *)
Definition succeeded (r : response) : Prop := status r = 201%nat.

(** The errors the handler throws answer 400, 404 or 500. *)
Definition knownError (e : error) : Prop :=
  errorStatus e = 400%nat \/ errorStatus e = 404%nat \/ errorStatus e = 500%nat.

(** The collections written inside the session are the same in both states. *)
Definition sameStore (d d' : db) : Prop :=
  db_products d' = db_products d
  /\ db_users d' = db_users d
  /\ db_orders d' = db_orders d.

(** The product of a line after the line: its stock is what was available
    less the quantity. *)
Definition decremented (p : product) (it : item) : product :=
  {| p_nombre := p_nombre p; p_precio := p_precio p;
     p_descuento := p_descuento p;
     p_stock := Num.sub (toNumber (JNum (p_stock p)) (Fin 0)) (quantity it) |}.

(** The units of the items, as [calculateShippingCost] adds them. *)
Definition totalUnits (items : list item) : num :=
  fold_left
    (fun sum it =>
       Num.add sum (if Num.truthy (quantity it) then quantity it else Fin 0))
    items (Fin 0).

(** No operation on the store is rejected: no fault, and no document the
    store refuses. *)
Definition noFault (E : env) : Prop := forall n, fails E n = false.

(** The buyer of a request resolves: [userId] is the text of an ObjectId
    under which a user is stored whose document passes the validation of its
    schema, or there is no [userId] and the request carries a [user] with an
    email and a name. *)
Definition buyerResolves `{Platform} (body : json) (d : db) : Prop :=
  (exists s u,
      body ./ "userId" = JStr s /\ s <> ""
      /\ isValidObjectId s = true
      /\ db_users d !! objectIdHex s = Some u
      /\ userValid u = true)
  \/ (JS.truthy (body ./ "userId") = false
      /\ JS.truthy
           (body ./ "user" &&& body ./ "user" ./ "email"
              &&& (body ./ "user" ./ "nombre" ||| body ./ "user" ./ "firstName"
                     ||| body ./ "user" ./ "name")) = true).

(** The product of a line is stored with at least the quantity asked. *)
Definition sufficient `{Platform} (d : db) (it : item) : Prop :=
  exists p, db_products d !! productId it = Some p
            /\ Num.ltb (toNumber (JNum (p_stock p)) (Fin 0)) (quantity it) = false.

(** Rounding to two decimals, a half going up, as the specification words
    it. *)
Definition round2 (q : Q) : Q := (inject_Z (Qfloor (q * 100 + (1 # 2))) / 100)%Q.

(** A well-formed identifier under which no user is stored. *)
Definition nobody : string := "aaaaaaaaaaaaaaaaaaaaaaaa".

(** An order as [POST /orders] stores it, with the [resumen] of the request:
    its one product line has a markup string for quantity. *)
Definition markupOrder : order :=
  {| o_id := JStr "31";
     o_userId := None;
     o_items := [];
     o_resumen :=
       JObj [("cliente", JObj [("nombre", JStr "<script>alert(0)</script>")]);
             ("productos",
              JArr [JObj [("nombre", JStr "Pan");
                          ("cantidad", JStr "<script>alert(1)</script>");
                          ("precio", JNum (Fin 1));
                          ("subtotal", JNum (Fin 1))]])];
     o_estado := "pendiente";
     o_fecha := 0 |}.

(** The canonical item [sanitizeItems] pushes for an accepted entry. *)
Definition canonicalItem `{Platform} (raw : json) : item :=
  {| productId := itemProductId raw;
     quantity := Num.floor (itemQuantity raw) |}.

(** A row of the product table as [normalizeProducts] builds it: the four
    fields, a truthy name, a quantity and a price that are not nullish. *)
Definition wellFormedRow (row : json) : Prop :=
  exists nombre cantidad precio subtotal,
    row = JObj [("nombre", nombre); ("cantidad", cantidad);
                ("precio", precio); ("subtotal", subtotal)]
    /\ JS.truthy nombre = true
    /\ JS.nullish cantidad = false
    /\ JS.nullish precio = false.

(** The buyer the handler resolved: the stored user named by [userId], or
    the inline [user] object when no [userId] is given; [invoiceUser] is
    what goes on the invoice. *)
Definition resolvedBuyer `{Platform} (body : json) (d : db)
    (attached : option (string * user)) (invoiceUser : json) : Prop :=
  (JS.truthy (body ./ "userId") = true
   /\ exists u,
       db_users d !! objectIdHex (JS.toString (body ./ "userId")) = Some u
       /\ attached = Some (objectIdHex (JS.toString (body ./ "userId")), u)
       /\ invoiceUser
          = pickUserFields (userDoc (objectIdHex (JS.toString (body ./ "userId"))) u))
  \/ (JS.truthy (body ./ "userId") = false
      /\ attached = None
      /\ invoiceUser = pickUserFields (body ./ "user")).

(** The properties of the object [pickUserFields] returns. *)
Definition clientFields : list string :=
  ["id"; "nombre"; "apellido"; "email"; "telefono"; "cedula"].

(** The counter of order codes did not go back: [a] before, [b] after. *)
Definition counterLe (a b : option Z) : Prop :=
  match a, b with
  | None, _ => True
  | Some _, None => False
  | Some c, Some c' => (c <= c')%Z
  end.

(** A computation on the store that never takes the counter back. *)
Definition keepsCounter {A} (m : M A) : Prop :=
  forall w r w',
    m w = (r, w') -> counterLe (db_sequence (w_db w)) (db_sequence (w_db w')).

(* ===================================================================== *)
(** ** Numbers: finiteness and sign *)
(* ===================================================================== *)

Lemma add_finite a b :
  Num.isFinite a = true -> Num.isFinite b = true -> Num.isFinite (Num.add a b) = true.
Proof. destruct a, b; simpl; congruence. Qed.

Lemma sub_finite a b :
  Num.isFinite a = true -> Num.isFinite b = true -> Num.isFinite (Num.sub a b) = true.
Proof. destruct a, b; simpl; congruence. Qed.

Lemma mul_finite a b :
  Num.isFinite a = true -> Num.isFinite b = true -> Num.isFinite (Num.mul a b) = true.
Proof. destruct a, b; simpl; congruence. Qed.

Lemma max_finite a b :
  Num.isFinite a = true -> Num.isFinite b = true -> Num.isFinite (Num.max a b) = true.
Proof. destruct a, b; simpl; try congruence. intros _ _. now destruct (Num.Qltb q q0). Qed.

Lemma min_finite a b :
  Num.isFinite a = true -> Num.isFinite b = true -> Num.isFinite (Num.min a b) = true.
Proof. destruct a, b; simpl; try congruence. intros _ _. now destruct (Num.Qltb q0 q). Qed.

Lemma floor_finite a : Num.isFinite a = true -> Num.isFinite (Num.floor a) = true.
Proof. destruct a; simpl; congruence. Qed.

Lemma div100_finite a :
  Num.isFinite a = true -> Num.isFinite (Num.div a (Fin 100)) = true.
Proof. destruct a; simpl; congruence. Qed.

Lemma roundMoney_finite v : Num.isFinite v = true -> Num.isFinite (roundMoney v) = true.
Proof. destruct v; simpl; congruence. Qed.

Lemma toNumber_finite `{Platform} v q : Num.isFinite (toNumber v (Fin q)) = true.
Proof. unfold toNumber. destruct (Num.isFinite (JS.Number v)) eqn:Hn; auto. Qed.

Create HintDb finite.

#[local] Hint Resolve add_finite sub_finite mul_finite max_finite min_finite
  floor_finite div100_finite roundMoney_finite toNumber_finite : finite.

Lemma nonneg_Fin q : nonneg (Fin q) <-> (0 <= q)%Q.
Proof. unfold nonneg; simpl. apply Qle_bool_iff. Qed.

Lemma nonneg_max0 v : Num.isFinite v = true -> nonneg (Num.max (Fin 0) v).
Proof.
  destruct v as [q| | |]; simpl; try discriminate. intros _.
  unfold Num.Qltb. destruct (Qcompare_spec 0 q) as [Heq|Hlt|Hgt];
    apply nonneg_Fin.
  - apply Qle_refl.
  - now apply Qlt_le_weak.
  - apply Qle_refl.
Qed.

Lemma roundMoney_nonneg v :
  Num.isFinite v = true -> nonneg v -> nonneg (roundMoney v).
Proof.
  destruct v as [q| | |]; simpl; try discriminate. intros _ Hq.
  apply nonneg_Fin in Hq. apply nonneg_Fin.
  rewrite Qred_correct.
  assert (Hz : (0 <= Qfloor (Qred (q * 100) + (1 # 2)))%Z).
  { change 0%Z with (Qfloor 0). apply Qfloor_resp_le.
    rewrite Qred_correct.
    apply Qle_trans with (q * 100)%Q.
    - apply Qmult_le_0_compat; [assumption | discriminate].
    - rewrite <- (Qplus_0_r (q * 100)) at 1.
      apply Qplus_le_compat; [apply Qle_refl | discriminate]. }
  apply Qle_shift_div_l; [reflexivity |].
  rewrite Qmult_0_l. change 0%Q with (inject_Z 0).
  rewrite <- Zle_Qle. exact Hz.
Qed.

Lemma sub_nonneg a b :
  Num.isFinite a = true -> Num.isFinite b = true ->
  Num.ltb a b = false -> nonneg (Num.sub a b).
Proof.
  destruct a as [x| | |], b as [y| | |]; simpl; try discriminate.
  intros _ _ Hlt. apply nonneg_Fin.
  rewrite !Qred_correct.
  unfold Num.Qltb in Hlt.
  apply (proj1 (Qle_minus_iff y x)).
  destruct (Qcompare_spec x y) as [Heq|Hl|Hg]; try discriminate.
  - apply Qle_lteq. right. symmetry. exact Heq.
  - now apply Qlt_le_weak.
Qed.

(* ===================================================================== *)
(** ** Runs of store operations *)
(* ===================================================================== *)

Lemma bind_inv {A B} (m : M A) (k : A -> M B) w r w' :
  bind m k w = (r, w') ->
  (exists a w1, m w = (Ok a, w1) /\ k a w1 = (r, w'))
  \/ (exists e, m w = (Throw e, w') /\ r = Throw e).
Proof.
  unfold bind. destruct (m w) as [[a|e] w1] eqn:Hm; intros Hk.
  - left. eauto.
  - right. inversion Hk; subst. eauto.
Qed.

Lemma op_inv E o w r w' :
  op E o w = (r, w') ->
  w' = logged o w
  /\ (r = Ok tt /\ fails E (length (w_log w)) = false
      \/ r = Throw storageError /\ fails E (length (w_log w)) = true).
Proof.
  unfold op. destruct (fails E (length (w_log w))); intros Hr;
    inversion Hr; subst; auto.
Qed.

Lemma op_ok E o w :
  fails E (length (w_log w)) = false -> op E o w = (Ok tt, logged o w).
Proof. unfold op. now intros ->. Qed.

(** Symbolic execution of one step of a run [m w = (r, w')] in hypothesis. *)
Ltac run_step :=
  match goal with
  | Hrun : bind _ _ _ = (_, _) |- _ =>
      apply bind_inv in Hrun;
      destruct Hrun as [(? & ? & ? & Hrun) | (? & Hrun & ?)]
  | Hrun : op _ _ _ = (_, _) |- _ =>
      apply op_inv in Hrun; destruct Hrun as (? & [(? & ?) | (? & ?)])
  | Hrun : getDb _ = (_, _) |- _ => unfold getDb in Hrun
  | Hrun : putDb _ _ = (_, _) |- _ => unfold putDb in Hrun
  | Hrun : ret _ _ = (_, _) |- _ => unfold ret in Hrun
  | Hrun : throw _ _ = (_, _) |- _ => unfold throw in Hrun
  | Hrun : (_, _) = (_, _) |- _ => inversion Hrun; clear Hrun
  | Hrun : Ok _ = Ok _ |- _ => inversion Hrun; clear Hrun
  | Hrun : Throw _ = Throw _ |- _ => inversion Hrun; clear Hrun
  | Hrun : Ok _ = Throw _ |- _ => discriminate Hrun
  | Hrun : Throw _ = Ok _ |- _ => discriminate Hrun
  end.

Ltac run_steps := repeat (run_step; subst; simpl in *; try discriminate).

(* ===================================================================== *)
(** ** The sequence allocator *)
(* ===================================================================== *)

(** An allocation leaves products, users and orders alone; when it succeeds
    it returns the incremented counter, raised to 30 when below, and the
    counter holds the value returned. *)
Lemma getNextOrderId_inv E w r w' :
  getNextOrderId E w = (r, w') ->
  db_products (w_db w') = db_products (w_db w)
  /\ db_users (w_db w') = db_users (w_db w)
  /\ db_orders (w_db w') = db_orders (w_db w)
  /\ match r with
     | Ok v => v = Z.max 30 (incremented (db_sequence (w_db w)))
               /\ db_sequence (w_db w') = Some v
     | Throw _ =>
         db_sequence (w_db w') = db_sequence (w_db w)
         \/ db_sequence (w_db w') = Some (incremented (db_sequence (w_db w)))
     end.
Proof.
  unfold getNextOrderId. intros Hrun.
  run_steps; fold (incremented (db_sequence (w_db w))) in *; auto.
  all: destruct (incremented (db_sequence (w_db w)) <? 30)%Z eqn:Hu;
    [apply Z.ltb_lt in Hu | apply Z.ltb_ge in Hu].
  all: run_steps; repeat split; auto; try lia.
Qed.

Lemma getNextOrderId_ok E w :
  fails E (length (w_log w)) = false ->
  fails E (S (length (w_log w))) = false ->
  exists w', getNextOrderId E w =
             (Ok (Z.max 30 (incremented (db_sequence (w_db w)))), w').
Proof.
  intros H0 H1. unfold getNextOrderId, bind, getDb, putDb, ret.
  rewrite (op_ok _ _ _ H0). simpl.
  fold (incremented (db_sequence (w_db w))).
  destruct (incremented (db_sequence (w_db w)) <? 30)%Z eqn:Hu.
  - unfold op; simpl. rewrite length_app; simpl.
    replace (length (w_log w) + 1)%nat with (S (length (w_log w))) by lia.
    rewrite H1. simpl. eexists. f_equal. f_equal. lia.
  - eexists. f_equal. f_equal. lia.
Qed.

(** Once the counter holds a value of at least 30, every later allocation
    returns more than it, and the values returned increase. *)
Lemma allocations_above Es :
  forall w c,
    db_sequence (w_db w) = Some c -> (30 <= c)%Z ->
    StronglySorted Z.lt (fst (allocations Es w))
    /\ Forall (fun v => (c < v)%Z) (fst (allocations Es w)).
Proof.
  induction Es as [|E Es IH]; intros w c Hc Hge; simpl.
  - split; constructor.
  - destruct (getNextOrderId E w) as [[v|e] w'] eqn:Hrun;
      apply getNextOrderId_inv in Hrun; destruct Hrun as (_ & _ & _ & Hseq).
    + destruct Hseq as [Hv Hs]. rewrite Hc in Hv. simpl in Hv.
      destruct (IH w' v Hs ltac:(lia)) as [Hsort Hall].
      destruct (allocations Es w') as [vs w'']. simpl in *.
      split.
      * constructor; assumption.
      * constructor; [lia |].
        eapply Forall_impl; [exact Hall |]. simpl. intros. lia.
    + destruct Hseq as [Hs | Hs].
      * apply (IH w' c); congruence.
      * rewrite Hc in Hs. simpl in Hs.
        destruct (IH w' (c + 1)%Z Hs ltac:(lia)) as [Hsort Hall].
        split; [assumption |].
        eapply Forall_impl; [exact Hall |]. simpl. intros. lia.
Qed.

Lemma allocations_sorted Es : forall w, StronglySorted Z.lt (fst (allocations Es w)).
Proof.
  induction Es as [|E Es IH]; intros w; simpl.
  - constructor.
  - destruct (getNextOrderId E w) as [[v|e] w'] eqn:Hrun.
    + apply getNextOrderId_inv in Hrun. destruct Hrun as (_ & _ & _ & Hv & Hs).
      destruct (allocations_above Es w' v Hs ltac:(lia)) as [Hsort Hall].
      destruct (allocations Es w') as [vs w'']. simpl in *.
      constructor; assumption.
    + apply IH.
Qed.

Lemma sorted_NoDup (l : list Z) : StronglySorted Z.lt l -> NoDup l.
Proof.
  induction 1 as [|a l Hs IH Hall]; constructor; auto.
  intros Hin. rewrite Forall_forall in Hall.
  specialize (Hall a Hin). lia.
Qed.

(** C6 — [getNextOrderId] increments the counter and returns the new value,
    a value below 30 being raised to exactly 30 (and stored); the first
    allocation on a fresh counter (absent, or holding the seed 29) returns
    30; and whatever calls follow, failed ones included, the values returned
    increase strictly, so none repeats. *)
Theorem getNextOrderId_allocates E w :
  fails E (length (w_log w)) = false ->
  fails E (S (length (w_log w))) = false ->
  exists r w',
    getNextOrderId E w = (Ok r, w')
    /\ ((30 <= incremented (db_sequence (w_db w)))%Z ->
        r = incremented (db_sequence (w_db w)))
    /\ ((incremented (db_sequence (w_db w)) < 30)%Z -> r = 30%Z)
    /\ db_sequence (w_db w') = Some r
    /\ (db_sequence (w_db w) = None \/ db_sequence (w_db w) = Some 29%Z ->
        r = 30%Z)
    /\ (forall Es,
           StronglySorted Z.lt (r :: fst (allocations Es w'))
           /\ NoDup (r :: fst (allocations Es w'))).
Proof.
  intros H0 H1.
  destruct (getNextOrderId_ok E w H0 H1) as [w' Hrun].
  exists (Z.max 30 (incremented (db_sequence (w_db w)))), w'.
  pose proof (getNextOrderId_inv _ _ _ _ Hrun) as (_ & _ & _ & _ & Hseq).
  split; [exact Hrun |].
  split; [lia |]. split; [lia |]. split; [exact Hseq |].
  split.
  - intros [-> | ->]; reflexivity.
  - intros Es.
    assert (Hs : StronglySorted Z.lt
                   (Z.max 30 (incremented (db_sequence (w_db w)))
                      :: fst (allocations Es w'))).
    { destruct (allocations_above Es w' _ Hseq ltac:(lia)) as [Hsort Hall].
      constructor; assumption. }
    split; [exact Hs | apply sorted_NoDup, Hs].
Qed.

Lemma getNextOrderId_allocates_fresh :
  exists r w',
    getNextOrderId Ref.quiet Ref.start = (Ok r, w') /\ r = 30%Z
    /\ NoDup (r :: fst (allocations [Ref.quiet; Ref.failingAt 3; Ref.quiet] w')).
Proof.
  destruct (getNextOrderId_allocates Ref.quiet Ref.start eq_refl eq_refl)
    as (r & w' & Hrun & _ & _ & _ & Hfresh & Hsorted).
  exists r, w'. split; [exact Hrun |].
  split; [apply Hfresh; left; reflexivity | apply Hsorted].
Defined.

(* ===================================================================== *)
(** ** Atomicity of the checkout *)
(* ===================================================================== *)

Lemma knownError_storage : knownError storageError.
Proof. right; right; reflexivity. Qed.

Lemma knownError_http400 msg : knownError (httpError 400 msg).
Proof. left; reflexivity. Qed.

Lemma knownError_http404 msg : knownError (httpError 404 msg).
Proof. right; left; reflexivity. Qed.

Lemma knownError_userValidation : knownError userValidationError.
Proof. left. reflexivity. Qed.

Lemma knownError_cast s : knownError (castError s).
Proof. right; right; reflexivity. Qed.

#[local] Hint Resolve knownError_storage knownError_http400 knownError_http404
  knownError_cast : core.

Lemma knownError_not_created e : knownError e -> errorStatus e <> 201%nat.
Proof. intros [-> | [-> | ->]]; discriminate. Qed.

Section Atomicity.
Context `{Platform}.
Variable cfg : config.
Variable E : env.

Lemma getNextOrderId_throws w e w' :
  getNextOrderId E w = (Throw e, w') -> e = storageError.
Proof.
  unfold getNextOrderId. intros Hrun. run_steps; auto.
  all: destruct (_ <? 30)%Z; run_steps; auto.
Qed.

Lemma Order_save_inv oid o w r w' :
  Order_save E oid o w = (r, w') ->
  db_products (w_db w') = db_products (w_db w)
  /\ db_users (w_db w') = db_users (w_db w)
  /\ match r with
     | Ok o' =>
         db_orders (w_db w') = db_orders (w_db w) ++ [(oid, o')]
         /\ o_resumen o' = o_resumen o
     | Throw e => e = storageError
     end.
Proof.
  unfold Order_save. intros Hrun.
  destruct (JS.truthy (o_id o)).
  - run_steps; auto.
  - run_steps.
    all: repeat match goal with
      | Hn : getNextOrderId _ _ = (Ok _, _) |- _ =>
          apply getNextOrderId_inv in Hn; destruct Hn as (? & ? & ? & ? & ?)
      | Hn : getNextOrderId _ _ = (Throw _, _) |- _ =>
          pose proof (getNextOrderId_throws _ _ _ Hn);
          apply getNextOrderId_inv in Hn; destruct Hn as (? & ? & ? & ?)
      end.
    all: repeat split; congruence.
Qed.

Lemma Product_find_inv ids w r w' :
  Product_find E ids w = (r, w') ->
  w_db w' = w_db w
  /\ match r with
     | Ok pm => pm = filter (fun kv => kv.1 ∈ ids) (db_products (w_db w))
     | Throw e => e = storageError
     end.
Proof. unfold Product_find. intros Hrun. run_steps; auto. Qed.

Lemma Product_save_inv id p w r w' :
  Product_save E id p w = (r, w') ->
  db_users (w_db w') = db_users (w_db w)
  /\ db_orders (w_db w') = db_orders (w_db w)
  /\ db_sequence (w_db w') = db_sequence (w_db w)
  /\ match r with
     | Ok _ => db_products (w_db w') = <[id := p]> (db_products (w_db w))
     | Throw e => e = storageError /\ db_products (w_db w') = db_products (w_db w)
     end.
Proof. unfold Product_save. intros Hrun. run_steps; auto. Qed.

Lemma User_save_inv uid u w r w' :
  User_save E uid u w = (r, w') ->
  db_orders (w_db w') = db_orders (w_db w)
  /\ db_products (w_db w') = db_products (w_db w)
  /\ match r with
     | Ok _ => True
     | Throw e => knownError e
     end.
Proof.
  unfold User_save. intros Hrun.
  destruct (userValid u); cbn [negb] in Hrun;
    run_steps; auto using knownError_storage, knownError_userValidation.
Qed.

(** The loop writes products only, and throws errors that answer 400, 404
    or 500. *)
Lemma processItems_inv cur items :
  forall pm acc sub w r w',
    processItems E cur items pm acc sub w = (r, w') ->
    db_users (w_db w') = db_users (w_db w)
    /\ db_orders (w_db w') = db_orders (w_db w)
    /\ match r with
       | Ok _ => True
       | Throw e => knownError e
       end.
Proof.
  induction items as [|it rest IH]; intros pm acc sub w r w' Hrun; simpl in Hrun.
  - run_steps. auto.
  - destruct (pm !! productId it) as [p|].
    + destruct (Num.ltb _ _).
      * run_steps. unfold insufficientStock. auto.
      * run_step.
        -- apply Product_save_inv in H0. destruct H0 as (Hu & Ho & _ & _).
           apply IH in Hrun. destruct Hrun as (Hu' & Ho' & Hr).
           repeat split; congruence.
        -- apply Product_save_inv in Hrun.
           destruct Hrun as (Hu & Ho & _ & -> & _). subst. auto.
    + run_steps. auto.
Qed.


Lemma updateBuyer_inv attached o resumen w r w' :
  updateBuyer E attached o resumen w = (r, w') ->
  db_orders (w_db w') = db_orders (w_db w)
  /\ db_products (w_db w') = db_products (w_db w)
  /\ match r with
     | Ok _ => True
     | Throw e => knownError e
     end.
Proof.
  unfold updateBuyer. intros Hrun.
  destruct attached as [[uid u]|]; [| run_steps; auto].
  run_steps; auto.
  destruct (db_users (w_db w) !! uid).
  - apply User_save_inv in Hrun. simpl in Hrun. exact Hrun.
  - run_steps; auto.
Qed.

(** What a run of the callback did: on success the products were found, the
    loop ran to its end, and one order was inserted, whose summary holds the
    totals of the loop's subtotal. *)
Lemma transaction_inv items attached iu si pi sc dv rate cur w r w' :
  transaction E items attached iu si pi sc dv rate cur w = (r, w') ->
  match r with
  | Ok _ =>
      exists pm w1 w2 lines sub o,
        Product_find E (map (fun it => objectIdHex (productId it)) items) w
          = (Ok pm, w1)
        /\ size pm = length items
        /\ processItems E cur items pm [] (Fin 0) w1 = (Ok (lines, sub), w2)
        /\ db_products (w_db w') = db_products (w_db w2)
        /\ db_orders (w_db w') = db_orders (w_db w) ++ [(newObjectId E, o)]
        /\ o_resumen o ./ "totales"
           = totalsForUi sub (roundMoney (Num.mul sub rate)) sc dv
  | Throw e => knownError e
  end.
Proof.
  unfold transaction. intros Hrun.
  run_step.
  - destruct (negb _) eqn:Hsize.
    + run_steps. auto.
    + apply negb_false_iff, Nat.eqb_eq in Hsize.
      run_step.
      * destruct x1 as [lines sub]. simpl in Hrun.
        run_step.
        -- pose proof (Product_find_inv _ _ _ _ H0) as [Hdb _].
           pose proof (processItems_inv _ _ _ _ _ _ _ _ H1) as (_ & Ho1 & _).
           pose proof (Order_save_inv _ _ _ _ _ H2) as (Hp2 & _ & Ho2 & Hres).
           run_step.
           ++ apply updateBuyer_inv in H3. destruct H3 as (Ho3 & Hp3 & _).
              run_steps.
              exists x, x0, x2, lines, sub, x1.
              repeat split; try assumption; try congruence.
              rewrite Hres. reflexivity.
           ++ apply updateBuyer_inv in Hrun. destruct Hrun as (_ & _ & Hk).
              subst. exact Hk.
        -- apply Order_save_inv in Hrun. destruct Hrun as (_ & _ & ->).
           subst. auto.
      * apply processItems_inv in Hrun. destruct Hrun as (_ & _ & Hk).
        subst. exact Hk.
  - apply Product_find_inv in Hrun. destruct Hrun as (_ & ->). subst. auto.
Qed.

(** A transaction that does not commit leaves products, users and orders as
    they were; one that commits leaves what the callback wrote. *)
Lemma withTransaction_inv {A} (callback : M A) w r w' :
  withTransaction E callback w = (r, w') ->
  match r with
  | Ok a => exists w1, callback w = (Ok a, w1) /\ w_db w' = w_db w1
  | Throw e =>
      sameStore (w_db w) (w_db w')
      /\ (e = storageError \/ exists w1, callback w = (Throw e, w1))
  end.
Proof.
  unfold withTransaction. intros Hrun.
  destruct (callback w) as [[a|e] w1] eqn:Hc.
  - destruct (op E OpCommit w1) as [[u|e] w2] eqn:Hop.
    + inversion Hrun; subst. exists w1. split; [reflexivity |].
      apply op_inv in Hop. destruct Hop as (-> & _). reflexivity.
    + inversion Hrun; subst. split; [repeat split |].
      left. apply op_inv in Hop. destruct Hop as (_ & [(? & _) | (? & _)]); congruence.
  - inversion Hrun; subst. split; [repeat split |]. right. eauto.
Qed.

Lemma withSession_inv {A} (body : M A) w r w' :
  withSession E body w = (r, w') ->
  (r = Throw storageError /\ w_db w' = w_db w)
  \/ exists w1, body (logged OpStartSession w) = (r, w1) /\ w_db w' = w_db w1.
Proof.
  unfold withSession. intros Hrun. run_step.
  - run_steps. right.
    destruct (body (logged OpStartSession w)) as [r1 w1] eqn:Hb.
    inversion Hrun; subst. eauto.
  - run_steps. left. auto.
Qed.

(** A placed order answers 201 after a committed transaction; otherwise an
    error is thrown and the store is as before. *)
Lemma placeOrder_inv body items attached iu rate cur w r w' :
  placeOrder cfg E body items attached iu rate cur w = (r, w') ->
  match r with
  | Ok resp =>
      succeeded resp
      /\ exists pm w1 w2 lines sub o,
          Product_find E (map (fun it => objectIdHex (productId it)) items)
            (logged OpStartSession w) = (Ok pm, w1)
          /\ size pm = length items
          /\ processItems E cur items pm [] (Fin 0) w1 = (Ok (lines, sub), w2)
          /\ db_products (w_db w') = db_products (w_db w2)
          /\ db_orders (w_db w') = db_orders (w_db w) ++ [(newObjectId E, o)]
          /\ o_resumen o ./ "totales"
             = totalsForUi sub (roundMoney (Num.mul sub rate))
                 (calculateShippingCost cfg (shippingSourceOf body) items)
                 (discountValueOf body)
  | Throw e => knownError e /\ sameStore (w_db w) (w_db w')
  end.
Proof.
  unfold placeOrder. intros Hrun.
  apply withSession_inv in Hrun.
  destruct Hrun as [[-> Hdb] | (w1 & Hrun & Hdb)].
  - split; [auto |]. rewrite Hdb. repeat split.
  - run_step.
    + apply withTransaction_inv in H0. destruct H0 as (w2 & Htx & Hdb2).
      apply transaction_inv in Htx.
      destruct Htx as (pm & wa & wb & lines & sub & o & Hf & Hs & Hl & Hp & Ho & Ht).
      run_steps. split; [reflexivity |].
      exists pm, wa, wb, lines, sub, o.
      rewrite Hdb, Hdb2. simpl in *. repeat split; assumption.
    + apply withTransaction_inv in Hrun.
      destruct Hrun as [Hsame Herr]. subst r. rewrite Hdb.
      split; [| exact Hsame].
      destruct Herr as [-> | [w2 Htx]]; [auto |].
      apply transaction_inv in Htx. exact Htx.
Qed.

(** The handler either answers 201 after placing the order, or answers
    something else, or throws, with the store as before. *)
Lemma handler_inv reqBody w r w' :
  handler cfg E reqBody w = (r, w') ->
  match r with
  | Ok resp =>
      (~ succeeded resp /\ sameStore (w_db w) (w_db w'))
      \/ (succeeded resp
          /\ exists items attached iu w0,
              sanitizeItems ((reqBody ||| JObj []) ./ "products") = inr items
              /\ w_db w0 = w_db w
              /\ placeOrder cfg E (reqBody ||| JObj []) items attached iu
                   (taxRateOf (reqBody ||| JObj []))
                   (currencyOf (reqBody ||| JObj [])) w0 = (Ok resp, w'))
  | Throw e => knownError e /\ sameStore (w_db w) (w_db w')
  end.
Proof.
  unfold handler. intros Hrun.
  set (body := reqBody ||| JObj []) in *.
  destruct (sanitizeItems (body ./ "products")) as [msg | items] eqn:Hitems.
  { run_steps. left. split; [discriminate | repeat split]. }
  assert (Hplace : forall attached iu w0,
             w_db w0 = w_db w ->
             placeOrder cfg E body items attached iu (taxRateOf body)
               (currencyOf body) w0 = (r, w') ->
             match r with
             | Ok resp =>
                 succeeded resp
                 /\ exists items' attached' iu' w0',
                     @inr string (list item) items = inr items'
                     /\ w_db w0' = w_db w
                     /\ placeOrder cfg E body items' attached' iu'
                          (taxRateOf body) (currencyOf body) w0' = (Ok resp, w')
             | Throw e => knownError e /\ sameStore (w_db w) (w_db w')
             end).
  { intros attached iu w0 Hw0 Hp.
    pose proof (placeOrder_inv _ _ _ _ _ _ _ _ _ Hp) as Hinv.
    destruct r as [resp | e].
    - destruct Hinv as [Hs _]. split; [exact Hs |].
      exists items, attached, iu, w0. auto.
    - rewrite <- Hw0. exact Hinv. }
  destruct (JS.truthy (body ./ "userId")).
  - destruct (negb (isValidObjectId _)).
    + run_steps. split; [auto | repeat split].
    + run_step.
      * run_steps.
        destruct (db_users (w_db w) !! _) as [u|].
        -- apply Hplace in Hrun; [| reflexivity].
           destruct r; [right | ]; exact Hrun.
        -- run_steps. left. split; [discriminate | repeat split].
      * run_steps. split; [auto | repeat split].
  - destruct (JS.truthy _).
    + apply Hplace in Hrun; [| reflexivity].
      destruct r; [right | ]; exact Hrun.
    + run_steps. left. split; [discriminate | repeat split].
Qed.

End Atomicity.

(** C1 — a checkout that does not answer 201, whatever the step at which it
    stopped (refused items, buyer not resolved, product missing, stock too
    low, or any store operation rejected: session, lookup, save of a
    product, allocation of the order id, save of the order, update of the
    user, commit), leaves every product, every order and every user as they
    were; a checkout that answers 201 has added exactly one order. *)
Theorem checkout_atomic `{Platform} (cfg : config) (E : env) (reqBody : json) (w : world) :
  let r := post_invoices cfg E reqBody w in
  (succeeded (fst r)
   /\ exists o, db_orders (w_db (snd r)) = db_orders (w_db w) ++ [o])
  \/ (~ succeeded (fst r)
      /\ db_products (w_db (snd r)) = db_products (w_db w)
      /\ db_orders (w_db (snd r)) = db_orders (w_db w)
      /\ db_users (w_db (snd r)) = db_users (w_db w)).
Proof.
  unfold post_invoices.
  destruct (handler cfg E reqBody w) as [[resp | e] w'] eqn:Hrun;
    apply handler_inv in Hrun; simpl.
  - destruct Hrun as [[Hno (Hp & Hu & Ho)] | [Hyes Hplaced]].
    + right. auto.
    + left. split; [exact Hyes |].
      destruct Hplaced as (items & attached & iu & w0 & _ & Hw0 & Hp).
      apply placeOrder_inv in Hp.
      destruct Hp as (_ & pm & w1 & w2 & lines & sub & o & _ & _ & _ & _ & Ho & _).
      exists (newObjectId E, o). rewrite Ho, Hw0. reflexivity.
  - destruct Hrun as [Hk (Hp & Hu & Ho)].
    right. split; [| auto].
    unfold succeeded; simpl. now apply knownError_not_created.
Qed.

(* ===================================================================== *)
(** ** The item validator *)
(* ===================================================================== *)

Section Validator.
Context `{Platform}.

(** What [sanitizeItem] pushes for an entry it accepts. *)
Lemma sanitizeItem_inr raw it :
  sanitizeItem raw = inr it ->
  productId it = itemProductId raw
  /\ quantity it = Num.floor (itemQuantity raw)
  /\ productId it <> ""
  /\ isValidObjectId (productId it) = true
  /\ Num.isFinite (itemQuantity raw) = true
  /\ Num.leb (itemQuantity raw) (Fin 0) = false.
Proof.
  unfold sanitizeItem.
  destruct (String.eqb (itemProductId raw) "") eqn:Hid; [discriminate |].
  destruct (isValidObjectId (itemProductId raw)) eqn:Hv; simpl; [| discriminate].
  destruct (Num.isFinite (itemQuantity raw)) eqn:Hf; simpl; [| discriminate].
  destruct (Num.leb (itemQuantity raw) (Fin 0)) eqn:Hq; [discriminate |].
  intros Heq. inversion Heq; subst; simpl.
  apply String.eqb_neq in Hid. repeat split; auto.
Qed.

(** The message for an entry it refuses. *)
Lemma sanitizeItem_inl raw :
  invalidEntry raw -> exists msg, sanitizeItem raw = inl msg /\ namesEntry raw msg.
Proof.
  unfold invalidEntry, namesEntry, sanitizeItem. intros Hbad.
  destruct (String.eqb (itemProductId raw) "") eqn:Hid; [eauto |].
  destruct (isValidObjectId (itemProductId raw)) eqn:Hv; simpl; [| eauto].
  destruct (Num.isFinite (itemQuantity raw)) eqn:Hf; simpl; [| eauto].
  destruct (Num.leb (itemQuantity raw) (Fin 0)) eqn:Hq; [eauto |].
  apply String.eqb_neq in Hid.
  destruct Hbad as [? | [? | [? | ?]]]; congruence.
Qed.

Lemma sanitizeItem_valid raw :
  ~ invalidEntry raw ->
  sanitizeItem raw
  = inr {| productId := itemProductId raw;
           quantity := Num.floor (itemQuantity raw) |}.
Proof.
  unfold invalidEntry, sanitizeItem. intros Hok.
  destruct (String.eqb (itemProductId raw) "") eqn:Hid.
  { apply String.eqb_eq in Hid. tauto. }
  destruct (isValidObjectId (itemProductId raw)) eqn:Hv; simpl; [| tauto].
  destruct (Num.isFinite (itemQuantity raw)) eqn:Hf; simpl; [| tauto].
  destruct (Num.leb (itemQuantity raw) (Fin 0)) eqn:Hq; [tauto | reflexivity].
Qed.

(** The loop pushes one entry per element, in order. *)
Lemma sanitizeLoop_inr raws :
  forall acc items,
    sanitizeLoop raws acc = inr items ->
    exists new, items = acc ++ new
                /\ Forall2 (fun raw it => sanitizeItem raw = inr it) raws new.
Proof.
  induction raws as [|raw raws IH]; intros acc items Hloop; simpl in Hloop.
  - inversion Hloop; subst. exists []. split; [now rewrite app_nil_r | constructor].
  - destruct (sanitizeItem raw) as [msg | it] eqn:Hit; [discriminate |].
    apply IH in Hloop. destruct Hloop as (new & -> & Hall).
    exists (it :: new). split; [now rewrite <- app_assoc | now constructor].
Qed.

(** It stops at the first entry refused. *)
Lemma sanitizeLoop_first_invalid pre bad post :
  Forall (fun raw => ~ invalidEntry raw) pre ->
  invalidEntry bad ->
  forall acc,
    exists msg, sanitizeLoop (pre ++ bad :: post) acc = inl msg /\ namesEntry bad msg.
Proof.
  intros Hpre Hbad. induction Hpre as [|raw pre Hraw Hpre IH]; intros acc; simpl.
  - destruct (sanitizeItem_inl bad Hbad) as (msg & -> & Hmsg). eauto.
  - rewrite (sanitizeItem_valid raw Hraw). apply IH.
Qed.

Lemma sanitizeItems_inr products items :
  sanitizeItems products = inr items ->
  exists raws, products = JArr raws /\ raws <> []
               /\ Forall2 (fun raw it => sanitizeItem raw = inr it) raws items.
Proof.
  unfold sanitizeItems.
  destruct products as [| | | | |[|raw raws]|]; try discriminate.
  intros Hloop. apply sanitizeLoop_inr in Hloop.
  destruct Hloop as (new & -> & Hall). exists (raw :: raws).
  repeat split; [discriminate | exact Hall].
Qed.

(** The quantities of the canonical items are finite. *)
Lemma sanitizeItems_finite products items :
  sanitizeItems products = inr items ->
  Forall (fun it => Num.isFinite (quantity it) = true) items.
Proof.
  intros Hs. apply sanitizeItems_inr in Hs. destruct Hs as (raws & _ & _ & Hall).
  induction Hall as [|raw it raws items Hit Hall IH]; constructor; auto.
  apply sanitizeItem_inr in Hit. destruct Hit as (_ & -> & _ & _ & Hf & _).
  now apply floor_finite.
Qed.

End Validator.

Section ValidatorFirst.
Context `{Platform}.

Lemma sanitizeLoop_some_invalid raws :
  Exists invalidEntry raws ->
  forall acc, exists msg, sanitizeLoop raws acc = inl msg.
Proof.
  induction raws as [|raw raws IH]; intros Hex acc; simpl.
  - inversion Hex.
  - destruct (sanitizeItem raw) as [msg | it] eqn:Hit; [eauto |].
    apply IH. inversion Hex as [? ? Hbad | ? ? Htail]; subst; [| exact Htail].
    destruct (sanitizeItem_inl raw Hbad) as (msg & Hmsg & _). congruence.
Qed.

(** A request whose items are refused is answered 400 with the validator's
    message, before the store is touched. *)
Lemma post_invoices_invalid cfg E reqBody w msg :
  sanitizeItems ((reqBody ||| JObj []) ./ "products") = inl msg ->
  post_invoices cfg E reqBody w = (respond 400 (errorBody msg), w).
Proof. intros Hs. unfold post_invoices, handler. rewrite Hs. reflexivity. Qed.

(** With valid items, a buyer reference that names no user is answered 404
    after the one lookup. *)
Lemma post_invoices_unknown_user cfg E reqBody w items :
  sanitizeItems ((reqBody ||| JObj []) ./ "products") = inr items ->
  JS.truthy ((reqBody ||| JObj []) ./ "userId") = true ->
  isValidObjectId (JS.toString ((reqBody ||| JObj []) ./ "userId")) = true ->
  db_users (w_db w) !! objectIdHex (JS.toString ((reqBody ||| JObj []) ./ "userId")) = None ->
  fails E (length (w_log w)) = false ->
  post_invoices cfg E reqBody w
  = (respond 404 (errorBody "User not found"), logged OpUserFindById w).
Proof.
  intros Hs Ht Hv Hu Hf. unfold post_invoices, handler.
  rewrite Hs, Ht, Hv. simpl.
  unfold bind. rewrite (op_ok _ _ _ Hf). simpl. rewrite Hu. reflexivity.
Qed.

End ValidatorFirst.

(** C7 (as the code has it) — the validator converts before it tests: the
    identifier is the trimmed text of the first truthy alias and the quantity
    is read with [Number], so that [true], a numeric string or a one-element
    array count as the numbers they convert to.  For entries that hold no
    object with a [toString] property of its own: [sanitizeItems] fails when
    its input is missing, not a list or empty; it fails on the first entry
    whose identifier is empty or not an ObjectId or whose converted quantity
    is not a finite number above zero, with a message naming the field or the
    product; an accepted entry has its quantity floored; and a request with a
    refused entry (in particular a quantity of 0 or a [productId] that is not
    an ObjectId) is answered 400 with the store and its log untouched: no
    product was read. *)
Theorem sanitizeItems_rejects `{Platform} :
  (forall products,
      products = JUndef \/ JS.isArray products = false \/ products = JArr [] ->
      sanitizeItems products = inl "products array is required")
  /\ (forall pre bad post,
         Forall (fun raw => plain raw = true) (pre ++ [bad]) ->
         Forall (fun raw => ~ invalidEntry raw) pre -> invalidEntry bad ->
         exists msg, sanitizeItems (JArr (pre ++ bad :: post)) = inl msg
                     /\ namesEntry bad msg)
  /\ (forall raw,
         plain raw = true ->
         ~ invalidEntry raw ->
         sanitizeItem raw
         = inr {| productId := itemProductId raw;
                  quantity := Num.floor (itemQuantity raw) |})
  /\ (forall cfg E reqBody w raws,
         (reqBody ||| JObj []) ./ "products" = JArr raws ->
         Forall (fun raw => plain raw = true) raws ->
         Exists (fun raw => itemQuantity raw = Fin 0
                            \/ isValidObjectId (itemProductId raw) = false) raws ->
         exists msg,
           post_invoices cfg E reqBody w = (respond 400 (errorBody msg), w)).
Proof.
  repeat split.
  - intros products [-> | [Harr | ->]]; try reflexivity.
    destruct products as [| | | | |l|]; try reflexivity. discriminate.
  - intros pre bad post _ Hpre Hbad.
    unfold sanitizeItems.
    destruct (pre ++ bad :: post) as [|raw raws] eqn:Hl.
    { destruct pre; discriminate. }
    rewrite <- Hl. now apply sanitizeLoop_first_invalid.
  - intros raw _ Hok. now apply sanitizeItem_valid.
  - intros cfg E reqBody w raws Hp _ Hex.
    assert (Hinv : Exists invalidEntry raws).
    { eapply Exists_impl; [exact Hex |]. simpl.
      intros raw [Hq | Hid]; unfold invalidEntry.
      - rewrite Hq. auto.
      - auto. }
    assert (Hs : exists msg, sanitizeItems (JArr raws) = inl msg).
    { unfold sanitizeItems. destruct raws as [|raw raws']; [inversion Hinv |].
      now apply sanitizeLoop_some_invalid. }
    destruct Hs as [msg Hs]. exists msg.
    apply post_invoices_invalid. now rewrite Hp.
Qed.

Lemma sanitizeItems_rejects_zero_quantity :
  exists msg,
    post_invoices default_config Ref.quiet
      (Ref.request (JStr Ref.idU) [Ref.entry Ref.idA (Fin 1); Ref.entry Ref.idB (Fin 0)] [])
      Ref.start
    = (respond 400 (errorBody msg), Ref.start).
Proof.
  destruct (@sanitizeItems_rejects Ref.platform) as (_ & _ & _ & Hreq).
  apply (Hreq default_config Ref.quiet _ Ref.start
              [Ref.entry Ref.idA (Fin 1); Ref.entry Ref.idB (Fin 0)]).
  - reflexivity.
  - repeat constructor.
  - right. left. left. reflexivity.
Defined.

(** C7, as stated, fails: a quantity that is not a number is accepted when
    [Number] converts it to one above zero.  The boolean [true] is taken as
    1 and the string ["3"] as 3. *)
Lemma quantity_not_a_number_accepted :
  sanitizeItems
    (JArr [JObj [("productId", JStr Ref.idA); ("quantity", JBool true)];
           JObj [("productId", JStr Ref.idB); ("quantity", JStr "3")]])
  = inr [{| productId := Ref.idA; quantity := Fin 1 |};
         {| productId := Ref.idB; quantity := Fin 3 |}].
Proof. vm_compute. reflexivity. Qed.

(** C8 (as the code has it) — the handler validates the items first and
    resolves the buyer second: a request whose items are refused is answered
    400 with the validator's message whatever its buyer reference, and a
    request with valid items whose [userId] is a well-formed identifier of
    no stored user is answered 404 [User not found]. *)
Theorem checkout_validates_before_buyer `{Platform}
    (cfg : config) (E : env) (reqBody : json) (w : world) :
  (forall msg,
      sanitizeItems ((reqBody ||| JObj []) ./ "products") = inl msg ->
      post_invoices cfg E reqBody w = (respond 400 (errorBody msg), w))
  /\ (forall items,
         sanitizeItems ((reqBody ||| JObj []) ./ "products") = inr items ->
         JS.truthy ((reqBody ||| JObj []) ./ "userId") = true ->
         isValidObjectId (JS.toString ((reqBody ||| JObj []) ./ "userId")) = true ->
         db_users (w_db w)
           !! objectIdHex (JS.toString ((reqBody ||| JObj []) ./ "userId")) = None ->
         fails E (length (w_log w)) = false ->
         post_invoices cfg E reqBody w
         = (respond 404 (errorBody "User not found"), logged OpUserFindById w)).
Proof.
  split.
  - intros msg. apply post_invoices_invalid.
  - intros items. apply post_invoices_unknown_user.
Qed.

Lemma checkout_validates_before_buyer_unknown :
  post_invoices default_config Ref.quiet
    (Ref.request (JStr nobody) [Ref.entry Ref.idA (Fin 1)] []) Ref.start
  = (respond 404 (errorBody "User not found"), logged OpUserFindById Ref.start).
Proof.
  apply (proj2 (@checkout_validates_before_buyer Ref.platform default_config
                  Ref.quiet _ Ref.start)
           [{| productId := Ref.idA; quantity := Fin 1 |}]);
    reflexivity.
Defined.

(** C8, as stated, fails: with a buyer reference that names no user and an
    empty items list, the answer is 400 from the validator, not 404. *)
Lemma buyer_not_resolved_first :
  db_users Ref.shop !! nobody = None
  /\ fst (post_invoices default_config Ref.quiet
            (Ref.request (JStr nobody) [] []) Ref.start)
     = respond 400 (errorBody "products array is required").
Proof. split; reflexivity. Qed.

(* ===================================================================== *)
(** ** Stock *)
(* ===================================================================== *)

(** The documents found for a list of identifiers are as many as the
    identifiers only if no identifier repeats and each one is stored. *)
Lemma size_filter_ids {A} (m : gmap string A) (ids : list string) :
  size (filter (fun kv => kv.1 ∈ ids) m) = length ids ->
  NoDup ids /\ forall id, id ∈ ids -> is_Some (m !! id).
Proof.
  intros Hsize.
  set (fm := filter (fun kv : string * A => kv.1 ∈ ids) m) in *.
  assert (Hnd : NoDup (map_to_list fm).*1) by apply NoDup_fst_map_to_list.
  assert (Hsub : forall k, k ∈ (map_to_list fm).*1 -> k ∈ ids).
  { intros k Hk. apply list_elem_of_fmap in Hk. destruct Hk as ([k' a] & -> & Hin).
    apply elem_of_map_to_list in Hin. unfold fm in Hin.
    apply map_lookup_filter_Some in Hin. tauto. }
  assert (Hperm : (map_to_list fm).*1 ≡ₚ ids).
  { apply submseteq_length_Permutation.
    - now apply NoDup_submseteq.
    - rewrite length_fmap. unfold size, map_size in Hsize.
      rewrite <- Hsize. apply Nat.eq_le_incl. symmetry. apply length_map_to_list. }
  split.
  - now rewrite <- Hperm.
  - intros id Hid. rewrite <- Hperm in Hid.
    apply list_elem_of_fmap in Hid. destruct Hid as ([k a] & -> & Hin).
    apply elem_of_map_to_list in Hin. unfold fm in Hin.
    apply map_lookup_filter_Some in Hin. simpl. destruct Hin as [Hm _]. eauto.
Qed.

Section Stock.
Context `{Platform}.
Variable cfg : config.
Variable E : env.

(** One turn of the loop, for a line whose product is in the map. *)
Lemma processItems_line cur it rest pm acc sub w p :
  pm !! productId it = Some p ->
  (Num.ltb (toNumber (JNum (p_stock p)) (Fin 0)) (quantity it) = true ->
   processItems E cur (it :: rest) pm acc sub w = (Throw (insufficientStock it p), w))
  /\ (Num.ltb (toNumber (JNum (p_stock p)) (Fin 0)) (quantity it) = false ->
      fails E (length (w_log w)) = false ->
      processItems E cur (it :: rest) pm acc sub w
      = processItems E cur rest
          (<[productId it := decremented p it]> pm)
          (acc ++ [priceLine cur it (decremented p it)])
          (roundMoney (Num.add sub (l_lineTotal (priceLine cur it (decremented p it)))))
          {| w_db := {| db_products :=
                          <[productId it := decremented p it]> (db_products (w_db w));
                        db_users := db_users (w_db w);
                        db_orders := db_orders (w_db w);
                        db_sequence := db_sequence (w_db w) |};
             w_log := w_log w ++ [OpProductSave (productId it)] |}).
Proof.
  intros Hp. split.
  - intros Hlt. simpl. rewrite Hp, Hlt. reflexivity.
  - intros Hge Hf. simpl. rewrite Hp, Hge.
    unfold bind at 1. unfold Product_save, bind.
    rewrite (op_ok _ _ _ Hf). reflexivity.
Qed.

(** The loop keeps every stock at or above zero. *)
Lemma processItems_stock cur items :
  forall pm acc sub w r w',
    Forall (fun it => Num.isFinite (quantity it) = true) items ->
    stockNonneg (w_db w) ->
    processItems E cur items pm acc sub w = (r, w') ->
    stockNonneg (w_db w').
Proof.
  induction items as [|it rest IH]; intros pm acc sub w r w' Hfin Hnn Hrun;
    simpl in Hrun.
  - run_steps. exact Hnn.
  - inversion Hfin as [|? ? Hq Hrest]; subst.
    destruct (pm !! productId it) as [p|]; [| run_steps; exact Hnn].
    destruct (Num.ltb _ _) eqn:Hlt; [run_steps; exact Hnn |].
    run_step.
    + apply Product_save_inv in H0. destruct H0 as (_ & _ & _ & Hp).
      eapply IH; [exact Hrest | | exact Hrun].
      unfold stockNonneg. rewrite Hp.
      apply map_Forall_insert_2; [| exact Hnn]. simpl.
      apply sub_nonneg; auto. apply toNumber_finite.
    + apply Product_save_inv in Hrun. destruct Hrun as (_ & _ & _ & _ & Hp).
      unfold stockNonneg. rewrite Hp. exact Hnn.
Qed.

(** When no product is named twice, a loop that ends has taken from each
    line's product exactly the line's quantity, which was available, and
    left the other products alone. *)
Lemma processItems_exact cur items :
  forall pm acc sub w r w',
    NoDup (map productId items) ->
    processItems E cur items pm acc sub w = (Ok r, w') ->
    (forall it, it ∈ items ->
       exists p, pm !! productId it = Some p
                 /\ Num.ltb (toNumber (JNum (p_stock p)) (Fin 0)) (quantity it) = false
                 /\ db_products (w_db w') !! productId it = Some (decremented p it))
    /\ (forall id, id ∉ map productId items ->
          db_products (w_db w') !! id = db_products (w_db w) !! id).
Proof.
  induction items as [|it rest IH]; intros pm acc sub w r w' Hnd Hrun;
    simpl in Hrun.
  - run_steps. split; [| reflexivity]. intros it Hin. inversion Hin.
  - simpl in Hnd. apply NoDup_cons in Hnd. destruct Hnd as [Hnotin Hnd].
    destruct (pm !! productId it) as [p|] eqn:Hp; [| run_steps].
    destruct (Num.ltb _ _) eqn:Hlt; [run_steps |].
    run_step; [| run_steps].
    apply Product_save_inv in H0. destruct H0 as (_ & _ & _ & Hsave).
    apply IH in Hrun; [| exact Hnd]. destruct Hrun as [Hlines Hothers].
    split.
    + intros it' Hin. apply elem_of_cons in Hin. destruct Hin as [-> | Hin].
      * exists p. repeat split; [exact Hp | exact Hlt |].
        rewrite (Hothers _ Hnotin), Hsave. apply lookup_insert_eq.
      * destruct (Hlines it' Hin) as (p' & Hp' & Hlt' & Hstore).
        exists p'. repeat split; [| exact Hlt' | exact Hstore].
        rewrite lookup_insert_ne in Hp'; [exact Hp' |].
        intros Heq. apply Hnotin. rewrite Heq.
        apply list_elem_of_fmap. eauto.
    + intros id Hid. apply not_elem_of_cons in Hid. destruct Hid as [Hne Hid].
      rewrite (Hothers _ Hid), Hsave. now apply lookup_insert_ne.
Qed.

End Stock.

(** What a request did: either it was not answered 201 and products, users
    and orders are as before, or it was and the callback ran to its end on
    the validated items. *)
Lemma post_invoices_inv `{Platform} (cfg : config) (E : env) (reqBody : json) (w : world) :
  let body := reqBody ||| JObj [] in
  let r := post_invoices cfg E reqBody w in
  (~ succeeded (fst r) /\ sameStore (w_db w) (w_db (snd r)))
  \/ (succeeded (fst r)
      /\ exists items pm w1 w2 lines sub o,
          sanitizeItems (body ./ "products") = inr items
          /\ w_db w1 = w_db w
          /\ pm = filter (fun kv => kv.1 ∈ map (fun it => objectIdHex (productId it)) items)
                         (db_products (w_db w))
          /\ size pm = length items
          /\ processItems E (currencyOf body) items pm [] (Fin 0) w1
             = (Ok (lines, sub), w2)
          /\ db_products (w_db (snd r)) = db_products (w_db w2)
          /\ db_orders (w_db (snd r)) = db_orders (w_db w) ++ [(newObjectId E, o)]
          /\ o_resumen o ./ "totales"
             = totalsForUi sub (roundMoney (Num.mul sub (taxRateOf body)))
                 (calculateShippingCost cfg (shippingSourceOf body) items)
                 (discountValueOf body)).
Proof.
  intros body r. unfold r, post_invoices.
  destruct (handler cfg E reqBody w) as [[resp | e] w'] eqn:Hrun;
    apply handler_inv in Hrun; simpl.
  - destruct Hrun as [Hno | [Hyes Hplaced]]; [left; exact Hno | right].
    split; [exact Hyes |].
    destruct Hplaced as (items & attached & iu & w0 & Hitems & Hw0 & Hp).
    apply placeOrder_inv in Hp.
    destruct Hp as (_ & pm & w1 & w2 & lines & sub & o & Hfind & Hsize & Hloop
                    & Hprod & Hord & Htot).
    apply Product_find_inv in Hfind. destruct Hfind as [Hdb Hpm]. simpl in Hdb.
    exists items, pm, w1, w2, lines, sub, o.
    rewrite <- Hw0. repeat split; try assumption; congruence.
  - destruct Hrun as [Hk Hsame]. left. split; [| exact Hsame].
    unfold succeeded; simpl. now apply knownError_not_created.
Qed.

(** The documents found for identifiers that do not repeat and are all
    stored are as many as the identifiers. *)
Lemma size_filter_all {A} (m : gmap string A) (ids : list string) :
  NoDup ids ->
  (forall id, id ∈ ids -> is_Some (m !! id)) ->
  size (filter (fun kv => kv.1 ∈ ids) m) = length ids.
Proof.
  intros Hnd Hall.
  rewrite <- (size_dom (D := gset string)).
  rewrite <- (size_list_to_set (C := gset string) ids Hnd).
  f_equal. apply set_eq. intros k.
  rewrite elem_of_dom, elem_of_list_to_set. split.
  - intros [a Ha]. apply map_lookup_filter_Some in Ha. tauto.
  - intros Hk. destruct (Hall k Hk) as [a Ha]. exists a.
    apply map_lookup_filter_Some. auto.
Qed.

Lemma Qred_inject_Z (z : Z) : Qred (inject_Z z) = inject_Z z.
Proof.
  unfold Qred, inject_Z.
  pose proof (Z.ggcd_gcd z 1) as Hg.
  pose proof (Z.ggcd_correct_divisors z 1) as Hd.
  destruct (Z.ggcd z 1) as [g [a b]]. simpl in *.
  rewrite Z.gcd_1_r in Hg. subst g. destruct Hd as [Ha Hb].
  rewrite Z.mul_1_l in Ha, Hb. subst. reflexivity.
Qed.

(** A whole-number stock less a whole-number quantity. *)
Lemma sub_ofZ `{Platform} (z k : Z) :
  Num.sub (toNumber (JNum (Num.ofZ z)) (Fin 0)) (Num.ofZ k) = Num.ofZ (z - k).
Proof.
  unfold toNumber. simpl. unfold Num.sub, Num.neg, Num.add, Num.ofZ, Num.fin.
  f_equal.
  rewrite (Qred_complete _ (inject_Z (z - k))).
  - apply Qred_inject_Z.
  - rewrite Qred_correct. unfold Qeq, inject_Z, Qplus, Qopp. simpl. lia.
Qed.

Lemma ltb_ofZ (z k : Z) : Num.ltb (Num.ofZ z) (Num.ofZ k) = false -> (k <= z)%Z.
Proof.
  unfold Num.ltb, Num.ofZ, Num.Qltb. destruct (inject_Z z ?= inject_Z k)%Q eqn:Hc;
    try discriminate; intros _.
  - apply Qeq_alt in Hc. unfold Qeq in Hc. simpl in Hc. lia.
  - apply Qgt_alt in Hc. unfold Qlt in Hc. simpl in Hc. lia.
Qed.

Section Progress.
Context `{Platform}.
Variable cfg : config.
Variable E : env.
Hypothesis Hquiet : noFault E.

Lemma op_done o w : op E o w = (Ok tt, logged o w).
Proof. apply op_ok, Hquiet. Qed.

Lemma bind_Ok {A B} (m : M A) (k : A -> M B) w a w1 :
  m w = (Ok a, w1) -> bind m k w = k a w1.
Proof. intros Hm. unfold bind. now rewrite Hm. Qed.

Lemma bind_Throw {A B} (m : M A) (k : A -> M B) w e w1 :
  m w = (Throw e, w1) -> bind m k w = (Throw e, w1).
Proof. intros Hm. unfold bind. now rewrite Hm. Qed.

Lemma Product_find_done ids w :
  Product_find E ids w
  = (Ok (filter (fun kv => kv.1 ∈ ids) (db_products (w_db w))), logged OpProductFind w).
Proof. unfold Product_find, bind, getDb, ret. now rewrite op_done. Qed.

(** The loop runs to its end when every line finds its product with
    enough stock. *)
Lemma processItems_completes cur items :
  forall pm acc sub w,
    NoDup (map productId items) ->
    (forall it, it ∈ items ->
       exists p, pm !! productId it = Some p
                 /\ Num.ltb (toNumber (JNum (p_stock p)) (Fin 0)) (quantity it) = false) ->
    exists r w', processItems E cur items pm acc sub w = (Ok r, w').
Proof.
  induction items as [|it rest IH]; intros pm acc sub w Hnd Hall.
  - simpl. unfold ret. eauto.
  - simpl in Hnd. apply NoDup_cons in Hnd. destruct Hnd as [Hnotin Hnd].
    destruct (Hall it) as (p & Hp & Hge); [apply elem_of_cons; auto |].
    destruct (processItems_line E cur it rest pm acc sub w p Hp) as [_ Hstep].
    rewrite (Hstep Hge (Hquiet _)).
    apply IH; [exact Hnd |].
    intros it' Hin. destruct (Hall it') as (p' & Hp' & Hge'); [apply elem_of_cons; auto |].
    exists p'. split; [| exact Hge'].
    rewrite lookup_insert_ne; [exact Hp' |].
    intros Heq. apply Hnotin. rewrite Heq. apply list_elem_of_fmap. eauto.
Qed.

(** The loop stops at the first line whose product has less stock than
    the quantity asked. *)
Lemma processItems_stops cur pre :
  forall it post pm acc sub w p,
    NoDup (map productId (pre ++ it :: post)) ->
    (forall x, x ∈ pre ->
       exists q, pm !! productId x = Some q
                 /\ Num.ltb (toNumber (JNum (p_stock q)) (Fin 0)) (quantity x) = false) ->
    pm !! productId it = Some p ->
    Num.ltb (toNumber (JNum (p_stock p)) (Fin 0)) (quantity it) = true ->
    exists w', processItems E cur (pre ++ it :: post) pm acc sub w
               = (Throw (insufficientStock it p), w').
Proof.
  induction pre as [|x pre IH]; intros it post pm acc sub w p Hnd Hall Hp Hlt.
  - destruct (processItems_line E cur it post pm acc sub w p Hp) as [Hstop _].
    exists w. exact (Hstop Hlt).
  - simpl in Hnd. apply NoDup_cons in Hnd. destruct Hnd as [Hnotin Hnd].
    destruct (Hall x) as (q & Hq & Hge); [apply elem_of_cons; auto |].
    destruct (processItems_line E cur x (pre ++ it :: post) pm acc sub w q Hq)
      as [_ Hstep].
    change ((x :: pre) ++ it :: post) with (x :: (pre ++ it :: post)).
    rewrite (Hstep Hge (Hquiet _)).
    apply IH; [exact Hnd | | | exact Hlt].
    + intros x' Hin. destruct (Hall x') as (q' & Hq' & Hge'); [apply elem_of_cons; auto |].
      exists q'. split; [| exact Hge'].
      rewrite lookup_insert_ne; [exact Hq' |].
      intros Heq. apply Hnotin. rewrite Heq. apply list_elem_of_fmap.
      exists x'. split; [reflexivity |]. apply elem_of_app. auto.
    + rewrite lookup_insert_ne; [exact Hp |].
      intros Heq. apply Hnotin. rewrite Heq. apply list_elem_of_fmap.
      exists it. split; [reflexivity |]. apply elem_of_app. right.
      apply elem_of_cons. auto.
Qed.

Lemma Order_save_done oid o w : exists o' w', Order_save E oid o w = (Ok o', w').
Proof.
  unfold Order_save.
  destruct (JS.truthy (o_id o)).
  - unfold bind, ret, getDb, putDb. rewrite op_done. eauto.
  - destruct (getNextOrderId_ok E w (Hquiet _) (Hquiet _)) as [w1 Hn].
    unfold bind at 1. unfold bind at 1. rewrite Hn.
    unfold bind, ret, getDb, putDb. rewrite op_done. eauto.
Qed.

Lemma updateBuyer_done attached o resumen w :
  match attached with
  | Some (uid, _) => forall u, db_users (w_db w) !! uid = Some u -> userValid u = true
  | None => True
  end ->
  exists w', updateBuyer E attached o resumen w = (Ok tt, w').
Proof.
  intros Hvalid. unfold updateBuyer. destruct attached as [[uid u0]|].
  - unfold bind at 1. rewrite op_done. unfold bind, getDb. simpl.
    destruct (db_users (w_db w) !! uid) as [u|] eqn:Hu.
    + unfold User_save.
      replace (userValid _) with (userValid u) by reflexivity.
      rewrite (Hvalid u eq_refl). simpl. unfold bind, getDb, putDb. rewrite op_done.
      eauto.
    + unfold ret. eauto.
  - unfold ret. eauto.
Qed.

(** The map the callback builds, for canonical identifiers that do not
    repeat and are all stored: one document per line, the stored one. *)
Lemma productMap_all items (d : db) :
  NoDup (map productId items) ->
  (forall x, x ∈ items ->
     objectIdHex (productId x) = productId x
     /\ is_Some (db_products d !! productId x)) ->
  let pm := filter (fun kv => kv.1 ∈ map (fun x => objectIdHex (productId x)) items)
                   (db_products d) in
  size pm = length items
  /\ forall x, x ∈ items -> pm !! productId x = db_products d !! productId x.
Proof.
  intros Hnd Hall.
  assert (Hids : map (fun x => objectIdHex (productId x)) items = map productId items).
  { apply map_ext_in. intros x Hx. apply Hall, list_elem_of_In, Hx. }
  rewrite Hids. simpl. split.
  - rewrite size_filter_all; [apply length_map | exact Hnd |].
    intros id Hid. apply list_elem_of_fmap in Hid. destruct Hid as (x & -> & Hx).
    apply Hall, Hx.
  - intros x Hx. destruct (Hall x Hx) as [_ [p Hp]]. rewrite Hp.
    apply map_lookup_filter_Some. split; [exact Hp |]. simpl.
    apply list_elem_of_fmap. eauto.
Qed.

Lemma transaction_stops pre it post p attached iu si pi sc dv rate cur w :
  NoDup (map productId (pre ++ it :: post)) ->
  (forall x, x ∈ pre ++ it :: post ->
     objectIdHex (productId x) = productId x
     /\ is_Some (db_products (w_db w) !! productId x)) ->
  Forall (sufficient (w_db w)) pre ->
  db_products (w_db w) !! productId it = Some p ->
  Num.ltb (toNumber (JNum (p_stock p)) (Fin 0)) (quantity it) = true ->
  exists w', transaction E (pre ++ it :: post) attached iu si pi sc dv rate cur w
             = (Throw (insufficientStock it p), w').
Proof.
  intros Hnd Hall Hpre Hp Hlt.
  destruct (productMap_all _ (w_db w) Hnd Hall) as [Hsize Hpm].
  unfold transaction.
  rewrite (bind_Ok _ _ _ _ _ (Product_find_done _ w)).
  change (w_db (logged OpProductFind w)) with (w_db w) in *.
  rewrite Hsize, Nat.eqb_refl. cbn [negb].
  edestruct (processItems_stops cur pre it post) as [w' Hloop];
    [exact Hnd | | | exact Hlt |].
  - intros x Hx. rewrite Forall_forall in Hpre. destruct (Hpre x Hx) as (q & Hq & Hge).
    exists q. split; [| exact Hge]. rewrite Hpm; [exact Hq |].
    apply elem_of_app. auto.
  - rewrite Hpm; [exact Hp |]. apply elem_of_app. right. apply elem_of_cons. auto.
  - exists w'. apply bind_Throw. exact Hloop.
Qed.

Lemma transaction_completes items attached iu si pi sc dv rate cur w :
  NoDup (map productId items) ->
  (forall x, x ∈ items ->
     objectIdHex (productId x) = productId x
     /\ is_Some (db_products (w_db w) !! productId x)) ->
  Forall (sufficient (w_db w)) items ->
  match attached with
  | Some (uid, _) => forall u, db_users (w_db w) !! uid = Some u -> userValid u = true
  | None => True
  end ->
  exists r w', transaction E items attached iu si pi sc dv rate cur w = (Ok r, w').
Proof.
  intros Hnd Hall Hsuff Hbuyer.
  destruct (productMap_all _ (w_db w) Hnd Hall) as [Hsize Hpm].
  unfold transaction.
  rewrite (bind_Ok _ _ _ _ _ (Product_find_done _ w)).
  change (w_db (logged OpProductFind w)) with (w_db w) in *.
  rewrite Hsize, Nat.eqb_refl. cbn [negb].
  edestruct (processItems_completes cur items) as (r & w2 & Hloop); [exact Hnd | |].
  - intros x Hx. rewrite Forall_forall in Hsuff. destruct (Hsuff x Hx) as (q & Hq & Hge).
    exists q. split; [| exact Hge]. rewrite Hpm; [exact Hq | exact Hx].
  - rewrite (bind_Ok _ _ _ _ _ Hloop).
    pose proof (processItems_inv E _ _ _ _ _ _ _ _ Hloop) as (Hu2 & _).
    match goal with
    | |- context [Order_save E ?oid ?o] =>
        destruct (Order_save_done oid o w2) as (o' & w3 & Hsave)
    end.
    rewrite (bind_Ok _ _ _ _ _ Hsave).
    pose proof (Order_save_inv E _ _ _ _ _ Hsave) as (_ & Hu3 & _).
    match goal with
    | |- context [updateBuyer E attached o' ?res] =>
        destruct (updateBuyer_done attached o' res w3) as (w4 & Hupd)
    end.
    + destruct attached as [[uid u0]|]; [| exact I].
      rewrite Hu3, Hu2. exact Hbuyer.
    + rewrite (bind_Ok _ _ _ _ _ Hupd). unfold ret. eauto.
Qed.

Lemma placeOrder_stops body pre it post p attached iu rate cur w :
  NoDup (map productId (pre ++ it :: post)) ->
  (forall x, x ∈ pre ++ it :: post ->
     objectIdHex (productId x) = productId x
     /\ is_Some (db_products (w_db w) !! productId x)) ->
  Forall (sufficient (w_db w)) pre ->
  db_products (w_db w) !! productId it = Some p ->
  Num.ltb (toNumber (JNum (p_stock p)) (Fin 0)) (quantity it) = true ->
  exists w', placeOrder cfg E body (pre ++ it :: post) attached iu rate cur w
             = (Throw (insufficientStock it p), w').
Proof.
  intros Hnd Hall Hpre Hp Hlt.
  unfold placeOrder, withSession.
  rewrite (bind_Ok _ _ _ _ _ (op_done _ w)).
  match goal with
  | |- context [transaction E _ attached iu ?si ?pi ?sc ?dv rate cur] =>
      destruct (transaction_stops pre it post p attached iu si pi sc dv rate cur
                  (logged OpStartSession w) Hnd Hall Hpre Hp Hlt) as [w1 Htx]
  end.
  unfold bind, withTransaction. rewrite Htx. eauto.
Qed.

Lemma placeOrder_completes body items attached iu rate cur w :
  NoDup (map productId items) ->
  (forall x, x ∈ items ->
     objectIdHex (productId x) = productId x
     /\ is_Some (db_products (w_db w) !! productId x)) ->
  Forall (sufficient (w_db w)) items ->
  match attached with
  | Some (uid, _) => forall u, db_users (w_db w) !! uid = Some u -> userValid u = true
  | None => True
  end ->
  exists resp w', placeOrder cfg E body items attached iu rate cur w = (Ok resp, w')
                  /\ succeeded resp.
Proof.
  intros Hnd Hall Hsuff Hbuyer.
  unfold placeOrder, withSession.
  rewrite (bind_Ok _ _ _ _ _ (op_done _ w)).
  match goal with
  | |- context [transaction E _ attached iu ?si ?pi ?sc ?dv rate cur] =>
      destruct (transaction_completes items attached iu si pi sc dv rate cur
                  (logged OpStartSession w) Hnd Hall Hsuff Hbuyer) as (r & w1 & Htx)
  end.
  unfold bind, withTransaction. rewrite Htx, op_done. unfold ret.
  eexists. eexists. split; [reflexivity | reflexivity].
Qed.

(** A request whose items are accepted and whose buyer resolves reaches the
    transaction. *)
Lemma handler_places reqBody items w :
  let body := reqBody ||| JObj [] in
  sanitizeItems (body ./ "products") = inr items ->
  buyerResolves body (w_db w) ->
  exists attached iu w0,
    handler cfg E reqBody w
    = placeOrder cfg E body items attached iu (taxRateOf body) (currencyOf body) w0
    /\ w_db w0 = w_db w
    /\ match attached with
       | Some (uid, _) =>
           forall u, db_users (w_db w) !! uid = Some u -> userValid u = true
       | None => True
       end.
Proof.
  intros body Hitems Hbuyer. unfold handler. fold body. rewrite Hitems.
  destruct Hbuyer as [(s & u & Hid & Hs & Hvalid & Hu & Huv) | [Hno Hinline]].
  - rewrite Hid.
    replace (JS.truthy (JStr s)) with true
      by (destruct s; [contradiction | reflexivity]).
    change (JS.toString (JStr s)) with s. rewrite Hvalid. cbn [negb].
    rewrite (bind_Ok _ _ _ _ _ (op_done _ w)). unfold bind, getDb.
    change (w_db (logged OpUserFindById w)) with (w_db w). rewrite Hu.
    eexists (Some (objectIdHex s, u)), _, _. split; [reflexivity |].
    split; [reflexivity |]. intros u' Hu'. congruence.
  - rewrite Hno, Hinline. eexists None, _, _. split; [reflexivity |]. auto.
Qed.

Lemma insufficientStock_answer it p :
  errorStatus (insufficientStock it p) = 400%nat
  /\ (if String.eqb (e_message (insufficientStock it p)) ""
      then "Unable to generate invoice" else e_message (insufficientStock it p))
     = "Insufficient stock for "
         +:+ (if String.eqb (p_nombre p) "" then productId it else p_nombre p).
Proof. split; reflexivity. Qed.

End Progress.




(* ===================================================================== *)
(** ** Totals *)
(* ===================================================================== *)

Section Totals.
Context `{Platform}.
Variable cfg : config.
Variable E : env.

Lemma priceLine_finite cur it p :
  Num.isFinite (quantity it) = true ->
  Num.isFinite (l_lineTotal (priceLine cur it p)) = true.
Proof.
  intros Hq. unfold priceLine; cbn [l_lineTotal].
  apply roundMoney_finite, mul_finite; [| exact Hq].
  apply roundMoney_finite, mul_finite; [apply toNumber_finite |].
  apply sub_finite; [reflexivity |].
  apply div100_finite, toNumber_finite.
Qed.

(** The subtotal of the loop is a finite number. *)
Lemma processItems_finite cur items :
  forall pm acc sub w lines sub' w',
    Forall (fun it => Num.isFinite (quantity it) = true) items ->
    Num.isFinite sub = true ->
    processItems E cur items pm acc sub w = (Ok (lines, sub'), w') ->
    Num.isFinite sub' = true.
Proof.
  induction items as [|it rest IH]; intros pm acc sub w lines sub' w' Hfin Hsub Hrun;
    cbn [processItems] in Hrun.
  - run_steps. exact Hsub.
  - inversion Hfin as [|? ? Hq Hrest]; subst.
    destruct (pm !! productId it) as [p|]; [| run_steps].
    destruct (Num.ltb _ _); [run_steps |].
    run_step; [| run_steps].
    eapply IH; [exact Hrest | | exact Hrun].
    apply roundMoney_finite, add_finite; [exact Hsub |].
    now apply priceLine_finite.
Qed.

Lemma totalUnits_finite (items : list item) :
  Forall (fun it => Num.isFinite (quantity it) = true) items ->
  forall sum,
    Num.isFinite sum = true ->
    Num.isFinite
      (fold_left
         (fun sum it =>
            Num.add sum (if Num.truthy (quantity it) then quantity it else Fin 0))
         items sum) = true.
Proof.
  induction 1 as [|it items Hq Hall IH]; intros sum Hsum; simpl; [exact Hsum |].
  apply IH. apply add_finite; [exact Hsum |].
  destruct (Num.truthy (quantity it)); [exact Hq | reflexivity].
Qed.

Lemma calculateShippingCost_finite shippingSource items :
  Forall (fun it => Num.isFinite (quantity it) = true) items ->
  Num.isFinite (calculateShippingCost cfg shippingSource items) = true.
Proof.
  intros Hfin. unfold calculateShippingCost. cbv zeta.
  set (manualCost := toNumber _ NaN).
  destruct (Num.isFinite manualCost && Num.geb manualCost (Fin 0)) eqn:Hm.
  - apply roundMoney_finite. apply andb_true_iff in Hm. tauto.
  - apply roundMoney_finite, min_finite; [reflexivity |].
    apply add_finite; [reflexivity |].
    apply mul_finite; [| reflexivity].
    apply max_finite; [reflexivity |].
    apply sub_finite; [| reflexivity].
    now apply totalUnits_finite.
Qed.

Lemma discountValueOf_finite body : Num.isFinite (discountValueOf body) = true.
Proof.
  unfold discountValueOf. apply max_finite; [reflexivity |].
  apply roundMoney_finite, toNumber_finite.
Qed.

Lemma taxRateOf_finite body : Num.isFinite (taxRateOf body) = true.
Proof.
  unfold taxRateOf. destruct (body ./ "taxRate") as [| | |[q| | |]| | |]; reflexivity.
Qed.

(** [Math.max(0, x)] is [x] itself when [x] is at least zero. *)
Lemma max0_id q : (0 <= Qred q)%Q -> Num.max (Fin 0) (Num.fin q) = Num.fin q.
Proof.
  intros Hq. unfold Num.fin, Num.max, Num.ltb, Num.Qltb.
  destruct (Qcompare_spec 0 (Qred q)) as [Heq | Hlt | Hgt].
  - f_equal. change 0%Q with (Qred 0). apply Qred_complete.
    rewrite Qred_correct in Heq. exact Heq.
  - reflexivity.
  - exfalso. apply (Qlt_irrefl 0). eapply Qle_lt_trans; eassumption.
Qed.

End Totals.

Lemma sub_fin_form a b :
  Num.isFinite a = true -> Num.isFinite b = true -> exists q, Num.sub a b = Num.fin q.
Proof.
  destruct a as [x| | |], b as [y| | |]; simpl; try discriminate.
  intros _ _. eexists. reflexivity.
Qed.

(** [Math.max(0, x)] before the rounding: the result is at least zero for
    every [x] but [NaN], the infinities included, and the clamp changes
    nothing when [x] is at least zero. *)
Lemma clamped_nonneg (x : num) :
  x <> NaN -> nonneg (roundMoney (Num.max (Fin 0) x)).
Proof.
  destruct x as [q| | |]; intros Hx; [| reflexivity | reflexivity | contradiction].
  apply roundMoney_nonneg.
  - apply max_finite; reflexivity.
  - apply nonneg_max0. reflexivity.
Qed.

Lemma clamped_same (x : num) :
  nonneg x -> roundMoney (Num.max (Fin 0) x) = roundMoney x.
Proof.
  destruct x as [q| | |]; intros Hx; try reflexivity; try discriminate Hx.
  apply nonneg_Fin in Hx.
  cbn [Num.max Num.ltb]. unfold Num.Qltb.
  destruct (Qcompare_spec 0 q) as [Heq | Hlt | Hgt]; [| reflexivity |].
  - unfold roundMoney.
    replace (Num.mul (Fin 0) (Fin 100)) with (Num.mul (Fin q) (Fin 100));
      [reflexivity |].
    cbn [Num.mul]. unfold Num.fin. f_equal.
    apply Qred_complete. rewrite <- Heq. reflexivity.
  - exfalso. apply (Qlt_irrefl 0). eapply Qle_lt_trans; eassumption.
Qed.

(** C5 (as the code has it) — the order persisted by a successful checkout
    of a plain body has [resumen.totales.total = roundMoney(max(0, subtotal +
    iva + envio - discount))] over the other four fields of
    [resumen.totales]; it is the rounded [subtotal + iva + envio - discount]
    whenever that difference is at least zero; and it is at least zero
    whenever that difference is a number, whatever the discount (when the
    amounts are so large that the difference is [NaN], so is the total). *)
Theorem order_total `{Platform} (cfg : config) (E : env) (reqBody : json) (w : world) :
  succeeded (fst (post_invoices cfg E reqBody w)) ->
  plain (reqBody ||| JObj []) = true ->
  exists oid o subtotal tax shipping discount total,
    db_orders (w_db (snd (post_invoices cfg E reqBody w)))
    = db_orders (w_db w) ++ [(oid, o)]
    /\ o_resumen o ./ "totales" ./ "subtotal" = JNum subtotal
    /\ o_resumen o ./ "totales" ./ "iva" = JNum tax
    /\ o_resumen o ./ "totales" ./ "envio" = JNum shipping
    /\ o_resumen o ./ "totales" ./ "discount" = JNum discount
    /\ o_resumen o ./ "totales" ./ "total" = JNum total
    /\ total
       = roundMoney
           (Num.max (Fin 0)
              (Num.sub (Num.add (Num.add subtotal tax) shipping) discount))
    /\ (Num.sub (Num.add (Num.add subtotal tax) shipping) discount <> NaN ->
        nonneg total)
    /\ (nonneg (Num.sub (Num.add (Num.add subtotal tax) shipping) discount) ->
        total
        = roundMoney (Num.sub (Num.add (Num.add subtotal tax) shipping) discount)).
Proof.
  intros Hyes _.
  pose proof (post_invoices_inv cfg E reqBody w) as Hinv. simpl in Hinv.
  destruct Hinv as [[Hno _] | [_ Hok]]; [contradiction |].
  destruct Hok as (items & pm & w1 & w2 & lines & sub & o & Hitems & _ & _ & _
                   & Hloop & _ & Hord & Htot).
  set (body := reqBody ||| JObj []) in *.
  set (tax := roundMoney (Num.mul sub (taxRateOf body))) in *.
  set (sc := calculateShippingCost cfg (shippingSourceOf body) items) in *.
  set (dv := discountValueOf body) in *.
  exists (newObjectId E), o, sub, tax, sc, dv.
  eexists. split; [exact Hord |].
  rewrite Htot. unfold totalsForUi.
  do 6 (split; [reflexivity |]).
  split.
  - apply clamped_nonneg.
  - apply clamped_same.
Qed.

Lemma order_total_shop :
  exists oid o total,
    db_orders (w_db (snd (post_invoices default_config Ref.quiet
                            (Ref.request (JStr Ref.idU) [Ref.entry Ref.idA (Fin 3)]
                               [("discount", JNum (Fin 100))])
                            Ref.start)))
    = [(oid, o)]
    /\ o_resumen o ./ "totales" ./ "total" = JNum total.
Proof.
  assert (Hyes : succeeded
                   (fst (post_invoices default_config Ref.quiet
                           (Ref.request (JStr Ref.idU) [Ref.entry Ref.idA (Fin 3)]
                              [("discount", JNum (Fin 100))])
                           Ref.start)))
    by (vm_compute; reflexivity).
  destruct (order_total default_config Ref.quiet _ Ref.start Hyes eq_refl)
    as (oid & o & subtotal & tax & shipping & discount & total & Hord & _ & _ & _ & _
        & Htotal & _).
  exists oid, o, total. auto.
Defined.

(** C5, as stated, fails: with a discount of 100 on an order of 27 plus 4.05
    of tax, the persisted total is 0, while the rounded
    [subtotal + iva + envio - discount] is -68.95. *)
Lemma total_is_clamped :
  map (fun o => o_resumen (snd o) ./ "totales")
      (db_orders (w_db (snd (post_invoices default_config Ref.quiet
                               (Ref.request (JStr Ref.idU) [Ref.entry Ref.idA (Fin 3)]
                                  [("discount", JNum (Fin 100))])
                               Ref.start))))
  = [JObj [("subtotal", JNum (Fin 27)); ("iva", JNum (Fin (81 # 20)));
           ("envio", JNum (Fin 0)); ("discount", JNum (Fin 100));
           ("total", JNum (Fin 0))]]
  /\ roundMoney
       (Num.sub (Num.add (Num.add (Fin 27) (Fin (81 # 20))) (Fin 0)) (Fin 100))
     = Fin (-1379 # 20).
Proof. split; vm_compute; reflexivity. Qed.

(* ===================================================================== *)
(** ** The batch lookup of products *)
(* ===================================================================== *)

Section BatchLookup.
Context `{Platform}.
Variable E : env.

(** Two lines whose identifiers denote the same ObjectId make the callback
    throw the 404 of the batch lookup, whether the product exists or not. *)
Lemma transaction_duplicates items attached iu si pi sc dv rate cur w :
  ~ NoDup (map (fun it => objectIdHex (productId it)) items) ->
  fails E (length (w_log w)) = false ->
  exists missing,
    transaction E items attached iu si pi sc dv rate cur w
    = (Throw (httpError 404 ("Products not found: " +:+ Str.join ", " missing)),
       logged OpProductFind w)
    /\ forall id, id ∈ missing ->
         db_products (w_db w) !! id = None
         \/ id ∉ map (fun it => objectIdHex (productId it)) items.
Proof.
  intros Hdup Hf. unfold transaction, bind, Product_find, bind, getDb, ret.
  rewrite (op_ok _ _ _ Hf). simpl.
  set (ids := map (fun it => objectIdHex (productId it)) items) in *.
  set (pm := filter (fun kv : string * product => kv.1 ∈ ids) (db_products (w_db w))).
  destruct (size pm =? length items)%nat eqn:Hsize.
  - exfalso. apply Hdup. apply Nat.eqb_eq in Hsize.
    unfold pm in Hsize. rewrite <- (length_map (fun it => objectIdHex (productId it)))
      in Hsize.
    now apply size_filter_ids in Hsize.
  - simpl. eexists. split; [reflexivity |].
    intros id Hid. apply list_elem_of_fmap in Hid. destruct Hid as (it & -> & Hin).
    apply list_elem_of_In, filter_In in Hin. destruct Hin as [_ Hhas].
    unfold has in Hhas.
    destruct (pm !! productId it) as [p|] eqn:Hp; [discriminate |].
    unfold pm in Hp. apply map_lookup_filter_None in Hp.
    destruct Hp as [Hnone | Hnot]; [left; exact Hnone |].
    destruct (db_products (w_db w) !! productId it) as [p|] eqn:Hstore; [| now left].
    right. intros Hin. exact (Hnot p eq_refl Hin).
Qed.

End BatchLookup.

(** C3 (what the code does) — two lines for the same stored product, stock
    5, one unit each: the batch lookup finds one document for two lines and
    the checkout is answered 404 with an empty list of missing products; the
    store is as before. *)
Theorem duplicate_lines_not_found :
  db_products Ref.shop !! Ref.idA
  = Some {| p_nombre := "Arroz"; p_precio := Fin 10; p_descuento := Fin 10;
            p_stock := Fin 5 |}
  /\ post_invoices default_config Ref.quiet
       (Ref.request (JStr Ref.idU) [Ref.entry Ref.idA (Fin 1); Ref.entry Ref.idA (Fin 1)] [])
       Ref.start
     = (respond 404 (errorBody "Products not found: "),
        {| w_db := Ref.shop;
           w_log := [OpUserFindById; OpStartSession; OpProductFind; OpAbort;
                     OpEndSession] |}).
Proof. split; vm_compute; reflexivity. Qed.

(* ===================================================================== *)
(** ** Pricing *)
(* ===================================================================== *)

Lemma roundMoney_round2 q : roundMoney (Fin q) = Num.fin (round2 q).
Proof.
  unfold roundMoney, round2, Num.mul, Num.round, Num.div, Num.fin, Num.ofZ.
  change (Qeq_bool 100 0) with false. cbv iota. f_equal.
  apply Qred_complete.
  assert (Hfl : Qfloor (Qred (q * 100) + (1 # 2)) = Qfloor (q * 100 + (1 # 2))).
  { apply Qfloor_comp. now rewrite Qred_correct. }
  rewrite Hfl. reflexivity.
Qed.

(** The line total is the discounted unit price, rounded, times the
    quantity, rounded again; the taxes are the rounded product of subtotal
    and rate. *)
Lemma priceLine_lineTotal `{Platform} cur it p :
  l_unitPrice (priceLine cur it p)
  = roundMoney
      (Num.mul (toNumber (JNum (p_precio p)) (Fin 0))
         (Num.sub (Fin 1) (Num.div (toNumber (JNum (p_descuento p)) (Fin 0)) (Fin 100))))
  /\ l_lineTotal (priceLine cur it p)
     = roundMoney (Num.mul (l_unitPrice (priceLine cur it p)) (quantity it)).
Proof. split; reflexivity. Qed.

(** The figures of the specification: 10.00 at 10% off, three units. *)
Lemma pricing_example :
  l_lineTotal
    (priceLine "USD" {| productId := Ref.idA; quantity := Fin 3 |}
       {| p_nombre := "Arroz"; p_precio := Fin 10; p_descuento := Fin 10;
          p_stock := Fin 5 |})
  = Fin 27
  /\ roundMoney (Num.mul (Fin 27) DEFAULT_TAX_RATE) = Fin (81 # 20)
  /\ calculateShippingCost default_config (JObj [("costo", JNum (Fin (-1)))])
       [{| productId := Ref.idA; quantity := Fin 3 |}]
     = Fin (9 # 2)
  /\ calculateShippingCost default_config (JObj [("costo", JNum (Fin (5 # 2)))])
       [{| productId := Ref.idA; quantity := Fin 3 |}]
     = Fin (5 # 2)
  /\ calculateShippingCost default_config (JObj [("costo", JStr "gratis")])
       [{| productId := Ref.idA; quantity := Fin 100 |}]
     = Fin 20.
Proof. repeat split; vm_compute; reflexivity. Qed.

(** C4 (what the code does) — when the request supplies no shipping cost,
    [calculateShippingCost] reads the absent cost as the number 0 and
    returns 0, not the fee computed from the units: the specification's own
    example (10.00 at 10% off, three units, default constants, no discount)
    is persisted with shipping 0 and total 31.05 instead of 4.50 and 35.55. *)
Theorem shipping_cost_when_absent :
  (forall (P : Platform) cfg items, calculateShippingCost cfg (JObj []) items = Fin 0)
  /\ map (fun o => o_resumen (snd o) ./ "totales")
       (db_orders (w_db (snd (post_invoices default_config Ref.quiet
                                (Ref.request (JStr Ref.idU) [Ref.entry Ref.idA (Fin 3)] [])
                                Ref.start))))
     = [JObj [("subtotal", JNum (Fin 27)); ("iva", JNum (Fin (81 # 20)));
              ("envio", JNum (Fin 0)); ("discount", JNum (Fin 0));
              ("total", JNum (Fin (621 # 20)))]].
Proof.
  split.
  - intros P cfg items. reflexivity.
  - vm_compute. reflexivity.
Qed.

(** C10 (what the code does) — a quantity of one half passes the test
    [quantity <= 0] and is floored afterwards: the canonical item has
    quantity 0, and the checkout goes through with a line of zero units. *)
Theorem fractional_quantity_becomes_zero :
  sanitizeItems (JArr [Ref.entry Ref.idA (Fin (1 # 2))])
  = inr [{| productId := Ref.idA; quantity := Fin 0 |}]
  /\ status (fst (post_invoices default_config Ref.quiet
                    (Ref.request (JStr Ref.idU) [Ref.entry Ref.idA (Fin (1 # 2))] [])
                    Ref.start)) = 201%nat
  /\ map (fun o => o_items (snd o))
       (db_orders (w_db (snd (post_invoices default_config Ref.quiet
                                (Ref.request (JStr Ref.idU)
                                   [Ref.entry Ref.idA (Fin (1 # 2))] [])
                                Ref.start))))
     = [[JObj [("productId", JStr Ref.idA); ("cantidad", JNum (Fin 0));
               ("unitPrice", JNum (Fin 9)); ("lineTotal", JNum (Fin 0));
               ("currency", JStr "USD")]]].
Proof. repeat split; vm_compute; reflexivity. Qed.

(** Any quantity strictly between 0 and 1 is accepted and floored to 0. *)
Lemma sanitizeItem_fraction `{Platform} raw q :
  itemProductId raw <> "" ->
  isValidObjectId (itemProductId raw) = true ->
  itemQuantity raw = Fin q ->
  (0 < q)%Q -> (q < 1)%Q ->
  sanitizeItem raw = inr {| productId := itemProductId raw; quantity := Fin 0 |}.
Proof.
  intros Hid Hv Hq H0 H1. unfold sanitizeItem.
  apply String.eqb_neq in Hid. rewrite Hid, Hv, Hq. simpl.
  destruct (Qle_bool q 0) eqn:Hle.
  - apply Qle_bool_iff in Hle. exfalso. apply (Qlt_irrefl 0).
    eapply Qlt_le_trans; eassumption.
  - assert (Hlo : (0 <= Qfloor q)%Z).
    { change 0%Z with (Qfloor 0). apply Qfloor_resp_le. now apply Qlt_le_weak. }
    assert (Hhi : (Qfloor q < 1)%Z).
    { rewrite Zlt_Qlt. eapply Qle_lt_trans; [apply Qfloor_le | exact H1]. }
    replace (Qfloor q) with 0%Z by lia. reflexivity.
Qed.

(* ===================================================================== *)
(** ** The renderer *)
(* ===================================================================== *)

Lemma append_assoc (a b c : string) : (a +:+ b) +:+ c = a +:+ (b +:+ c).
Proof.
  induction a as [|x a IH]; [reflexivity |].
  change (String x ((a +:+ b) +:+ c) = String x (a +:+ b +:+ c)).
  now rewrite IH.
Qed.

Lemma occursIn_app_r s a b : Str.occursIn s b -> Str.occursIn s (a +:+ b).
Proof.
  intros (pre & post & ->). exists (a +:+ pre), post. now rewrite append_assoc.
Qed.

Lemma occursIn_app_l s a b : Str.occursIn s a -> Str.occursIn s (a +:+ b).
Proof.
  intros (pre & post & ->). exists pre, (post +:+ b).
  now rewrite !append_assoc.
Qed.

Lemma hasChar_app c a b : Str.hasChar c (a +:+ b) = Str.hasChar c a || Str.hasChar c b.
Proof.
  induction a as [|x a IH]; [reflexivity |].
  change (Ascii.eqb c x || Str.hasChar c (a +:+ b)
          = Ascii.eqb c x || Str.hasChar c a || Str.hasChar c b).
  rewrite IH. now rewrite orb_assoc.
Qed.

(** What [escapeHtml] returns holds none of [<], [>], the double quote and
    the apostrophe. *)
Lemma escapeString_safe s :
  Str.hasChar Str.lt (escapeString s) = false
  /\ Str.hasChar Str.gt (escapeString s) = false
  /\ Str.hasChar Str.dquote (escapeString s) = false
  /\ Str.hasChar Str.squote (escapeString s) = false.
Proof.
  induction s as [|c s (IH1 & IH2 & IH3 & IH4)]; simpl; [auto |].
  rewrite !hasChar_app, IH1, IH2, IH3, IH4, !orb_false_r.
  unfold escapeChar.
  destruct (Ascii.eqb c Str.amp) eqn:Ha; [auto |].
  destruct (Ascii.eqb c Str.lt) eqn:Hl; [auto |].
  destruct (Ascii.eqb c Str.gt) eqn:Hg; [auto |].
  destruct (Ascii.eqb c Str.dquote) eqn:Hd; [auto |].
  destruct (Ascii.eqb c Str.squote) eqn:Hs; [auto |].
  cbn [Str.hasChar]. rewrite !orb_false_r.
  rewrite (Ascii.eqb_sym Str.lt), (Ascii.eqb_sym Str.gt),
    (Ascii.eqb_sym Str.dquote), (Ascii.eqb_sym Str.squote).
  auto.
Qed.

(** A buyer name with a script tag comes out escaped. *)
Lemma escapeHtml_script `{Platform} :
  escapeHtml (JStr "<script>alert(1)</script>")
  = "&lt;script&gt;alert(1)&lt;/script&gt;".
Proof. reflexivity. Qed.

Lemma occursIn_between s t a b : t = a +:+ s +:+ b -> Str.occursIn s t.
Proof. intros ->. now exists a, b. Qed.

(** The page of [markupOrder] holds its buyer name escaped and the tag of
    its quantity verbatim. *)
Lemma renderInvoiceHtml_markupOrder `{Platform} (now oid : string) :
  exists html,
    renderInvoiceHtml now (leanOrder oid markupOrder) = Some html
    /\ Str.occursIn "&lt;script&gt;alert(0)&lt;/script&gt;" html
    /\ Str.occursIn "<script>alert(1)</script>" html.
Proof.
  eexists. split; [reflexivity |].
  unfold page. split.
  - do 7 apply occursIn_app_r. apply occursIn_app_l.
    apply (occursIn_between _ _ "" ""). vm_compute. reflexivity.
  - do 13 apply occursIn_app_r. apply occursIn_app_l.
    apply (occursIn_between _ _
             (Template.row0 +:+ "Pan" +:+ Template.row1)
             (Template.row2 +:+ "1.00" +:+ Template.row3 +:+ "1.00"
                +:+ Template.row4)).
    vm_compute. reflexivity.
Qed.

(** C9 (what the code does) — the quantity of a product line is written
    into the page as it is stored: when the order found by
    [router.get('/:id')] is [markupOrder], whose buyer name and line quantity
    are script tags, the page sent holds the name escaped and the quantity's
    tag verbatim. *)
Theorem quantity_not_escaped `{Platform} (E : env) (now id : string) (w : world) :
  isValidObjectId id = true ->
  fails E (length (w_log w)) = false ->
  findOrder (objectIdHex id) (db_orders (w_db w)) = Some markupOrder ->
  exists html,
    get_invoice E now id w = (Html html, logged OpOrderFindById w)
    /\ Str.occursIn "&lt;script&gt;alert(0)&lt;/script&gt;" html
    /\ Str.occursIn "<script>alert(1)</script>" html.
Proof.
  intros Hv Hf Ho.
  destruct (renderInvoiceHtml_markupOrder now (objectIdHex id))
    as (html & Hr & Hname & Hqty).
  exists html. split; [| auto].
  unfold get_invoice. rewrite Hv, (op_ok _ _ _ Hf). simpl. rewrite Ho, Hr.
  reflexivity.
Qed.

Lemma quantity_not_escaped_stored :
  exists html,
    get_invoice Ref.quiet "1/1/2025, 0:00:00" (newObjectId Ref.quiet)
      {| w_db := {| db_products := db_products Ref.shop;
                    db_users := db_users Ref.shop;
                    db_orders := [(newObjectId Ref.quiet, markupOrder)];
                    db_sequence := Some 31%Z |};
         w_log := [] |}
    = (Html html,
       {| w_db := {| db_products := db_products Ref.shop;
                     db_users := db_users Ref.shop;
                     db_orders := [(newObjectId Ref.quiet, markupOrder)];
                     db_sequence := Some 31%Z |};
          w_log := [OpOrderFindById] |})
    /\ Str.occursIn "<script>alert(1)</script>" html.
Proof.
  assert (Hv : isValidObjectId (newObjectId Ref.quiet) = true) by reflexivity.
  destruct (quantity_not_escaped Ref.quiet "1/1/2025, 0:00:00"
              (newObjectId Ref.quiet)
              {| w_db := {| db_products := db_products Ref.shop;
                            db_users := db_users Ref.shop;
                            db_orders := [(newObjectId Ref.quiet, markupOrder)];
                            db_sequence := Some 31%Z |};
                 w_log := [] |}
              Hv eq_refl eq_refl)
    as (html & Hget & _ & Hqty).
  exists html. split; [exact Hget | exact Hqty].
Defined.

(* ===================================================================== *)
(** ** Further facts and examples *)
(* ===================================================================== *)

Section MissingProducts.
Context `{Platform}.
Variable E : env.

(** When a requested ObjectId is not stored, the callback throws the 404
    of the batch lookup, and the message lists the identifier of every line
    under which no product is stored. *)
Lemma transaction_missing items attached iu si pi sc dv rate cur w :
  (exists it, it ∈ items
              /\ db_products (w_db w) !! objectIdHex (productId it) = None) ->
  fails E (length (w_log w)) = false ->
  exists missing,
    transaction E items attached iu si pi sc dv rate cur w
    = (Throw (httpError 404 ("Products not found: " +:+ Str.join ", " missing)),
       logged OpProductFind w)
    /\ forall it, it ∈ items ->
         db_products (w_db w) !! productId it = None ->
         productId it ∈ missing.
Proof.
  intros (bad & Hbad & Hnone) Hf.
  unfold transaction, bind, Product_find, bind, getDb, ret.
  rewrite (op_ok _ _ _ Hf). simpl.
  set (ids := map (fun it => objectIdHex (productId it)) items) in *.
  set (pm := filter (fun kv : string * product => kv.1 ∈ ids) (db_products (w_db w))).
  destruct (size pm =? length items)%nat eqn:Hsize.
  - exfalso. apply Nat.eqb_eq in Hsize.
    unfold pm in Hsize. rewrite <- (length_map (fun it => objectIdHex (productId it)))
      in Hsize.
    apply size_filter_ids in Hsize. destruct Hsize as [_ Hall].
    destruct (Hall (objectIdHex (productId bad))) as [p Hp]; [| congruence].
    unfold ids. apply list_elem_of_fmap. eauto.
  - simpl. eexists. split; [reflexivity |].
    intros it Hin Hstore. apply list_elem_of_fmap. exists it. split; [reflexivity |].
    apply list_elem_of_In, filter_In. split; [now apply list_elem_of_In |].
    unfold has, pm.
    rewrite (proj2 (map_lookup_filter_None _ _ _)); [reflexivity |].
    now left.
Qed.

End MissingProducts.

(** With no cost among [costo], [cost] and [shippingFee], the fee is 0
    whatever the units. *)
Lemma calculateShippingCost_no_cost `{Platform} cfg shippingSource items :
  JS.nullish (shippingSource ./ "costo") = true ->
  JS.nullish (shippingSource ./ "cost") = true ->
  JS.nullish (shippingSource ./ "shippingFee") = true ->
  calculateShippingCost cfg shippingSource items = Fin 0.
Proof.
  intros H1 H2 H3. unfold calculateShippingCost.
  assert (Hget : forall k,
             (match shippingSource with JUndef => JObj [] | _ => shippingSource end) ./ k
             = shippingSource ./ k).
  { intros k. now destruct shippingSource. }
  cbv zeta. rewrite !Hget. unfold JS.coalesce. rewrite H1, H2, H3.
  reflexivity.
Qed.

(** A store operation rejected after the stock was decremented: the save
    of the order fails, the transaction aborts, and the store is the one
    before the request, but for the counter. *)
Example rollback_after_decrement :
  post_invoices default_config (Ref.failingAt 6)
    (Ref.request (JStr Ref.idU) [Ref.entry Ref.idA (Fin 3)] []) Ref.start
  = (respond 500 (errorBody "storage failure"),
     {| w_db := {| db_products := db_products Ref.shop;
                   db_users := db_users Ref.shop;
                   db_orders := [];
                   db_sequence := Some 30%Z |};
        w_log := [OpUserFindById; OpStartSession; OpProductFind;
                  OpProductSave Ref.idA; OpSequenceInc; OpSequenceSet;
                  OpOrderSave; OpAbort; OpEndSession] |}).
Proof. vm_compute. reflexivity. Qed.

(** More units asked than in stock. *)
Example insufficient_stock :
  post_invoices default_config Ref.quiet
    (Ref.request (JStr Ref.idU) [Ref.entry Ref.idB (Fin 1); Ref.entry Ref.idA (Fin 6)] [])
    Ref.start
  = (respond 400 (errorBody "Insufficient stock for Arroz"),
     {| w_db := Ref.shop;
        w_log := [OpUserFindById; OpStartSession; OpProductFind;
                  OpProductSave Ref.idB; OpAbort; OpEndSession] |}).
Proof. vm_compute. reflexivity. Qed.

(** A product that is not stored is named by the 404. *)
Example missing_product :
  fst (post_invoices default_config Ref.quiet
         (Ref.request (JStr Ref.idU)
            [Ref.entry Ref.idA (Fin 1); Ref.entry nobody (Fin 1)] [])
         Ref.start)
  = respond 404 (errorBody "Products not found: aaaaaaaaaaaaaaaaaaaaaaaa").
Proof. vm_compute. reflexivity. Qed.

(** A successful checkout: stock, order code, buyer's cart and orders. *)
Example checkout_succeeds :
  let r := post_invoices default_config Ref.quiet
             (Ref.request (JStr Ref.idU) [Ref.entry Ref.idA (Fin 3)]
                [("shipping", JObj [("costo", JStr "por calcular")])])
             Ref.start in
  status (fst r) = 201%nat
  /\ payload (fst r) ./ "order" ./ "totales"
     = JObj [("subtotal", JNum (Fin 27)); ("iva", JNum (Fin (81 # 20)));
             ("envio", JNum (Fin (9 # 2))); ("discount", JNum (Fin 0));
             ("total", JNum (Fin (711 # 20)))]
  /\ payload (fst r) ./ "order" ./ "id" = JStr "30"
  /\ p_stock <$> (db_products (w_db (snd r)) !! Ref.idA) = Some (Fin 2)
  /\ u_cart <$> (db_users (w_db (snd r)) !! Ref.idU) = Some []
  /\ length <$> (u_orders <$> (db_users (w_db (snd r)) !! Ref.idU)) = Some 1%nat.
Proof. vm_compute. repeat split; reflexivity. Qed.

(* ===================================================================== *)
(** ** Rounding *)
(* ===================================================================== *)

Lemma roundMoney_Fin q :
  roundMoney (Fin q) = Num.fin (inject_Z (Qfloor (q * 100 + (1 # 2))) / 100).
Proof. rewrite roundMoney_round2. reflexivity. Qed.

Lemma roundMoney_le (a b : num) :
  Num.leb a b = true -> Num.leb (roundMoney a) (roundMoney b) = true.
Proof.
  destruct a as [x| | |], b as [y| | |]; try reflexivity; try discriminate.
  intros Hle. rewrite !roundMoney_Fin. unfold Num.fin, Num.leb.
  apply Qle_bool_iff in Hle. apply Qle_bool_iff.
  rewrite !Qred_correct.
  apply Qmult_le_compat_r; [| discriminate].
  rewrite <- Zle_Qle. apply Qfloor_resp_le.
  apply Qplus_le_compat; [| apply Qle_refl].
  apply Qmult_le_compat_r; [exact Hle | discriminate].
Qed.

(** X3 — rounding keeps the order of amounts: if [a <= b] then
    [roundMoney a <= roundMoney b]. *)
Theorem roundMoney_monotone (a b : num) :
  Num.leb a b = true -> Num.leb (roundMoney a) (roundMoney b) = true.
Proof. apply roundMoney_le. Qed.

Lemma roundMoney_monotone_cents :
  Num.leb (roundMoney (Fin (1 # 3))) (roundMoney (Fin (2 # 3))) = true.
Proof. apply roundMoney_monotone. reflexivity. Defined.

(* ===================================================================== *)
(** ** Escaping *)
(* ===================================================================== *)

Lemma escapeChar_plain c :
  Ascii.eqb c Str.amp = false -> Ascii.eqb c Str.lt = false ->
  Ascii.eqb c Str.gt = false -> Ascii.eqb c Str.dquote = false ->
  Ascii.eqb c Str.squote = false ->
  escapeChar c = String c EmptyString.
Proof. intros Ha Hl Hg Hd Hs. unfold escapeChar. now rewrite Ha, Hl, Hg, Hd, Hs. Qed.

(** X4 — whatever the value, what [escapeHtml] returns holds no [<], no
    [>], no double quote and no apostrophe; a falsy value gives the empty
    string. *)
Theorem escapeHtml_safe `{Platform} (v : json) :
  Str.hasChar Str.lt (escapeHtml v) = false
  /\ Str.hasChar Str.gt (escapeHtml v) = false
  /\ Str.hasChar Str.dquote (escapeHtml v) = false
  /\ Str.hasChar Str.squote (escapeHtml v) = false
  /\ (JS.truthy v = false -> escapeHtml v = "").
Proof.
  unfold escapeHtml. destruct (JS.truthy v); simpl.
  - destruct (escapeString_safe (JS.toString v)) as (H1 & H2 & H3 & H4).
    repeat split; auto. discriminate.
  - repeat split; reflexivity.
Qed.

(** X5 — a string without [&], [<], [>], double quote and apostrophe is
    returned as it is. *)
Theorem escapeString_plain (s : string) :
  Str.hasChar Str.amp s = false -> Str.hasChar Str.lt s = false ->
  Str.hasChar Str.gt s = false -> Str.hasChar Str.dquote s = false ->
  Str.hasChar Str.squote s = false ->
  escapeString s = s.
Proof.
  induction s as [|c s IH]; [reflexivity |].
  cbn [Str.hasChar]. intros Ha Hl Hg Hd Hs.
  apply orb_false_iff in Ha, Hl, Hg, Hd, Hs.
  destruct Ha as [Ha Ha'], Hl as [Hl Hl'], Hg as [Hg Hg'], Hd as [Hd Hd'],
    Hs as [Hs Hs'].
  cbn [escapeString]. rewrite IH by assumption.
  rewrite escapeChar_plain; [reflexivity | | | | |];
    rewrite Ascii.eqb_sym; assumption.
Qed.

Lemma escapeString_plain_name : escapeString "Ana Maria" = "Ana Maria".
Proof. apply escapeString_plain; reflexivity. Defined.

(** Two strings with the same escaped form start with the same character
    and have rests with the same escaped form. *)
Lemma escapeString_inj_step c d s t :
  escapeChar c +:+ escapeString s = escapeChar d +:+ escapeString t ->
  c = d /\ escapeString s = escapeString t.
Proof.
  unfold escapeChar.
  destruct (Ascii.eqb c Str.amp) eqn:Ha; [apply Ascii.eqb_eq in Ha; subst c |];
  [| destruct (Ascii.eqb c Str.lt) eqn:Hl; [apply Ascii.eqb_eq in Hl; subst c |];
     [| destruct (Ascii.eqb c Str.gt) eqn:Hg; [apply Ascii.eqb_eq in Hg; subst c |];
        [| destruct (Ascii.eqb c Str.dquote) eqn:Hd; [apply Ascii.eqb_eq in Hd; subst c |];
           [| destruct (Ascii.eqb c Str.squote) eqn:Hs;
              [apply Ascii.eqb_eq in Hs; subst c |]]]]].
  all: destruct (Ascii.eqb d Str.amp) eqn:Ha2; [apply Ascii.eqb_eq in Ha2; subst d |];
  [| destruct (Ascii.eqb d Str.lt) eqn:Hl2; [apply Ascii.eqb_eq in Hl2; subst d |];
     [| destruct (Ascii.eqb d Str.gt) eqn:Hg2; [apply Ascii.eqb_eq in Hg2; subst d |];
        [| destruct (Ascii.eqb d Str.dquote) eqn:Hd2; [apply Ascii.eqb_eq in Hd2; subst d |];
           [| destruct (Ascii.eqb d Str.squote) eqn:Hs2;
              [apply Ascii.eqb_eq in Hs2; subst d |]]]]].
  all: intros Heq; unfold String.append in Heq; simpl in Heq;
    inversion Heq; subst;
    try match goal with
      | Hne : Ascii.eqb _ _ = false |- _ => vm_compute in Hne; discriminate Hne
      end;
    split; first [reflexivity | assumption].
Qed.

(** X6 — escaping loses nothing: two strings with the same escaped form
    are the same string. *)
Theorem escapeString_injective (s t : string) :
  escapeString s = escapeString t -> s = t.
Proof.
  revert t. induction s as [|c s IH]; intros [|d t] Heq.
  - reflexivity.
  - exfalso. cbn [escapeString] in Heq. unfold escapeChar in Heq.
    repeat match type of Heq with
           | context [if ?b then _ else _] => destruct b
           end; discriminate Heq.
  - exfalso. cbn [escapeString] in Heq. unfold escapeChar in Heq.
    repeat match type of Heq with
           | context [if ?b then _ else _] => destruct b
           end; discriminate Heq.
  - cbn [escapeString] in Heq. apply escapeString_inj_step in Heq.
    destruct Heq as [-> Hrest]. f_equal. now apply IH.
Qed.

Lemma escapeString_injective_tags : "<b>" = "<b>".
Proof. apply escapeString_injective. reflexivity. Defined.

(* ===================================================================== *)
(** ** The item validator, accepted input *)
(* ===================================================================== *)

Lemma sanitizeLoop_all_valid `{Platform} raws :
  Forall (fun raw => ~ invalidEntry raw) raws ->
  forall acc, sanitizeLoop raws acc = inr (acc ++ map canonicalItem raws).
Proof.
  induction 1 as [|raw raws Hraw Hall IH]; intros acc; simpl.
  - now rewrite app_nil_r.
  - rewrite (sanitizeItem_valid raw Hraw). rewrite IH.
    now rewrite <- app_assoc.
Qed.

(** X7 — a non-empty list whose entries all have a valid product
    identifier and a finite quantity above zero is accepted, and the result
    holds one canonical item per entry, in the order of the input. *)
Theorem sanitizeItems_accepts `{Platform} (raws : list json) :
  raws <> [] ->
  Forall (fun raw => ~ invalidEntry raw) raws ->
  sanitizeItems (JArr raws) = inr (map canonicalItem raws).
Proof.
  intros Hne Hall. unfold sanitizeItems.
  destruct raws as [|raw raws]; [contradiction |].
  now rewrite sanitizeLoop_all_valid.
Qed.

Lemma sanitizeItems_accepts_two :
  sanitizeItems (JArr [Ref.entry Ref.idA (Fin (5 # 2)); Ref.entry Ref.idB (Fin 1)])
  = inr [{| productId := Ref.idA; quantity := Fin 2 |};
         {| productId := Ref.idB; quantity := Fin 1 |}].
Proof.
  apply (sanitizeItems_accepts
           [Ref.entry Ref.idA (Fin (5 # 2)); Ref.entry Ref.idB (Fin 1)]).
  - discriminate.
  - repeat constructor; unfold invalidEntry; vm_compute;
      intros [Hc | [Hc | [Hc | Hc]]]; discriminate Hc.
Defined.

(** X8 — what [sanitizeItems] returns: as many items as the input has
    entries, none for an empty result, each with a non-empty identifier that
    is a valid ObjectId and a quantity that is a whole number, zero or
    more. *)
Theorem sanitizeItems_canonical `{Platform} (products : json) (items : list item) :
  sanitizeItems products = inr items ->
  items <> []
  /\ (exists raws, products = JArr raws /\ length items = length raws)
  /\ Forall (fun it =>
               productId it <> ""
               /\ isValidObjectId (productId it) = true
               /\ exists z : Z, (0 <= z)%Z /\ quantity it = Num.ofZ z) items.
Proof.
  intros Hs. apply sanitizeItems_inr in Hs.
  destruct Hs as (raws & -> & Hne & Hall).
  split; [| split].
  - intros ->. inversion Hall; subst. contradiction.
  - exists raws. split; [reflexivity |]. symmetry. eapply Forall2_length, Hall.
  - clear Hne. induction Hall as [|raw it raws items Hit Hall IH]; constructor; auto.
    apply sanitizeItem_inr in Hit.
    destruct Hit as (_ & Hq & Hid & Hv & Hfin & Hpos).
    repeat split; try assumption.
    destruct (itemQuantity raw) as [q| | |]; try discriminate.
    exists (Qfloor q). split; [| exact Hq].
    simpl in Hpos.
    change 0%Z with (Qfloor 0). apply Qfloor_resp_le.
    destruct (Qle_bool q 0) eqn:Hle; [discriminate |].
    apply Qlt_le_weak, Qnot_le_lt. intros Hc.
    apply Qle_bool_iff in Hc. congruence.
Qed.

Lemma sanitizeItems_canonical_two :
  exists items,
    sanitizeItems (JArr [Ref.entry Ref.idA (Fin (5 # 2)); Ref.entry Ref.idB (Fin 1)])
    = inr items
    /\ items <> [].
Proof.
  eexists. split; [vm_compute; reflexivity |].
  eapply (sanitizeItems_canonical
            (JArr [Ref.entry Ref.idA (Fin (5 # 2)); Ref.entry Ref.idB (Fin 1)])).
  vm_compute. reflexivity.
Defined.

(* ===================================================================== *)
(** ** The renderer: product rows and totals *)
(* ===================================================================== *)

Lemma or_truthy (a b : json) : JS.truthy b = true -> JS.truthy (a ||| b) = true.
Proof. intros Hb. unfold JS.or. now destruct (JS.truthy a) eqn:Ha. Qed.

Lemma or_not_nullish (a b : json) :
  JS.nullish b = false -> JS.nullish (a ||| b) = false.
Proof.
  intros Hb. unfold JS.or. destruct (JS.truthy a) eqn:Ha; [| exact Hb].
  now destruct a.
Qed.

Lemma productoLabel_truthy `{Platform} idx : JS.truthy (productoLabel idx) = true.
Proof. reflexivity. Qed.

Lemma mapIdx_rows (f : json -> Z -> option json) (P : json -> Prop) :
  (forall x idx y, f x idx = Some y -> JS.nullish x = false /\ P y) ->
  forall l idx rows,
    mapIdx f l idx = Some rows ->
    length rows = length l
    /\ Forall (fun x => JS.nullish x = false) l
    /\ Forall P rows.
Proof.
  intros Hf. induction l as [|x l IH]; intros idx rows Hm; simpl in Hm.
  - inversion Hm; subst. repeat split; constructor.
  - destruct (f x idx) as [y|] eqn:Hy; [| discriminate].
    destruct (mapIdx f l (idx + 1)) as [ys|] eqn:Hys; [| discriminate].
    inversion Hm; subst; clear Hm.
    destruct (Hf _ _ _ Hy) as [Hx HP].
    destruct (IH _ _ Hys) as (Hlen & Hall & Hrows).
    repeat split; simpl; [congruence | |]; constructor; assumption.
Qed.

Lemma mapIdx_null (f : json -> Z -> option json) :
  (forall x idx, JS.nullish x = true -> f x idx = None) ->
  forall l idx,
    Exists (fun x => JS.nullish x = true) l -> mapIdx f l idx = None.
Proof.
  intros Hf l idx Hex. revert idx.
  induction Hex as [x l Hx | x l Hex IH]; intros idx; simpl.
  - now rewrite (Hf _ _ Hx).
  - destruct (f x idx); [| reflexivity]. now rewrite IH.
Qed.

Lemma fromProducto_row `{Platform} prod idx row :
  fromProducto prod idx = Some row ->
  JS.nullish prod = false /\ wellFormedRow row.
Proof.
  unfold fromProducto. destruct (JS.nullish prod) eqn:Hn; [discriminate |].
  intros Hr. inversion Hr; subst; clear Hr. split; [reflexivity |].
  unfold wellFormedRow. do 4 eexists. split; [reflexivity |].
  split; [apply or_truthy, productoLabel_truthy |].
  split; now apply or_not_nullish.
Qed.

Lemma fromItem_row `{Platform} it idx row :
  fromItem it idx = Some row ->
  JS.nullish it = false /\ wellFormedRow row.
Proof.
  unfold fromItem. destruct (JS.nullish it) eqn:Hn; [discriminate |].
  intros Hr. inversion Hr; subst; clear Hr. split; [reflexivity |].
  unfold wellFormedRow. do 4 eexists. split; [reflexivity |].
  split; [apply or_truthy, productoLabel_truthy |].
  split; now apply or_not_nullish.
Qed.

(** X9 — the rows [normalizeProducts] returns: each one is an object of
    exactly the four fields nombre, cantidad, precio and subtotal; its name
    is truthy (the stored one, or the numbered placeholder), and its
    quantity and price are never null or undefined. *)
Theorem normalizeProducts_rows `{Platform} (order : json) (rows : list json) :
  normalizeProducts order = Some rows -> Forall wellFormedRow rows.
Proof.
  unfold normalizeProducts. intros Hn.
  repeat match type of Hn with
         | match ?v with _ => _ end = _ => destruct v as [| | | | |[|? ?]|]
         end;
    try (inversion Hn; constructor);
    try (eapply (mapIdx_rows fromProducto wellFormedRow) in Hn;
         [apply Hn | intros; eapply fromProducto_row; eassumption]);
    try (eapply (mapIdx_rows fromItem wellFormedRow) in Hn;
         [apply Hn | intros; eapply fromItem_row; eassumption]).
Qed.

Lemma normalizeProducts_rows_items :
  exists rows,
    normalizeProducts
      (JObj [("items", JArr [JObj [("productName", JStr "Pan")]; JStr "Sal"])])
    = Some rows
    /\ Forall wellFormedRow rows.
Proof.
  eexists. split; [vm_compute; reflexivity |].
  apply (normalizeProducts_rows
           (JObj [("items", JArr [JObj [("productName", JStr "Pan")]; JStr "Sal"])])).
  vm_compute. reflexivity.
Defined.

Lemma fromProducto_null `{Platform} x idx :
  JS.nullish x = true -> fromProducto x idx = None.
Proof. intros Hx. unfold fromProducto. now rewrite Hx. Qed.

Lemma normalizeProducts_null `{Platform} (order : json) (l : list json) :
  order ./ "resumen" ./ "productos" = JArr l ->
  Exists (fun x => JS.nullish x = true) l ->
  normalizeProducts order = None.
Proof.
  intros Hl Hex. unfold normalizeProducts. rewrite Hl.
  destruct l as [|x l]; [inversion Hex |].
  apply mapIdx_null; [apply @fromProducto_null | exact Hex].
Qed.

(** X10 — a stored order whose [resumen.productos] holds a [null] or
    [undefined] element cannot be rendered: the property read on it throws,
    and the route answers 500 "Unable to render invoice" after its single
    read of the store. *)
Theorem get_invoice_null_product `{Platform} (E : env) (now id : string)
    (w : world) (o : order) (l : list json) :
  isValidObjectId id = true ->
  fails E (length (w_log w)) = false ->
  findOrder (objectIdHex id) (db_orders (w_db w)) = Some o ->
  o_resumen o ./ "productos" = JArr l ->
  Exists (fun x => JS.nullish x = true) l ->
  get_invoice E now id w
  = (Json 500 (errorBody "Unable to render invoice"), logged OpOrderFindById w).
Proof.
  intros Hid Hok Hfind Hl Hex. unfold get_invoice. rewrite Hid. simpl negb. cbv iota.
  rewrite (op_ok E OpOrderFindById w Hok).
  change (db_orders (w_db (logged OpOrderFindById w))) with (db_orders (w_db w)).
  rewrite Hfind. unfold renderInvoiceHtml.
  rewrite (normalizeProducts_null (leanOrder (objectIdHex id) o) l); auto.
Qed.

Lemma get_invoice_null_product_stored :
  get_invoice Ref.quiet "1/1/2025, 0:00:00" Ref.idA
    {| w_db := {| db_products := ∅; db_users := ∅;
                  db_orders :=
                    [(Ref.idA,
                      {| o_id := JStr "31"; o_userId := None; o_items := [];
                         o_resumen := JObj [("productos", JArr [JNull])];
                         o_estado := "pendiente"; o_fecha := 0 |})];
                  db_sequence := None |};
       w_log := [] |}
  = (Json 500 (errorBody "Unable to render invoice"),
     logged OpOrderFindById
       {| w_db := {| db_products := ∅; db_users := ∅;
                     db_orders :=
                       [(Ref.idA,
                         {| o_id := JStr "31"; o_userId := None; o_items := [];
                            o_resumen := JObj [("productos", JArr [JNull])];
                            o_estado := "pendiente"; o_fecha := 0 |})];
                     db_sequence := None |};
          w_log := [] |}).
Proof.
  eapply (get_invoice_null_product Ref.quiet _ Ref.idA _ _ [JNull]).
  - vm_compute. reflexivity.
  - reflexivity.
  - vm_compute. reflexivity.
  - reflexivity.
  - constructor. reflexivity.
Defined.

Lemma finite_not_NaN (v : num) : Num.isFinite v = true -> v <> NaN.
Proof. intros Hf ->. discriminate Hf. Qed.

Lemma roundMoney_not_NaN (v : num) : v <> NaN -> roundMoney v <> NaN.
Proof.
  destruct v as [q| | |]; intros Hv;
    [rewrite roundMoney_Fin; discriminate | vm_compute; discriminate
    | vm_compute; discriminate | contradiction].
Qed.

(** X11 — for a stored order and rows that hold no object with a
    [toString] property, no row being [null] or [undefined], none of the five
    totals [normalizeTotals] returns is [NaN], and the discount is not
    negative. *)
Theorem normalizeTotals_numbers `{Platform} (order : json) (productos : list json) :
  plain order = true ->
  forallb plain productos = true ->
  forallb (fun prod => negb (JS.nullish prod)) productos = true ->
  let t := normalizeTotals order productos in
  t_subtotal t <> NaN
  /\ t_iva t <> NaN
  /\ t_envio t <> NaN
  /\ t_discount t <> NaN
  /\ t_total t <> NaN
  /\ nonneg (t_discount t).
Proof.
  intros _ _ _. cbv zeta. unfold normalizeTotals.
  cbn [t_subtotal t_iva t_envio t_discount t_total].
  assert (Hn : forall v, toNumber v (Fin 0) <> NaN).
  { intros v. apply finite_not_NaN, toNumber_finite. }
  assert (Hm : forall v, Num.max (Fin 0) (toNumber v (Fin 0)) <> NaN).
  { intros v. apply finite_not_NaN, max_finite; [reflexivity | apply toNumber_finite]. }
  repeat split; try (apply roundMoney_not_NaN; auto).
  apply clamped_nonneg. apply Hn.
Qed.

Lemma normalizeTotals_numbers_stored :
  t_discount (normalizeTotals
                (JObj [("resumen",
                        JObj [("totales", JObj [("discount", JNum (Fin (-3)))])])])
                [])
  <> NaN.
Proof.
  refine (proj1 (proj2 (proj2 (proj2
            (normalizeTotals_numbers
               (JObj [("resumen",
                       JObj [("totales", JObj [("discount", JNum (Fin (-3)))])])])
               [] _ _ _))))); reflexivity.
Defined.

(* ===================================================================== *)
(** ** [router.get('/:id')] *)
(* ===================================================================== *)

(** X12 — rendering an invoice never writes: whatever the identifier
    and the faults, the store is left as it was and at most one operation,
    the lookup of the order, is issued; an identifier that is not a valid
    ObjectId is answered 400 before the store is read. *)
Theorem get_invoice_reads_only `{Platform} (E : env) (now id : string) (w : world) :
  let r := get_invoice E now id w in
  w_db (snd r) = w_db w
  /\ (w_log (snd r) = w_log w \/ w_log (snd r) = w_log w ++ [OpOrderFindById])
  /\ (isValidObjectId id = false ->
      r = (Json 400 (errorBody "Invalid order id"), w)).
Proof.
  cbv zeta. unfold get_invoice.
  destruct (isValidObjectId id) eqn:Hid; simpl negb; cbv iota.
  - unfold op. destruct (fails E (length (w_log w))); cbn [logged].
    + simpl. repeat split; auto. discriminate.
    + destruct (findOrder _ _) as [o|]; [destruct (renderInvoiceHtml _ _) |];
        simpl; repeat split; auto; discriminate.
  - simpl. repeat split; auto.
Qed.

(** X13 — the answers of the route: a page, or one of three JSON errors,
    400 "Invalid order id", 404 "Order not found", 500 "Unable to render
    invoice"; the 404 is given exactly when the lookup ran and no order is
    stored under the identifier. *)
Theorem get_invoice_answers `{Platform} (E : env) (now id : string) (w : world) :
  let r := fst (get_invoice E now id w) in
  ((exists html, r = Html html)
   \/ r = Json 400 (errorBody "Invalid order id")
   \/ r = Json 404 (errorBody "Order not found")
   \/ r = Json 500 (errorBody "Unable to render invoice"))
  /\ (r = Json 404 (errorBody "Order not found")
      <-> isValidObjectId id = true
          /\ fails E (length (w_log w)) = false
          /\ findOrder (objectIdHex id) (db_orders (w_db w)) = None).
Proof.
  cbv zeta. unfold get_invoice.
  destruct (isValidObjectId id) eqn:Hid; simpl negb; cbv iota.
  - unfold op. destruct (fails E (length (w_log w))) eqn:Hf; cbn [logged].
    + simpl. split; [auto |]. split; [discriminate | intros (_ & Hc & _); discriminate].
    + change (db_orders (w_db {| w_db := w_db w; w_log := w_log w ++ [OpOrderFindById] |}))
        with (db_orders (w_db w)).
      destruct (findOrder _ _) as [o|] eqn:Ho.
      * destruct (renderInvoiceHtml _ _); simpl;
          (split; [eauto |]); (split; [discriminate | intros (_ & _ & Hc); discriminate]).
      * simpl. split; [auto |]. split; auto.
  - simpl. split; [auto |]. split; [discriminate | intros (Hc & _); discriminate].
Qed.

(* ===================================================================== *)
(** ** What a placed order leaves behind *)
(* ===================================================================== *)

(** The stored order is the document the handler saved; the removal of empty
    objects that Mongoose's [minimize] option makes when it writes a document
    is outside the model. *)

Section Placed.
Context `{Platform}.
Variable cfg : config.
Variable E : env.

(** The loop: one line per item, in the order of the items, with the
    item's identifier and quantity; the subtotal is the running sum of the
    line totals, rounded after each addition. *)
Lemma processItems_lines cur items :
  forall pm acc sub w lines sub' w',
    processItems E cur items pm acc sub w = (Ok (lines, sub'), w') ->
    exists new,
      lines = acc ++ new
      /\ map l_productId new = map productId items
      /\ map l_quantity new = map quantity items
      /\ Forall (fun l => l_currency l = cur) new
      /\ sub' = fold_left (fun s l => roundMoney (Num.add s (l_lineTotal l))) new sub
      /\ db_sequence (w_db w') = db_sequence (w_db w).
Proof.
  induction items as [|it rest IH]; intros pm acc sub w lines sub' w' Hrun;
    simpl in Hrun.
  - run_steps. exists []. rewrite app_nil_r. repeat split; constructor.
  - destruct (pm !! productId it) as [p|]; [| run_steps].
    destruct (Num.ltb _ _); [run_steps |].
    run_step; [| run_steps].
    apply Product_save_inv in H0. destruct H0 as (_ & _ & Hseq & _).
    apply IH in Hrun. destruct Hrun as (new & -> & Hids & Hqs & Hcur & -> & Hseq').
    eexists (_ :: new). rewrite <- app_assoc. simpl.
    split; [reflexivity |].
    split; [now rewrite Hids |].
    split; [now rewrite Hqs |].
    split; [constructor; [reflexivity | exact Hcur] |].
    split; [reflexivity | congruence].
Qed.

Lemma processItems_priced cur items :
  forall pm acc sub w lines sub' w',
    processItems E cur items pm acc sub w = (Ok (lines, sub'), w') ->
    Forall (fun l => l_lineTotal l
                     = roundMoney (Num.mul (l_unitPrice l) (l_quantity l))) acc ->
    Forall (fun l => l_lineTotal l
                     = roundMoney (Num.mul (l_unitPrice l) (l_quantity l))) lines.
Proof.
  induction items as [|it rest IH]; intros pm acc sub w lines sub' w' Hrun Hacc;
    simpl in Hrun.
  - run_steps. exact Hacc.
  - destruct (pm !! productId it) as [p|]; [| run_steps].
    destruct (Num.ltb _ _); [run_steps |].
    run_step; [| run_steps].
    eapply IH; [exact Hrun |].
    apply Forall_app. split; [exact Hacc |].
    constructor; [reflexivity | constructor].
Qed.

(** Saving a document that has no [id]: the hook gives it the next code. *)
Lemma Order_save_new oid o w o' w' :
  o_id o = JUndef ->
  Order_save E oid o w = (Ok o', w') ->
  let v := Z.max 30 (incremented (db_sequence (w_db w))) in
  o' = {| o_id := JStr (Str.ofZ v); o_userId := o_userId o; o_items := o_items o;
          o_resumen := o_resumen o; o_estado := o_estado o; o_fecha := o_fecha o |}
  /\ db_sequence (w_db w') = Some v
  /\ db_orders (w_db w') = db_orders (w_db w) ++ [(oid, o')]
  /\ db_users (w_db w') = db_users (w_db w)
  /\ db_products (w_db w') = db_products (w_db w).
Proof.
  intros Hid. unfold Order_save. rewrite Hid. simpl JS.truthy. cbv iota.
  intros Hrun. run_steps.
  match goal with
  | Hn : getNextOrderId _ _ = _ |- _ =>
      apply getNextOrderId_inv in Hn; destruct Hn as (Hp & Hu & Ho & -> & Hs)
  end.
  repeat split; congruence.
Qed.

Lemma updateBuyer_ok attached o resumen w w' :
  updateBuyer E attached o resumen w = (Ok tt, w') ->
  db_sequence (w_db w') = db_sequence (w_db w)
  /\ db_orders (w_db w') = db_orders (w_db w)
  /\ db_products (w_db w') = db_products (w_db w)
  /\ db_users (w_db w')
     = match attached with
       | Some (uid, _) =>
           match db_users (w_db w) !! uid with
           | Some u =>
               <[uid := {| u_profile := u_profile u; u_cart := [];
                           u_orders :=
                             u_orders u ++
                               [JObj [("orderId", JStr (newObjectId E));
                                      ("codigo", o_id o);
                                      ("fecha", JNum (Num.ofZ (o_fecha o)));
                                      ("resumen", resumen)]] |}]>
                 (db_users (w_db w))
           | None => db_users (w_db w)
           end
       | None => db_users (w_db w)
       end.
Proof.
  unfold updateBuyer. intros Hrun.
  destruct attached as [[uid u0]|]; [| run_steps; auto].
  run_steps.
  destruct (db_users (w_db w) !! uid) as [u|].
  - unfold User_save in Hrun.
    destruct (userValid _); cbn [negb] in Hrun; run_steps. auto.
  - run_steps. auto.
Qed.

(** A run of the callback that returns: the order inserted, the counter,
    the buyer, and the two objects returned. *)
Lemma transaction_ok items attached iu si pi sc dv rate cur w ro ri w' :
  transaction E items attached iu si pi sc dv rate cur w = (Ok (ro, ri), w') ->
  exists lines sub o w2,
    processItems E cur items
      (filter (fun kv => kv.1 ∈ map (fun it => objectIdHex (productId it)) items)
              (db_products (w_db w)))
      [] (Fin 0) (logged OpProductFind w) = (Ok (lines, sub), w2)
    /\ db_products (w_db w') = db_products (w_db w2)
    /\ db_orders (w_db w') = db_orders (w_db w) ++ [(newObjectId E, o)]
    /\ db_sequence (w_db w') = Some (Z.max 30 (incremented (db_sequence (w_db w))))
    /\ db_users (w_db w')
       = match attached with
         | Some (uid, _) =>
             match db_users (w_db w) !! uid with
             | Some u =>
                 <[uid := {| u_profile := u_profile u; u_cart := [];
                             u_orders :=
                               u_orders u ++
                                 [JObj [("orderId", JStr (newObjectId E));
                                        ("codigo", o_id o);
                                        ("fecha", JNum (Num.ofZ (o_fecha o)));
                                        ("resumen", o_resumen o)]] |}]>
                   (db_users (w_db w))
             | None => db_users (w_db w)
             end
         | None => db_users (w_db w)
         end
    /\ o = {| o_id := JStr (Str.ofZ (Z.max 30 (incremented (db_sequence (w_db w)))));
              o_userId := match attached with
                          | Some (uid, _) => Some uid
                          | None => None
                          end;
              o_items := map orderItemForDb lines;
              o_resumen :=
                JObj [("cliente", iu); ("productos", JArr (map orderProduct lines));
                      ("totales",
                       totalsForUi sub (roundMoney (Num.mul sub rate)) sc dv);
                      ("entrega", si); ("pago", pi);
                      ("invoiceNumber", JStr (buildInvoiceNumber E))];
              o_estado := "confirmado";
              o_fecha := nowMillis E |}
    /\ ro = JObj [("_id", JStr (newObjectId E)); ("id", o_id o);
                  ("numeroOrden", o_id o);
                  ("numeroFactura", JStr (buildInvoiceNumber E));
                  ("fecha", JNum (Num.ofZ (o_fecha o)));
                  ("estado", JStr (o_estado o));
                  ("cliente", iu); ("productos", JArr (map orderProduct lines));
                  ("totales", totalsForUi sub (roundMoney (Num.mul sub rate)) sc dv);
                  ("entrega", si); ("pago", pi)]
    /\ ri ./ "items" = JArr (map lineJson lines)
    /\ ri ./ "orderId" = JStr (newObjectId E)
    /\ ri ./ "orderCode" = o_id o
    /\ ri ./ "invoiceNumber" = JStr (buildInvoiceNumber E)
    /\ ri ./ "totals" ./ "total"
       = totalsForUi sub (roundMoney (Num.mul sub rate)) sc dv ./ "total".
Proof.
  unfold transaction. intros Hrun.
  run_step; [| run_steps].
  destruct (negb _) eqn:Hsize; [run_steps |].
  run_step; [| run_steps].
  match goal with x : (list line * num)%type |- _ => destruct x as [lines sub] end.
  simpl in Hrun.
  run_step; [| run_steps].
  run_step; [| run_steps].
  match goal with Hf : Product_find _ _ _ = _ |- _ => unfold Product_find in Hf end.
  run_steps.
  match goal with
  | Hl : processItems _ _ _ _ _ _ _ = _ |- _ =>
      pose proof (processItems_inv _ _ _ _ _ _ _ _ _ Hl) as (Hu1 & Ho1 & _);
      pose proof (processItems_lines _ _ _ _ _ _ _ _ _ Hl)
        as (new & _ & _ & _ & _ & _ & Hs1);
      rename Hl into Hloop
  end.
  match goal with
  | Hs : Order_save _ _ _ _ = _ |- _ =>
      apply Order_save_new in Hs; [| reflexivity]; cbv zeta in Hs; simpl in Hs;
      destruct Hs as (Hx1 & Hs2 & Ho2 & Hu2 & Hp2)
  end.
  match goal with
  | Hb : updateBuyer _ _ ?o _ _ = (Ok ?u, _) |- _ =>
      destruct u; apply updateBuyer_ok in Hb;
      destruct Hb as (Hs3 & Ho3 & Hp3 & Hu3)
  end.
  simpl in Hs1, Ho1, Hu1.
  match goal with
  | Hl : processItems _ _ _ _ _ _ _ = (Ok _, ?w2), Hx : ?o = Build_order _ _ _ _ _ _ |- _ =>
      exists lines, sub, o, w2
  end.
  split; [exact Hloop |].
  split; [congruence |].
  split; [rewrite Ho3, Ho2, Ho1; reflexivity |].
  split; [congruence |].
  split.
  { rewrite Hu3, Hu2, Hu1. subst. reflexivity. }
  split; [subst; rewrite Hs1; reflexivity |].
  split; [reflexivity |].
  repeat split.
Qed.


Lemma placeOrder_ok body items attached iu rate cur w resp w' :
  placeOrder cfg E body items attached iu rate cur w = (Ok resp, w') ->
  exists si pi ro ri w1,
    transaction E items attached iu si pi
      (calculateShippingCost cfg (shippingSourceOf body) items)
      (discountValueOf body) rate cur (logged OpStartSession w)
    = (Ok (ro, ri), w1)
    /\ w_db w' = w_db w1
    /\ resp = respond 201
                (JObj [("success", JBool true); ("order", ro); ("invoice", ri)])
    /\ si ./ "costo"
       = JNum (calculateShippingCost cfg (shippingSourceOf body) items).
Proof.
  unfold placeOrder. intros Hrun.
  apply withSession_inv in Hrun.
  destruct Hrun as [[Hc _] | (w1 & Hrun & Hdb)]; [discriminate |].
  run_step; [| run_steps].
  match goal with
  | Ht : withTransaction _ _ _ = _ |- _ =>
      apply withTransaction_inv in Ht; destruct Ht as (w2 & Htx & Hdb2)
  end.
  run_steps.
  match goal with
  | Ht : transaction _ _ _ _ ?si ?pi _ _ _ _ _ = (Ok ?r, _) |- _ =>
      exists si, pi, (fst r), (snd r), w2; destruct r
  end.
  simpl. repeat split; try assumption. congruence.
Qed.

Lemma handler_ok reqBody w resp w' :
  handler cfg E reqBody w = (Ok resp, w') ->
  succeeded resp ->
  let body := reqBody ||| JObj [] in
  exists items attached iu w0,
    sanitizeItems (body ./ "products") = inr items
    /\ resolvedBuyer body (w_db w) attached iu
    /\ w_db w0 = w_db w
    /\ placeOrder cfg E body items attached iu (taxRateOf body) (currencyOf body) w0
       = (Ok resp, w').
Proof.
  unfold handler. intros Hrun Hok. cbv zeta.
  set (body := reqBody ||| JObj []) in *.
  destruct (sanitizeItems (body ./ "products")) as [msg | items] eqn:Hitems.
  { run_steps. }
  exists items.
  destruct (JS.truthy (body ./ "userId")) eqn:Huid.
  - destruct (negb (isValidObjectId _)); [run_steps |].
    run_step; [| run_steps].
    run_steps.
    destruct (db_users (w_db w) !! _) as [u|] eqn:Hu; [| run_steps].
    do 3 eexists. split; [reflexivity |].
    split; [| split; [| exact Hrun]]; [| reflexivity].
    left. split; [exact Huid |]. exists u. split; [exact Hu |]. split; reflexivity.
  - match type of Hrun with
    | (if ?c then _ else _) _ = _ => destruct c; [| run_steps]
    end.
    do 3 eexists. split; [reflexivity |].
    split; [| split; [| exact Hrun]]; [| reflexivity].
    right. split; [exact Huid |]. split; reflexivity.
Qed.

(** What a checkout that answers 201 ran: validated items, a resolved buyer,
    and the callback of the transaction, returned and committed. *)
Lemma post_invoices_ok reqBody w :
  let body := reqBody ||| JObj [] in
  let r := post_invoices cfg E reqBody w in
  succeeded (fst r) ->
  exists items attached iu si pi ro ri w0 w1,
    sanitizeItems (body ./ "products") = inr items
    /\ resolvedBuyer body (w_db w) attached iu
    /\ w_db w0 = w_db w
    /\ transaction E items attached iu si pi
         (calculateShippingCost cfg (shippingSourceOf body) items)
         (discountValueOf body) (taxRateOf body) (currencyOf body) w0
       = (Ok (ro, ri), w1)
    /\ w_db (snd r) = w_db w1
    /\ fst r = respond 201
                 (JObj [("success", JBool true); ("order", ro); ("invoice", ri)])
    /\ si ./ "costo"
       = JNum (calculateShippingCost cfg (shippingSourceOf body) items).
Proof.
  cbv zeta. unfold post_invoices.
  destruct (handler cfg E reqBody w) as [[resp | e] w'] eqn:Hh; simpl.
  - intros Hok.
    destruct (handler_ok _ _ _ _ Hh Hok) as (items & attached & iu & w0 & Hi & Hb & Hw0 & Hp).
    apply placeOrder_ok in Hp.
    destruct Hp as (si & pi & ro & ri & w1 & Ht & Hdb & Hr & Hc).
    exists items, attached, iu, si, pi, ro, ri, (logged OpStartSession w0), w1.
    repeat split; assumption.
  - intros Hok. exfalso.
    pose proof (handler_inv _ _ _ _ _ _ Hh) as [Hk _].
    exact (knownError_not_created _ Hk Hok).
Qed.

End Placed.



(** X15 — the buyer after a checkout that answers 201, for a request
    whose body is plain.  Without a [userId] no stored user changes.  With a
    [userId] that is a text, the stored user has an empty cart and one more
    entry at the end of the orders, which names the new order and its code;
    every other user is as before. *)
Theorem checkout_buyer_update `{Platform}
    (cfg : config) (E : env) (reqBody : json) (w : world) :
  succeeded (fst (post_invoices cfg E reqBody w)) ->
  plain (reqBody ||| JObj []) = true ->
  let body := reqBody ||| JObj [] in
  let users' := db_users (w_db (snd (post_invoices cfg E reqBody w))) in
  (JS.truthy (body ./ "userId") = false -> users' = db_users (w_db w))
  /\ (forall s,
        body ./ "userId" = JStr s -> s <> "" ->
        exists u u' entry,
          db_users (w_db w) !! objectIdHex s = Some u
          /\ users' !! objectIdHex s = Some u'
          /\ u_cart u' = []
          /\ u_orders u' = u_orders u ++ [entry]
          /\ entry ./ "orderId" = JStr (newObjectId E)
          /\ entry ./ "codigo"
             = JStr (Str.ofZ (Z.max 30 (incremented (db_sequence (w_db w)))))
          /\ forall other, other <> objectIdHex s ->
                          users' !! other = db_users (w_db w) !! other).
Proof.
  intros Hok _. cbv zeta.
  destruct (post_invoices_ok cfg E reqBody w Hok)
    as (items & attached & iu & si & pi & ro & ri & w0 & w1
        & _ & Hbuyer & Hw0 & Htx & Hdb & _ & _).
  apply transaction_ok in Htx.
  destruct Htx as (lines & sub & o & w2 & _ & _ & _ & _ & Hu & Hdoc & _).
  rewrite Hdb, Hu, Hw0. clear Hu Hdb.
  destruct Hbuyer as [(Huid & u & Hfind & -> & _) | (Huid & -> & _)].
  - split; [congruence |]. intros s Hs _. rewrite Hs in *.
    change (JS.toString (JStr s)) with s in *. rewrite Hfind.
    eexists u, _, _. split; [reflexivity |].
    split; [apply lookup_insert_eq |].
    cbn [u_profile u_cart u_orders].
    do 2 (split; [reflexivity |]).
    split; [reflexivity |].
    split; [rewrite Hdoc, Hw0; reflexivity |].
    intros other Hne. apply lookup_insert_ne. congruence.
  - split; [reflexivity |]. intros s Hs Hne. rewrite Hs in Huid.
    destruct s; [contradiction | discriminate Huid].
Qed.

Lemma checkout_buyer_update_shop :
  exists u',
    db_users (w_db (snd (post_invoices default_config Ref.quiet
                           (Ref.request (JStr Ref.idU) [Ref.entry Ref.idA (Fin 3)] [])
                           Ref.start))) !! Ref.idU = Some u'
    /\ u_cart u' = [].
Proof.
  destruct (checkout_buyer_update default_config Ref.quiet
              (Ref.request (JStr Ref.idU) [Ref.entry Ref.idA (Fin 3)] [])
              Ref.start) as [_ Hwith].
  - vm_compute. reflexivity.
  - reflexivity.
  - destruct (Hwith Ref.idU) as (u & u' & entry & _ & Hu' & Hcart & _).
    + reflexivity.
    + discriminate.
    + exists u'. split; [exact Hu' | exact Hcart].
Defined.

(** X16 — the 201 answer agrees with what was stored: the order it shows
    has the identifier, the code, the state, the invoice number, the products
    and the totals of the stored order, and the invoice it shows has the same
    identifier, code, invoice number and total. *)
Theorem checkout_response_matches_order `{Platform}
    (cfg : config) (E : env) (reqBody : json) (w : world) :
  succeeded (fst (post_invoices cfg E reqBody w)) ->
  let r := post_invoices cfg E reqBody w in
  exists o ro ri,
    db_orders (w_db (snd r)) = db_orders (w_db w) ++ [(newObjectId E, o)]
    /\ fst r = respond 201
                 (JObj [("success", JBool true); ("order", ro); ("invoice", ri)])
    /\ ro ./ "_id" = JStr (newObjectId E)
    /\ ro ./ "id" = o_id o
    /\ ro ./ "numeroOrden" = o_id o
    /\ ro ./ "estado" = JStr (o_estado o)
    /\ ro ./ "numeroFactura" = o_resumen o ./ "invoiceNumber"
    /\ ro ./ "productos" = o_resumen o ./ "productos"
    /\ ro ./ "totales" = o_resumen o ./ "totales"
    /\ ri ./ "orderId" = JStr (newObjectId E)
    /\ ri ./ "orderCode" = o_id o
    /\ ri ./ "invoiceNumber" = o_resumen o ./ "invoiceNumber"
    /\ ri ./ "totals" ./ "total" = o_resumen o ./ "totales" ./ "total".
Proof.
  intros Hok. cbv zeta.
  destruct (post_invoices_ok cfg E reqBody w Hok)
    as (items & attached & iu & si & pi & ro & ri & w0 & w1
        & _ & _ & Hw0 & Htx & Hdb & Hresp & _).
  apply transaction_ok in Htx.
  destruct Htx as (lines & sub & o & w2 & _ & _ & Ho & _ & _ & Hdoc & Hro
                   & _ & Hri1 & Hri2 & Hri3 & Hri4).
  exists o, ro, ri. rewrite Hdb, Ho, Hw0, Hresp.
  do 2 (split; [reflexivity |]).
  rewrite Hri1, Hri2, Hri3, Hri4, Hro, Hdoc.
  cbn [o_id o_estado o_resumen].
  repeat split.
Qed.

Lemma checkout_response_matches_order_shop :
  exists o ro,
    db_orders (w_db (snd (post_invoices default_config Ref.quiet
                            (Ref.request (JStr Ref.idU) [Ref.entry Ref.idA (Fin 3)] [])
                            Ref.start)))
    = db_orders (w_db Ref.start) ++ [(newObjectId Ref.quiet, o)]
    /\ ro ./ "totales" = o_resumen o ./ "totales".
Proof.
  destruct (checkout_response_matches_order default_config Ref.quiet
              (Ref.request (JStr Ref.idU) [Ref.entry Ref.idA (Fin 3)] [])
              Ref.start)
    as (o & ro & ri & Ho & _ & _ & _ & _ & _ & _ & _ & Ht & _).
  - vm_compute. reflexivity.
  - exists o, ro. split; [exact Ho | exact Ht].
Defined.

(* ===================================================================== *)
(** ** The client shown on the invoice *)
(* ===================================================================== *)

Lemma or_truthy_or (a b : json) :
  JS.truthy b = true \/ b = JStr "" ->
  JS.truthy (a ||| b) = true \/ a ||| b = JStr "".
Proof.
  intros Hb. unfold JS.or. destruct (JS.truthy a) eqn:Ha; [left; exact Ha | exact Hb].
Qed.

Lemma pickUserFields_other `{Platform} (userDoc : json) (k : string) :
  ~ In k clientFields -> pickUserFields userDoc ./ k = JUndef.
Proof.
  intros Hk. unfold pickUserFields.
  destruct (JS.truthy userDoc); [| reflexivity].
  cbn [negb JS.get JS.assoc].
  repeat match goal with
         | |- context [String.eqb k ?s] =>
             let Hs := fresh "Hs" in
             destruct (String.eqb_spec k s) as [Hs | Hs];
             [exfalso; apply Hk; rewrite Hs; unfold clientFields; simpl; tauto |]
         end.
  reflexivity.
Qed.

(** X17 — [pickUserFields] on a document that holds no object with a
    [toString] property: nothing for a missing document ([null]); otherwise
    an object of six fields only, in which the name, the surname, the e-mail,
    the telephone and the document number are each a truthy value of the
    source or the empty string, and any other property, such as a password
    hash, is absent. *)
Theorem pickUserFields_fields `{Platform} (userDoc : json) :
  plain userDoc = true ->
  (JS.truthy userDoc = false -> pickUserFields userDoc = JNull)
  /\ (JS.truthy userDoc = true ->
      exists id nombre apellido email telefono cedula,
        pickUserFields userDoc
        = JObj [("id", id); ("nombre", nombre); ("apellido", apellido);
                ("email", email); ("telefono", telefono); ("cedula", cedula)]
        /\ Forall (fun v => JS.truthy v = true \/ v = JStr "")
                  [nombre; apellido; email; telefono; cedula])
  /\ (forall k, ~ In k clientFields -> pickUserFields userDoc ./ k = JUndef).
Proof.
  intros _. split; [| split].
  - intros Hf. unfold pickUserFields. now rewrite Hf.
  - intros Ht. unfold pickUserFields. rewrite Ht. cbn [negb].
    do 6 eexists. split; [reflexivity |].
    repeat (apply Forall_cons; split; [repeat apply or_truthy_or; right; reflexivity |]).
    apply Forall_nil. exact I.
  - intros k. apply pickUserFields_other.
Qed.

Lemma pickUserFields_fields_ana :
  pickUserFields
    (JObj [("_id", JStr Ref.idU); ("nombre", JStr "Ana");
           ("passwordHash", JStr "$2a$10$N9qo8uLOickgx2ZMRZoMye")])
    ./ "passwordHash" = JUndef.
Proof.
  refine (proj2 (proj2 (pickUserFields_fields
                          (JObj [("_id", JStr Ref.idU); ("nombre", JStr "Ana");
                                 ("passwordHash", JStr "$2a$10$N9qo8uLOickgx2ZMRZoMye")])
                          _)) "passwordHash" _).
  - reflexivity.
  - unfold clientFields. simpl. intros Hc.
    repeat (destruct Hc as [Hc | Hc]; [discriminate Hc |]). exact Hc.
Defined.

(** X18 — the client a checkout that answers 201 stores in the summary
    of the order, for a request whose body is plain: the six fields picked
    from the stored user when the [userId] is a text, from the inline [user]
    when there is no [userId]; whatever else the stored user or the request
    holds is not copied. *)
Theorem checkout_client `{Platform}
    (cfg : config) (E : env) (reqBody : json) (w : world) :
  succeeded (fst (post_invoices cfg E reqBody w)) ->
  plain (reqBody ||| JObj []) = true ->
  let body := reqBody ||| JObj [] in
  exists o,
    db_orders (w_db (snd (post_invoices cfg E reqBody w)))
    = db_orders (w_db w) ++ [(newObjectId E, o)]
    /\ (forall s,
          body ./ "userId" = JStr s -> s <> "" ->
          o_userId o = Some (objectIdHex s)
          /\ exists u, db_users (w_db w) !! objectIdHex s = Some u
                       /\ o_resumen o ./ "cliente"
                          = pickUserFields (userDoc (objectIdHex s) u))
    /\ (JS.truthy (body ./ "userId") = false ->
        o_userId o = None
        /\ o_resumen o ./ "cliente" = pickUserFields (body ./ "user"))
    /\ (forall k, ~ In k clientFields -> o_resumen o ./ "cliente" ./ k = JUndef).
Proof.
  intros Hok _. cbv zeta.
  destruct (post_invoices_ok cfg E reqBody w Hok)
    as (items & attached & iu & si & pi & ro & ri & w0 & w1
        & _ & Hbuyer & Hw0 & Htx & Hdb & _ & _).
  apply transaction_ok in Htx.
  destruct Htx as (lines & sub & o & w2 & _ & _ & Ho & _ & _ & Hdoc & _).
  exists o. rewrite Hdb, Ho, Hw0. split; [reflexivity |].
  rewrite Hdoc. cbn [o_userId o_resumen JS.get JS.assoc String.eqb Ascii.eqb Bool.eqb].
  destruct Hbuyer as [(Huid & u & Hfind & -> & ->) | (Huid & -> & ->)].
  - split; [| split].
    + intros s Hs _. rewrite Hs in *. change (JS.toString (JStr s)) with s in *.
      split; [reflexivity |]. exists u. split; [exact Hfind | reflexivity].
    + congruence.
    + intros k. apply pickUserFields_other.
  - split; [| split].
    + intros s Hs Hne. rewrite Hs in Huid.
      destruct s; [contradiction | discriminate Huid].
    + intros _. split; reflexivity.
    + intros k. apply pickUserFields_other.
Qed.

Lemma checkout_client_shop :
  exists o,
    db_orders (w_db (snd (post_invoices default_config Ref.quiet
                            (Ref.request (JStr Ref.idU) [Ref.entry Ref.idA (Fin 3)] [])
                            Ref.start)))
    = db_orders (w_db Ref.start) ++ [(newObjectId Ref.quiet, o)]
    /\ o_resumen o ./ "cliente" ./ "passwordHash" = JUndef.
Proof.
  destruct (checkout_client default_config Ref.quiet
              (Ref.request (JStr Ref.idU) [Ref.entry Ref.idA (Fin 3)] [])
              Ref.start)
    as (o & Ho & _ & _ & Hk).
  - vm_compute. reflexivity.
  - reflexivity.
  - exists o. split; [exact Ho |]. apply Hk.
    unfold clientFields. simpl. intros Hc.
    repeat (destruct Hc as [Hc | Hc]; [discriminate Hc |]). exact Hc.
Defined.

(* ===================================================================== *)
(** ** From the checkout to the page *)
(* ===================================================================== *)

Section Page.
Context `{Platform}.
Variable cfg : config.
Variable E : env.

Lemma findOrder_app oid orders o :
  findOrder oid orders = None -> findOrder oid (orders ++ [(oid, o)]) = Some o.
Proof.
  induction orders as [|[k o0] orders IH]; simpl.
  - intros _. now rewrite String.eqb_refl.
  - destruct (String.eqb k oid); [discriminate | exact IH].
Qed.

Lemma mapIdx_objects (f : json -> Z -> option json) :
  (forall x idx, JS.nullish x = false -> exists y, f x idx = Some y) ->
  forall l idx,
    Forall (fun x => JS.nullish x = false) l ->
    exists rows, mapIdx f l idx = Some rows.
Proof.
  intros Hf. induction l as [|x l IH]; intros idx Hall; simpl.
  - eauto.
  - inversion Hall; subst.
    destruct (Hf x idx) as [y ->]; [assumption |].
    destruct (IH (idx + 1)%Z) as [ys ->]; [assumption |]. eauto.
Qed.

Lemma normalizeProducts_orderProducts (order : json) (lines : list line) :
  order ./ "resumen" ./ "productos" = JArr (map orderProduct lines) ->
  lines <> [] ->
  exists rows, normalizeProducts order = Some rows.
Proof.
  intros Hp Hne. unfold normalizeProducts. rewrite Hp.
  destruct lines as [|l lines]; simpl map.
  - contradiction.
  - apply mapIdx_objects.
    + intros x idx Hx. unfold fromProducto. rewrite Hx. eauto.
    + constructor; [reflexivity |].
      apply Forall_forall. intros x Hin.
      apply list_elem_of_fmap in Hin. destruct Hin as (l0 & -> & _). reflexivity.
Qed.

End Page.

Lemma occursIn_refl s : Str.occursIn s s.
Proof.
  exists "", "". change (s = s +:+ "").
  induction s as [|c s IH]; [reflexivity |].
  change (String c s = String c (s +:+ "")). now rewrite <- IH.
Qed.

(** X20 — an order placed by the checkout can be rendered at once.  For
    a request whose body is plain and whose [userId] is a text or absent,
    when the summary stored with the order holds no object with a [toString]
    property, the identifier of the new document is a valid ObjectId in its
    canonical writing under which no order was stored before, and the lookup
    is not rejected, [GET /:id] for that identifier answers with a page, and
    the page shows the invoice number of the order. *)
Theorem checkout_then_invoice `{Platform}
    (cfg : config) (E E' : env) (now : string) (reqBody : json) (w : world) :
  succeeded (fst (post_invoices cfg E reqBody w)) ->
  plain (reqBody ||| JObj []) = true ->
  ((exists s, (reqBody ||| JObj []) ./ "userId" = JStr s)
   \/ JS.truthy ((reqBody ||| JObj []) ./ "userId") = false) ->
  (forall o,
     findOrder (newObjectId E)
       (db_orders (w_db (snd (post_invoices cfg E reqBody w)))) = Some o ->
     plain (o_resumen o) = true) ->
  isValidObjectId (newObjectId E) = true ->
  objectIdHex (newObjectId E) = newObjectId E ->
  findOrder (newObjectId E) (db_orders (w_db w)) = None ->
  fails E' (length (w_log (snd (post_invoices cfg E reqBody w)))) = false ->
  let w' := snd (post_invoices cfg E reqBody w) in
  exists o html,
    findOrder (newObjectId E) (db_orders (w_db w')) = Some o
    /\ o_resumen o ./ "invoiceNumber" = JStr (buildInvoiceNumber E)
    /\ get_invoice E' now (newObjectId E) w' = (Html html, logged OpOrderFindById w')
    /\ Str.occursIn (escapeHtml (JStr (buildInvoiceNumber E))) html.
Proof.
  intros Hok _ _ _ Hvalid Hhex Hfresh Hquiet. cbv zeta.
  destruct (post_invoices_ok cfg E reqBody w Hok)
    as (items & attached & iu & si & pi & ro & ri & w0 & w1
        & Hitems & _ & Hw0 & Htx & Hdb & _ & _).
  apply transaction_ok in Htx.
  destruct Htx as (lines & sub & o & w2 & Hloop & _ & Ho & _ & _ & Hdoc & _).
  apply sanitizeItems_inr in Hitems. destruct Hitems as (raws & _ & Hne & Hall).
  apply processItems_lines in Hloop.
  destruct Hloop as (new & Hnew & Hids & _). simpl in Hnew. subst new.
  assert (Hlines : lines <> []).
  { intros ->. destruct items; [| discriminate].
    inversion Hall; subst. contradiction. }
  rewrite Hw0 in Ho.
  assert (Hfind : findOrder (newObjectId E)
                    (db_orders (w_db (snd (post_invoices cfg E reqBody w)))) = Some o).
  { rewrite Hdb, Ho. now apply findOrder_app. }
  assert (Hres : leanOrder (newObjectId E) o ./ "resumen" = o_resumen o) by reflexivity.
  destruct (normalizeProducts_orderProducts (leanOrder (newObjectId E) o) lines)
    as [rows Hrows]; [rewrite Hres, Hdoc; reflexivity | exact Hlines |].
  exists o. eexists.
  split; [exact Hfind |].
  split; [rewrite Hdoc; reflexivity |].
  unfold get_invoice. rewrite Hvalid. cbn [negb].
  rewrite (op_ok E' OpOrderFindById _ Hquiet), Hhex.
  change (db_orders (w_db (logged OpOrderFindById ?x))) with (db_orders (w_db x)).
  rewrite Hfind. unfold renderInvoiceHtml. rewrite Hrows. cbv zeta.
  split; [reflexivity |].
  unfold page.
  apply occursIn_app_r, occursIn_app_l.
  rewrite Hres, Hdoc. apply occursIn_refl.
Qed.

Lemma checkout_then_invoice_shop :
  exists html,
    fst (get_invoice Ref.quiet "1/1/2025, 0:00:00" (newObjectId Ref.quiet)
           (snd (post_invoices default_config Ref.quiet
                   (Ref.request (JStr Ref.idU) [Ref.entry Ref.idA (Fin 3)] [])
                   Ref.start)))
    = Html html.
Proof.
  destruct (checkout_then_invoice default_config Ref.quiet Ref.quiet
              "1/1/2025, 0:00:00"
              (Ref.request (JStr Ref.idU) [Ref.entry Ref.idA (Fin 3)] [])
              Ref.start)
    as (o & html & _ & _ & Hget & _).
  - vm_compute. reflexivity.
  - reflexivity.
  - left. exists Ref.idU. reflexivity.
  - intros o Ho. vm_compute in Ho. injection Ho as <-. reflexivity.
  - reflexivity.
  - reflexivity.
  - reflexivity.
  - reflexivity.
  - exists html. rewrite Hget. reflexivity.
Defined.

(* ===================================================================== *)
(** ** Prices and shipping: bounds *)
(* ===================================================================== *)

Lemma leb_fin (a b : Q) : Num.leb (Num.fin a) (Num.fin b) = true <-> (a <= b)%Q.
Proof.
  unfold Num.fin, Num.leb. rewrite Qle_bool_iff, !Qred_correct. reflexivity.
Qed.

Lemma nonneg_fin (a : Q) : nonneg (Num.fin a) <-> (0 <= a)%Q.
Proof. unfold Num.fin. rewrite nonneg_Fin, Qred_correct. reflexivity. Qed.

Lemma roundMoney_zero : roundMoney (Fin 0) = Fin 0.
Proof. reflexivity. Qed.

(** The price after a discount between 0 and 100 per cent lies between
    zero and the price. *)
Lemma discounted_bounds (q d : Q) :
  (0 <= q)%Q -> (0 <= d)%Q -> (d <= 100)%Q ->
  nonneg (Num.mul (Fin q) (Num.sub (Fin 1) (Num.div (Fin d) (Fin 100))))
  /\ Num.leb (Num.mul (Fin q) (Num.sub (Fin 1) (Num.div (Fin d) (Fin 100))))
             (Fin q) = true.
Proof.
  intros Hq Hd0 Hd1.
  change (Num.div (Fin d) (Fin 100)) with (Num.fin (d / 100)).
  change (Num.sub (Fin 1) (Num.fin (d / 100)))
    with (Num.fin (1 + Qred (- Qred (d / 100)))).
  change (Num.mul (Fin q) (Num.fin (1 + Qred (- Qred (d / 100)))))
    with (Num.fin (q * Qred (1 + Qred (- Qred (d / 100))))).
  assert (Hk : (Qred (1 + Qred (- Qred (d / 100))) == 1 - d / 100)%Q).
  { rewrite !Qred_correct. reflexivity. }
  assert (Hlo : (0 <= 1 - d / 100)%Q).
  { apply (proj1 (Qle_minus_iff (d / 100) 1)).
    apply Qle_shift_div_r; [reflexivity | lra]. }
  assert (Hhi : (1 - d / 100 <= 1)%Q).
  { assert (0 <= d / 100)%Q by (apply Qle_shift_div_l; [reflexivity | lra]). lra. }
  split.
  - apply nonneg_fin. rewrite Hk. now apply Qmult_le_0_compat.
  - unfold Num.fin, Num.leb. apply Qle_bool_iff. rewrite Qred_correct, Hk.
    rewrite <- (Qmult_1_r q) at 2.
    rewrite !(Qmult_comm q). apply Qmult_le_compat_r; assumption.
Qed.

Lemma mul_nonneg (a b : num) :
  Num.isFinite a = true -> Num.isFinite b = true ->
  nonneg a -> nonneg b -> nonneg (Num.mul a b).
Proof.
  destruct a as [x| | |], b as [y| | |]; try discriminate. intros _ _ Ha Hb.
  apply nonneg_Fin in Ha, Hb. apply nonneg_fin. now apply Qmult_le_0_compat.
Qed.

(** X21 — a line priced from a product whose price is not negative and
    whose discount lies between 0 and 100 per cent, for a quantity that is a
    non-negative number: the unit price is not negative and not above the
    rounded price, and, when the unit price is finite, the line total is not
    negative. *)
Theorem priceLine_bounds `{Platform} (cur : string) (it : item) (p : product) :
  nonneg (p_precio p) ->
  nonneg (p_descuento p) ->
  Num.leb (p_descuento p) (Fin 100) = true ->
  Num.isFinite (quantity it) = true ->
  nonneg (quantity it) ->
  nonneg (l_unitPrice (priceLine cur it p))
  /\ Num.leb (l_unitPrice (priceLine cur it p)) (roundMoney (p_precio p)) = true
  /\ (Num.isFinite (l_unitPrice (priceLine cur it p)) = true ->
      nonneg (l_lineTotal (priceLine cur it p))).
Proof.
  intros Hp Hd0 Hd1 Hqf Hq.
  destruct (p_descuento p) as [d| | |] eqn:Hdesc; try discriminate.
  apply nonneg_Fin in Hd0. apply Qle_bool_iff in Hd1.
  assert (Hunit :
            nonneg (l_unitPrice (priceLine cur it p))
            /\ Num.leb (l_unitPrice (priceLine cur it p)) (roundMoney (p_precio p))
               = true).
  { unfold priceLine. cbn [l_unitPrice]. rewrite Hdesc.
    destruct (p_precio p) as [q| | |]; try discriminate.
    - apply nonneg_Fin in Hp.
      destruct (discounted_bounds q d Hp Hd0 Hd1) as [Hlo Hhi].
      change (toNumber (JNum (Fin q)) (Fin 0)) with (Fin q).
      change (toNumber (JNum (Fin d)) (Fin 0)) with (Fin d).
      split.
      + apply roundMoney_nonneg; [reflexivity | exact Hlo].
      + apply roundMoney_le. exact Hhi.
    - split; reflexivity. }
  split; [apply Hunit |]. split; [apply Hunit |].
  destruct Hunit as [Hu _]. intros Hfin.
  unfold priceLine in *. cbn [l_unitPrice l_lineTotal] in *.
  apply roundMoney_nonneg.
  - apply mul_finite; [exact Hfin | exact Hqf].
  - apply mul_nonneg; [exact Hfin | exact Hqf | exact Hu | exact Hq].
Qed.

Lemma priceLine_bounds_arroz :
  nonneg (l_lineTotal
            (priceLine "USD" {| productId := Ref.idA; quantity := Fin 3 |}
               {| p_nombre := "Arroz"; p_precio := Fin 10; p_descuento := Fin 10;
                  p_stock := Fin 5 |})).
Proof.
  refine (proj2 (proj2
            (priceLine_bounds "USD" {| productId := Ref.idA; quantity := Fin 3 |}
               {| p_nombre := "Arroz"; p_precio := Fin 10; p_descuento := Fin 10;
                  p_stock := Fin 5 |} _ _ _ _ _)) _); reflexivity.
Defined.

Lemma max_fin (a b : Q) :
  exists c, Num.max (Fin a) (Fin b) = Fin c /\ (a <= c)%Q.
Proof.
  simpl. unfold Num.Qltb.
  destruct (Qcompare_spec a b) as [Heq | Hlt | Hgt].
  - exists a. split; [reflexivity | apply Qle_refl].
  - exists b. split; [reflexivity | now apply Qlt_le_weak].
  - exists a. split; [reflexivity | apply Qle_refl].
Qed.

Lemma min_fin (a b : Q) :
  exists c, Num.min (Fin a) (Fin b) = Fin c /\ (c <= a)%Q
            /\ ((0 <= a)%Q -> (0 <= b)%Q -> (0 <= c)%Q).
Proof.
  simpl. unfold Num.Qltb.
  destruct (Qcompare_spec b a) as [Heq | Hlt | Hgt].
  - exists a. split; [reflexivity |]. split; [apply Qle_refl | auto].
  - exists b. split; [reflexivity |]. split; [now apply Qlt_le_weak | auto].
  - exists a. split; [reflexivity |]. split; [apply Qle_refl | auto].
Qed.

(** The fee computed from the units: not negative, and not above the
    rounded cap. *)
Lemma computedFee_bounds (cfg : config) (u : Q) :
  (0 <= BASE_SHIPPING_FEE cfg)%Q ->
  (0 <= PER_ITEM_SHIPPING_FEE cfg)%Q ->
  (0 <= MAX_SHIPPING_FEE cfg)%Q ->
  let fee :=
    roundMoney
      (Num.min (Fin (MAX_SHIPPING_FEE cfg))
         (Num.add (Fin (BASE_SHIPPING_FEE cfg))
            (Num.mul (Num.max (Fin 0) (Num.sub (Fin u) (Fin 1)))
               (Fin (PER_ITEM_SHIPPING_FEE cfg))))) in
  nonneg fee /\ Num.leb fee (roundMoney (Fin (MAX_SHIPPING_FEE cfg))) = true.
Proof.
  intros Hb Hp Hm. cbv zeta.
  change (Num.sub (Fin u) (Fin 1)) with (Fin (Qred (u + Qred (- 1)))).
  destruct (max_fin 0 (Qred (u + Qred (- 1)))) as (m & -> & Hm0).
  change (Num.mul (Fin m) (Fin (PER_ITEM_SHIPPING_FEE cfg)))
    with (Fin (Qred (m * PER_ITEM_SHIPPING_FEE cfg))).
  change (Num.add (Fin (BASE_SHIPPING_FEE cfg))
            (Fin (Qred (m * PER_ITEM_SHIPPING_FEE cfg))))
    with (Fin (Qred (BASE_SHIPPING_FEE cfg + Qred (m * PER_ITEM_SHIPPING_FEE cfg)))).
  destruct (min_fin (MAX_SHIPPING_FEE cfg)
              (Qred (BASE_SHIPPING_FEE cfg + Qred (m * PER_ITEM_SHIPPING_FEE cfg))))
    as (c & -> & Hle & Hpos).
  split.
  - apply roundMoney_nonneg; [reflexivity |]. apply nonneg_Fin. apply Hpos; [exact Hm |].
    rewrite !Qred_correct.
    assert (0 <= m * PER_ITEM_SHIPPING_FEE cfg)%Q by now apply Qmult_le_0_compat.
    lra.
  - apply roundMoney_le. simpl. now apply Qle_bool_iff.
Qed.

(** X22 — the shipping fee, for fees of the configuration that are not
    negative, a shipping source that is not [null] and holds no object with
    a [toString] property, and items whose units add up to a finite number:
    it is never
    negative; a manual cost in [costo] that is not negative is charged as
    given, rounded, whatever the cap; a negative one is ignored and the fee
    computed from the units stays at or below the rounded cap. *)
Theorem calculateShippingCost_bounds `{Platform}
    (cfg : config) (shippingSource : json) (items : list item) :
  (0 <= BASE_SHIPPING_FEE cfg)%Q ->
  (0 <= PER_ITEM_SHIPPING_FEE cfg)%Q ->
  (0 <= MAX_SHIPPING_FEE cfg)%Q ->
  shippingSource <> JNull ->
  plain shippingSource = true ->
  Num.isFinite (totalUnits items) = true ->
  nonneg (calculateShippingCost cfg shippingSource items)
  /\ (forall c, shippingSource ./ "costo" = JNum (Fin c) -> (0 <= c)%Q ->
        calculateShippingCost cfg shippingSource items = roundMoney (Fin c))
  /\ (forall c, shippingSource ./ "costo" = JNum (Fin c) -> (c < 0)%Q ->
        Num.leb (calculateShippingCost cfg shippingSource items)
                (roundMoney (Fin (MAX_SHIPPING_FEE cfg))) = true).
Proof.
  intros Hb Hp Hm _ _ Hunits.
  assert (Hsrc : forall k,
             match shippingSource with JUndef => JObj [] | _ => shippingSource end ./ k
             = shippingSource ./ k).
  { intros k. now destruct shippingSource. }
  unfold calculateShippingCost. cbv zeta. rewrite !Hsrc.
  fold (totalUnits items).
  destruct (totalUnits items) as [u| | |]; try discriminate Hunits.
  pose proof (computedFee_bounds cfg u Hb Hp Hm) as Hfee. cbv zeta in Hfee.
  split; [| split].
  - destruct (Num.isFinite _ && Num.geb _ _) eqn:Hmanual; [| apply Hfee].
    apply andb_true_iff in Hmanual. destruct Hmanual as [Hfin Hge].
    apply roundMoney_nonneg; [exact Hfin | exact Hge].
  - intros c Hc Hpos. rewrite Hc.
    cbn [JS.coalesce JS.nullish]. unfold toNumber. cbn [JS.Number Num.isFinite andb].
    unfold Num.geb, Num.leb.
    apply Qle_bool_iff in Hpos. rewrite Hpos. reflexivity.
  - intros c Hc Hneg. rewrite Hc.
    cbn [JS.coalesce JS.nullish]. unfold toNumber. cbn [JS.Number Num.isFinite andb].
    unfold Num.geb, Num.leb.
    destruct (Qle_bool 0 c) eqn:Hle; [| apply Hfee].
    apply Qle_bool_iff in Hle. lra.
Qed.

Lemma calculateShippingCost_bounds_default :
  nonneg (calculateShippingCost default_config (JObj [("costo", JNum (Fin (-1)))])
            [{| productId := Ref.idA; quantity := Fin 100 |}]).
Proof.
  apply (calculateShippingCost_bounds default_config
           (JObj [("costo", JNum (Fin (-1)))])
           [{| productId := Ref.idA; quantity := Fin 100 |}]).
  - discriminate.
  - discriminate.
  - discriminate.
  - discriminate.
  - reflexivity.
  - reflexivity.
Defined.

(* ===================================================================== *)
(** ** The counter of order codes *)
(* ===================================================================== *)

Lemma counterLe_refl a : counterLe a a.
Proof. destruct a; simpl; [lia | exact I]. Qed.

Lemma counterLe_trans a b c : counterLe a b -> counterLe b c -> counterLe a c.
Proof. destruct a, b, c; simpl; try tauto; lia. Qed.

Lemma keepsCounter_ret {A} (a : A) : keepsCounter (ret a).
Proof. intros w r w' Hrun. inversion Hrun; subst. apply counterLe_refl. Qed.

Lemma keepsCounter_throw {A} (e : error) : keepsCounter (@throw A e).
Proof. intros w r w' Hrun. inversion Hrun; subst. apply counterLe_refl. Qed.

Lemma keepsCounter_bind {A B} (m : M A) (k : A -> M B) :
  keepsCounter m -> (forall a, keepsCounter (k a)) -> keepsCounter (bind m k).
Proof.
  intros Hm Hk w r w' Hrun. apply bind_inv in Hrun.
  destruct Hrun as [(a & w1 & Hrun1 & Hrun2) | (e & Hrun1 & _)].
  - eapply counterLe_trans; [eapply Hm | eapply Hk]; eassumption.
  - eapply Hm; eassumption.
Qed.

Lemma keepsCounter_op (E : env) (o : dbop) : keepsCounter (op E o).
Proof.
  intros w r w' Hrun. apply op_inv in Hrun. destruct Hrun as [-> _].
  apply counterLe_refl.
Qed.

Lemma keepsCounter_if {A} (b : bool) (m1 m2 : M A) :
  keepsCounter m1 -> keepsCounter m2 -> keepsCounter (if b then m1 else m2).
Proof. now destruct b. Qed.

Section Counter.
Context `{Platform}.
Variable cfg : config.
Variable E : env.

Lemma keepsCounter_getNextOrderId : keepsCounter (getNextOrderId E).
Proof.
  intros w r w' Hrun. apply getNextOrderId_inv in Hrun.
  destruct Hrun as (_ & _ & _ & Hr). destruct r as [v | e].
  - destruct Hr as [-> ->]. destruct (db_sequence (w_db w)); simpl; [lia | exact I].
  - destruct Hr as [-> | ->]; destruct (db_sequence (w_db w)); simpl;
      try exact I; lia.
Qed.

Lemma keepsCounter_Order_save oid o : keepsCounter (Order_save E oid o).
Proof.
  unfold Order_save.
  apply keepsCounter_bind.
  - apply keepsCounter_if; [apply keepsCounter_ret |].
    apply keepsCounter_bind; [apply keepsCounter_getNextOrderId |].
    intros; apply keepsCounter_ret.
  - intros o'. apply keepsCounter_bind; [apply keepsCounter_op |]. intros _.
    intros w r w' Hrun. run_steps. apply counterLe_refl.
Qed.

Lemma keepsCounter_Product_find ids : keepsCounter (Product_find E ids).
Proof.
  intros w r w' Hrun. apply Product_find_inv in Hrun. destruct Hrun as [-> _].
  apply counterLe_refl.
Qed.

Lemma keepsCounter_Product_save id p : keepsCounter (Product_save E id p).
Proof.
  intros w r w' Hrun. apply Product_save_inv in Hrun.
  destruct Hrun as (_ & _ & -> & _). apply counterLe_refl.
Qed.

Lemma keepsCounter_User_save uid u : keepsCounter (User_save E uid u).
Proof.
  unfold User_save. apply keepsCounter_if; [apply keepsCounter_throw |].
  apply keepsCounter_bind; [apply keepsCounter_op |]. intros _.
  intros w r w' Hrun. run_steps. apply counterLe_refl.
Qed.

Lemma keepsCounter_processItems cur items :
  forall pm acc sub, keepsCounter (processItems E cur items pm acc sub).
Proof.
  induction items as [|it rest IH]; intros pm acc sub; simpl.
  - apply keepsCounter_ret.
  - destruct (pm !! productId it) as [p|]; [| apply keepsCounter_throw].
    apply keepsCounter_if; [apply keepsCounter_throw |].
    apply keepsCounter_bind; [apply keepsCounter_Product_save |].
    intros _. apply IH.
Qed.

Lemma keepsCounter_updateBuyer attached o resumen :
  keepsCounter (updateBuyer E attached o resumen).
Proof.
  unfold updateBuyer. destruct attached as [[uid u]|]; [| apply keepsCounter_ret].
  apply keepsCounter_bind; [apply keepsCounter_op |]. intros _.
  intros w r w' Hrun. unfold bind, getDb in Hrun.
  destruct (db_users (w_db w) !! uid).
  - eapply keepsCounter_User_save. exact Hrun.
  - eapply keepsCounter_ret. exact Hrun.
Qed.

Lemma keepsCounter_transaction items attached iu si pi sc dv rate cur :
  keepsCounter (transaction E items attached iu si pi sc dv rate cur).
Proof.
  unfold transaction.
  apply keepsCounter_bind; [apply keepsCounter_Product_find |]. intros pm.
  apply keepsCounter_if; [apply keepsCounter_throw |].
  apply keepsCounter_bind; [apply keepsCounter_processItems |]. intros r.
  apply keepsCounter_bind; [apply keepsCounter_Order_save |]. intros o.
  apply keepsCounter_bind; [apply keepsCounter_updateBuyer |]. intros _.
  apply keepsCounter_ret.
Qed.

Lemma keepsCounter_withTransaction {A} (callback : M A) :
  keepsCounter callback -> keepsCounter (withTransaction E callback).
Proof.
  intros Hc w r w' Hrun. unfold withTransaction in Hrun.
  destruct (callback w) as [[a | e] w1] eqn:Hcall.
  - apply Hc in Hcall.
    destruct (op E OpCommit w1) as [[u | e] w2] eqn:Hop;
      apply op_inv in Hop; destruct Hop as [-> _];
      inversion Hrun; subst; exact Hcall.
  - apply Hc in Hcall. inversion Hrun; subst. exact Hcall.
Qed.

Lemma keepsCounter_withSession {A} (body : M A) :
  keepsCounter body -> keepsCounter (withSession E body).
Proof.
  intros Hb. unfold withSession.
  apply keepsCounter_bind; [apply keepsCounter_op |]. intros _.
  intros w r w' Hrun. destruct (body w) as [r1 w1] eqn:Hbody.
  apply Hb in Hbody. inversion Hrun; subst. exact Hbody.
Qed.

Lemma keepsCounter_placeOrder body items attached iu rate cur :
  keepsCounter (placeOrder cfg E body items attached iu rate cur).
Proof.
  unfold placeOrder. cbv zeta.
  apply keepsCounter_withSession.
  apply keepsCounter_bind; [| intros; apply keepsCounter_ret].
  apply keepsCounter_withTransaction, keepsCounter_transaction.
Qed.

Lemma keepsCounter_handler reqBody : keepsCounter (handler cfg E reqBody).
Proof.
  unfold handler. cbv zeta.
  destruct (sanitizeItems _) as [msg | items]; [apply keepsCounter_ret |].
  apply keepsCounter_if.
  - apply keepsCounter_if; [apply keepsCounter_throw |].
    apply keepsCounter_bind; [apply keepsCounter_op |]. intros _.
    intros w r w' Hrun. unfold bind, getDb in Hrun.
    destruct (db_users (w_db w) !! _).
    + eapply keepsCounter_placeOrder. exact Hrun.
    + eapply keepsCounter_ret. exact Hrun.
  - apply keepsCounter_if; [apply keepsCounter_placeOrder | apply keepsCounter_ret].
Qed.

End Counter.

(** X23 — the counter of order codes never goes back: neither
    [getNextOrderId] nor a whole checkout, whether it answers 201, refuses
    the request or is rolled back after a fault, leaves the counter absent
    where it was present or below the value it had. *)
Theorem counter_never_decreases `{Platform}
    (cfg : config) (E : env) (reqBody : json) (w : world) :
  counterLe (db_sequence (w_db w))
            (db_sequence (w_db (snd (getNextOrderId E w))))
  /\ counterLe (db_sequence (w_db w))
               (db_sequence (w_db (snd (post_invoices cfg E reqBody w)))).
Proof.
  split.
  - destruct (getNextOrderId E w) as [r w'] eqn:Hrun.
    eapply keepsCounter_getNextOrderId. exact Hrun.
  - unfold post_invoices.
    destruct (handler cfg E reqBody w) as [[resp | e] w'] eqn:Hrun;
      simpl; eapply keepsCounter_handler; exact Hrun.
Qed.

(* ===================================================================== *)
(** ** The invoice number *)
(* ===================================================================== *)

Lemma padStart3_upto_1000 :
  forallb (fun n => (String.length (padStart3 (Str.ofZ (Z.of_nat n))) =? 3)%nat)
          (List.seq 0 1000) = true.
Proof. vm_compute. reflexivity. Qed.

(** X24 — the invoice number: for a random draw between 0 and 999, as
    [Math.floor(Math.random() * 1000)] gives, it is "INV-", the clock in
    milliseconds, a dash, and a suffix of exactly three characters. *)
Theorem buildInvoiceNumber_format (E : env) :
  (0 <= random1000 E < 1000)%Z ->
  exists suffix,
    buildInvoiceNumber E = "INV-" +:+ Str.ofZ (nowMillis E) +:+ "-" +:+ suffix
    /\ String.length suffix = 3%nat.
Proof.
  intros Hr. exists (padStart3 (Str.ofZ (random1000 E))). split; [reflexivity |].
  pose proof padStart3_upto_1000 as Hall.
  rewrite forallb_forall in Hall.
  specialize (Hall (Z.to_nat (random1000 E))).
  rewrite Z2Nat.id in Hall by lia.
  apply Nat.eqb_eq, Hall. apply in_seq. lia.
Qed.

Lemma buildInvoiceNumber_format_quiet :
  exists suffix,
    buildInvoiceNumber Ref.quiet
    = "INV-" +:+ Str.ofZ (nowMillis Ref.quiet) +:+ "-" +:+ suffix
    /\ String.length suffix = 3%nat.
Proof. apply (buildInvoiceNumber_format Ref.quiet). simpl. lia. Defined.

(* ===================================================================== *)
(** ** [router.post('/orders')] *)
(* ===================================================================== *)

Section PublicOrdersFacts.
Context `{Platform}.
Variable E : env.
Variable isValidId : json -> bool.
Variable toObjectId : json -> option string.
Variable castString : json -> option string.
Variable toJSON : string -> order -> json.

Lemma Order_save_throws oid o w e w' :
  Order_save E oid o w = (Throw e, w') ->
  db_orders (w_db w') = db_orders (w_db w).
Proof.
  unfold Order_save. intros Hrun.
  destruct (JS.truthy (o_id o)); run_steps; auto.
  all: repeat match goal with
         | Hn : getNextOrderId _ _ = _ |- _ =>
             apply getNextOrderId_inv in Hn; destruct Hn as (_ & _ & Hn & _)
         end; auto.
Qed.

Lemma createOrder_inv body userId w r w' :
  createOrder E castString toJSON body userId w = (r, w') ->
  db_products (w_db w') = db_products (w_db w)
  /\ db_users (w_db w') = db_users (w_db w)
  /\ counterLe (db_sequence (w_db w)) (db_sequence (w_db w'))
  /\ match r with
     | Ok resp =>
         exists estado o,
           (if JS.truthy (body ./ "estado") then castString (body ./ "estado")
            else Some "pendiente") = Some estado
           /\ o = {| o_id := JStr (Str.ofZ (Z.max 30 (incremented (db_sequence (w_db w)))));
                     o_userId := userId;
                     o_items := match body ./ "items" with JArr l => l | _ => [] end;
                     o_resumen := body ./ "resumen" ||| JObj [];
                     o_estado := estado;
                     o_fecha := nowMillis E |}
           /\ resp = respond 201 (toJSON (newObjectId E) o)
           /\ db_orders (w_db w') = db_orders (w_db w) ++ [(newObjectId E, o)]
           /\ db_sequence (w_db w')
              = Some (Z.max 30 (incremented (db_sequence (w_db w))))
     | Throw _ => db_orders (w_db w') = db_orders (w_db w)
     end.
Proof.
  unfold createOrder. intros Hrun.
  destruct (if JS.truthy (body ./ "estado") then castString (body ./ "estado")
            else Some "pendiente") as [estado|] eqn:Hestado.
  - apply bind_inv in Hrun.
    destruct Hrun as [(saved & w1 & Hsave & Hret) | (e & Hsave & ->)].
    + pose proof (keepsCounter_Order_save E _ _ _ _ _ Hsave) as Hc.
      apply Order_save_new in Hsave; [| reflexivity]. cbv zeta in Hsave.
      destruct Hsave as (Hdoc & Hseq & Ho & Hu & Hp).
      unfold ret in Hret. inversion Hret; subst r w'; clear Hret.
      repeat split; try assumption.
      exists estado, saved. rewrite Hdoc at 1. unfold newOrder.
      cbn [o_userId o_items o_resumen o_estado o_fecha].
      repeat split; assumption.
    + pose proof (keepsCounter_Order_save E _ _ _ _ _ Hsave) as Hc.
      pose proof (Order_save_throws _ _ _ _ _ Hsave) as Ho.
      apply Order_save_inv in Hsave. destruct Hsave as (Hp & Hu & _).
      repeat split; assumption.
  - unfold throw in Hrun. inversion Hrun; subst.
    repeat split; auto using counterLe_refl.
Qed.

Lemma orderHandler_inv body w r w' :
  orderHandler E isValidId toObjectId castString toJSON body w = (r, w') ->
  db_products (w_db w') = db_products (w_db w)
  /\ db_users (w_db w') = db_users (w_db w)
  /\ counterLe (db_sequence (w_db w)) (db_sequence (w_db w'))
  /\ match r with
     | Ok resp =>
         (resp = respond 400 (errorBody "Invalid userId format")
          /\ JS.truthy (body ./ "userId") = true
          /\ isValidId (body ./ "userId") = false
          /\ w' = w)
         \/ exists estado o,
             (if JS.truthy (body ./ "estado") then castString (body ./ "estado")
              else Some "pendiente") = Some estado
             /\ o = {| o_id := JStr (Str.ofZ (Z.max 30 (incremented (db_sequence (w_db w)))));
                       o_userId := if JS.truthy (body ./ "userId")
                                   then toObjectId (body ./ "userId") else None;
                       o_items := match body ./ "items" with JArr l => l | _ => [] end;
                       o_resumen := body ./ "resumen" ||| JObj [];
                       o_estado := estado;
                       o_fecha := nowMillis E |}
             /\ resp = respond 201 (toJSON (newObjectId E) o)
             /\ db_orders (w_db w') = db_orders (w_db w) ++ [(newObjectId E, o)]
             /\ db_sequence (w_db w')
                = Some (Z.max 30 (incremented (db_sequence (w_db w))))
     | Throw _ => db_orders (w_db w') = db_orders (w_db w)
     end.
Proof.
  unfold orderHandler. intros Hrun.
  destruct (JS.nullish body).
  { unfold throw in Hrun. inversion Hrun; subst.
    repeat split; auto using counterLe_refl. }
  destruct (JS.truthy (body ./ "userId")) eqn:Huid.
  - destruct (isValidId (body ./ "userId")) eqn:Hvalid; cbn [negb] in Hrun.
    + destruct (toObjectId (body ./ "userId")) as [uid|] eqn:Hcast.
      * apply createOrder_inv in Hrun.
        destruct Hrun as (Hp & Hu & Hc & Hr). repeat split; try assumption.
        destruct r; [right | exact Hr]. exact Hr.
      * unfold throw in Hrun. inversion Hrun; subst.
        repeat split; auto using counterLe_refl.
    + unfold ret in Hrun. inversion Hrun; subst.
      repeat split; auto using counterLe_refl.
  - apply createOrder_inv in Hrun.
    destruct Hrun as (Hp & Hu & Hc & Hr). repeat split; try assumption.
    destruct r; [right | exact Hr]. exact Hr.
Qed.

End PublicOrdersFacts.

(** X25 — [POST /orders]: whatever the body, the faults and the casts of
    Mongoose, the products and the users are untouched and the counter does
    not go back; the answer is 201 or 400; with 201 exactly one order was
    added, under the identifier of the new document, with the next code of
    the counter (30 at least), the items of the body when they are an array
    (none otherwise), the [resumen] of the body as it was sent (an empty
    object when falsy) and the state given or "pendiente"; with 400 no order
    was added.  A rejected store operation is answered 400 too. *)
Theorem post_orders_effect `{Platform} (E : env)
    (isValidId : json -> bool) (toObjectId : json -> option string)
    (castString : json -> option string) (toJSON : string -> order -> json)
    (reqBody : json) (w : world) :
  let r := post_orders E isValidId toObjectId castString toJSON reqBody w in
  let code := Z.max 30 (incremented (db_sequence (w_db w))) in
  db_products (w_db (snd r)) = db_products (w_db w)
  /\ db_users (w_db (snd r)) = db_users (w_db w)
  /\ counterLe (db_sequence (w_db w)) (db_sequence (w_db (snd r)))
  /\ ((status (fst r) = 400%nat /\ db_orders (w_db (snd r)) = db_orders (w_db w))
      \/ (status (fst r) = 201%nat
          /\ exists o,
              db_orders (w_db (snd r)) = db_orders (w_db w) ++ [(newObjectId E, o)]
              /\ db_sequence (w_db (snd r)) = Some code
              /\ o_id o = JStr (Str.ofZ code)
              /\ o_items o = match reqBody ./ "items" with JArr l => l | _ => [] end
              /\ o_resumen o = reqBody ./ "resumen" ||| JObj []
              /\ (JS.truthy (reqBody ./ "estado") = false -> o_estado o = "pendiente")
              /\ o_fecha o = nowMillis E
              /\ payload (fst r) = toJSON (newObjectId E) o)).
Proof.
  cbv zeta. unfold post_orders.
  destruct (orderHandler E isValidId toObjectId castString toJSON reqBody w)
    as [[resp | e] w'] eqn:Hrun;
    apply orderHandler_inv in Hrun; destruct Hrun as (Hp & Hu & Hc & Hr); simpl.
  - do 3 (split; [assumption |]).
    destruct Hr as [(-> & _ & _ & ->) | (estado & o & Hestado & Hdoc & -> & Ho & Hseq)].
    + left. split; reflexivity.
    + right. split; [reflexivity |]. exists o.
      do 2 (split; [assumption |]).
      rewrite Hdoc. cbn [o_id o_items o_resumen o_estado o_fecha payload respond].
      repeat split; try reflexivity.
      intros Hf. rewrite Hf in Hestado. congruence.
  - do 3 (split; [assumption |]). left. split; [reflexivity | assumption].
Qed.

(* ===================================================================== *)
(** ** The rows of the page *)
(* ===================================================================== *)

Lemma occursIn_concat (f : json -> string) (rows : list json) (row : json) :
  In row rows -> Str.occursIn (f row) (String.concat "" (map f rows)).
Proof.
  induction rows as [|x rows IH]; [intros [] |].
  intros [-> | Hin].
  - destruct rows as [|y rows]; [apply occursIn_refl |].
    change (Str.occursIn (f row) (f row +:+ "" +:+ String.concat "" (map f (y :: rows)))).
    apply occursIn_app_l, occursIn_refl.
  - destruct rows as [|y rows]; [destruct Hin |].
    change (Str.occursIn (f row) (f x +:+ "" +:+ String.concat "" (map f (y :: rows)))).
    do 2 apply occursIn_app_r. now apply IH.
Qed.

Lemma occursIn_nonempty (c : ascii) (s t u : string) :
  Str.occursIn (String c s +:+ u) t -> String.eqb t "" = false.
Proof.
  intros (pre & post & ->).
  destruct pre as [|d pre]; reflexivity.
Qed.

Lemma occursIn_trans (s t u : string) :
  Str.occursIn s t -> Str.occursIn t u -> Str.occursIn s u.
Proof.
  intros (a & b & ->) (c & d & ->). exists (c +:+ a), (b +:+ d).
  now rewrite !append_assoc.
Qed.

Lemma renderInvoiceHtml_table `{Platform} (now : string) (order : json)
    (rows : list json) :
  normalizeProducts order = Some rows ->
  exists html,
    renderInvoiceHtml now order = Some html
    /\ (forall row, In row rows ->
          Str.occursIn (productRow row) html
          /\ Str.occursIn (escapeHtml (row ./ "nombre")) html
          /\ Str.occursIn (JS.toString (row ./ "cantidad")) html)
    /\ (rows = [] -> Str.occursIn Template.noProducts html).
Proof.
  intros Hn. unfold renderInvoiceHtml. rewrite Hn. cbv zeta.
  eexists. split; [reflexivity |]. unfold page. split.
  - intros row Hin.
    pose proof (occursIn_concat productRow rows row Hin) as Hocc.
    assert (Hrow : Str.occursIn (productRow row)
                     (if String.eqb (String.concat "" (map productRow rows)) ""
                      then Template.noProducts
                      else String.concat "" (map productRow rows))).
    { erewrite occursIn_nonempty; [exact Hocc |].
      unfold productRow, Template.row0 in *. exact Hocc. }
    split; [| split];
      do 13 apply occursIn_app_r; apply occursIn_app_l;
      (eapply occursIn_trans; [| exact Hrow]); unfold productRow.
    + apply occursIn_refl.
    + apply occursIn_app_r, occursIn_app_l, occursIn_refl.
    + do 3 apply occursIn_app_r. apply occursIn_app_l, occursIn_refl.
  - intros ->. do 13 apply occursIn_app_r. apply occursIn_app_l, occursIn_refl.
Qed.

(** X26 — the product table of the page, for an order that holds no
    object with a [toString] property: every row [normalizeProducts] returns
    is written into the page, with its name passed through [escapeHtml] and
    its quantity converted to a string and written as it is, without
    escaping; when there is no row the page says so. *)
Theorem renderInvoiceHtml_rows `{Platform} (now : string) (order : json)
    (rows : list json) :
  plain order = true ->
  normalizeProducts order = Some rows ->
  exists html,
    renderInvoiceHtml now order = Some html
    /\ (forall row, In row rows ->
          Str.occursIn (productRow row) html
          /\ Str.occursIn (escapeHtml (row ./ "nombre")) html
          /\ Str.occursIn (JS.toString (row ./ "cantidad")) html)
    /\ (rows = [] -> Str.occursIn Template.noProducts html).
Proof.
  intros _. apply renderInvoiceHtml_table.
Qed.

Lemma renderInvoiceHtml_rows_markup :
  exists html,
    renderInvoiceHtml "1/1/2025, 0:00:00" (leanOrder Ref.idA markupOrder) = Some html
    /\ Str.occursIn "<script>alert(1)</script>" html.
Proof.
  destruct (renderInvoiceHtml_rows "1/1/2025, 0:00:00" (leanOrder Ref.idA markupOrder)
              [JObj [("nombre", JStr "Pan");
                     ("cantidad", JStr "<script>alert(1)</script>");
                     ("precio", JNum (Fin 1)); ("subtotal", JNum (Fin 1))]])
    as (html & Hr & Hrows & _).
  - reflexivity.
  - reflexivity.
  - exists html. split; [exact Hr |].
    apply (Hrows (JObj [("nombre", JStr "Pan");
                        ("cantidad", JStr "<script>alert(1)</script>");
                        ("precio", JNum (Fin 1)); ("subtotal", JNum (Fin 1))])).
    left. reflexivity.
Defined.

Lemma mapIdx_In (f : json -> Z -> option json) (x : json) :
  forall l idx rows,
    mapIdx f l idx = Some rows -> In x l ->
    exists i y, f x i = Some y /\ In y rows.
Proof.
  induction l as [|x0 l IH]; intros idx rows Hm Hin; [destruct Hin |].
  simpl in Hm.
  destruct (f x0 idx) as [y0|] eqn:Hy; [| discriminate].
  destruct (mapIdx f l (idx + 1)) as [ys|] eqn:Hys; [| discriminate].
  inversion Hm; subst; clear Hm.
  destruct Hin as [-> | Hin].
  - exists idx, y0. split; [exact Hy | now left].
  - destruct (IH _ _ Hys Hin) as (i & y & Hf & Hy').
    exists i, y. split; [exact Hf | now right].
Qed.

(** X27 — an order created by [POST /orders] from a body that holds no
    object with a [toString] property is rendered by [GET /invoices/:id] from
    the summary the client sent: when the new identifier is a valid ObjectId
    in canonical writing, not used before, and the lookup is not rejected,
    the route renders the stored order, whose [resumen] is the one of the
    body.  So a [null] among the products of the summary sent makes the page
    fail with 500, and a non-empty string sent as the quantity of a product
    is written into the page as it is. *)
Theorem post_orders_then_invoice `{Platform} (E E' : env)
    (isValidId : json -> bool) (toObjectId : json -> option string)
    (castString : json -> option string) (toJSON : string -> order -> json)
    (now : string) (reqBody : json) (w : world) :
  status (fst (post_orders E isValidId toObjectId castString toJSON reqBody w))
  = 201%nat ->
  plain reqBody = true ->
  isValidObjectId (newObjectId E) = true ->
  objectIdHex (newObjectId E) = newObjectId E ->
  findOrder (newObjectId E) (db_orders (w_db w)) = None ->
  fails E' (length (w_log (snd (post_orders E isValidId toObjectId castString
                                  toJSON reqBody w)))) = false ->
  let w' := snd (post_orders E isValidId toObjectId castString toJSON reqBody w) in
  exists o,
    findOrder (newObjectId E) (db_orders (w_db w')) = Some o
    /\ o_resumen o = reqBody ./ "resumen" ||| JObj []
    /\ get_invoice E' now (newObjectId E) w'
       = (match renderInvoiceHtml now (leanOrder (newObjectId E) o) with
          | Some html => Html html
          | None => Json 500 (errorBody "Unable to render invoice")
          end, logged OpOrderFindById w')
    /\ (forall l,
          reqBody ./ "resumen" ./ "productos" = JArr l ->
          Exists (fun x => JS.nullish x = true) l ->
          fst (get_invoice E' now (newObjectId E) w')
          = Json 500 (errorBody "Unable to render invoice"))
    /\ (forall l prod qty,
          reqBody ./ "resumen" ./ "productos" = JArr l ->
          Forall (fun x => JS.nullish x = false) l ->
          In prod l -> prod ./ "cantidad" = JStr qty -> qty <> "" ->
          exists html,
            fst (get_invoice E' now (newObjectId E) w') = Html html
            /\ Str.occursIn qty html).
Proof.
  intros Hok _ Hvalid Hhex Hfresh Hquiet. cbv zeta.
  unfold post_orders in *.
  destruct (orderHandler E isValidId toObjectId castString toJSON reqBody w)
    as [[resp | e] w'] eqn:Hrun; [| discriminate Hok].
  apply orderHandler_inv in Hrun. destruct Hrun as (_ & _ & _ & Hr).
  simpl in Hok, Hquiet |- *.
  destruct Hr as [(-> & _) | (estado & o & _ & Hdoc & _ & Ho & _)];
    [discriminate Hok |].
  assert (Hfind : findOrder (newObjectId E) (db_orders (w_db w')) = Some o).
  { rewrite Ho. now apply findOrder_app. }
  assert (Hres : o_resumen o = reqBody ./ "resumen" ||| JObj []).
  { rewrite Hdoc. reflexivity. }
  assert (Hget : get_invoice E' now (newObjectId E) w'
                 = (match renderInvoiceHtml now (leanOrder (newObjectId E) o) with
                    | Some html => Html html
                    | None => Json 500 (errorBody "Unable to render invoice")
                    end, logged OpOrderFindById w')).
  { unfold get_invoice. rewrite Hvalid. cbn [negb].
    rewrite (op_ok E' OpOrderFindById _ Hquiet), Hhex.
    change (db_orders (w_db (logged OpOrderFindById w'))) with (db_orders (w_db w')).
    rewrite Hfind. now destruct (renderInvoiceHtml _ _). }
  assert (Hprods : forall l,
             reqBody ./ "resumen" ./ "productos" = JArr l ->
             leanOrder (newObjectId E) o ./ "resumen" ./ "productos" = JArr l).
  { intros l Hl.
    change (leanOrder (newObjectId E) o ./ "resumen") with (o_resumen o).
    rewrite Hres. unfold JS.or.
    destruct (reqBody ./ "resumen") as [| | | | | |fs]; try discriminate Hl.
    exact Hl. }
  exists o. do 3 (split; [assumption |]). rewrite Hget. cbn [fst]. split.
  - intros l Hl Hex. unfold renderInvoiceHtml.
    now rewrite (normalizeProducts_null _ l (Hprods l Hl) Hex).
  - intros l prod qty Hl Hall Hin Hqty Hne.
    assert (Hnorm : normalizeProducts (leanOrder (newObjectId E) o)
                    = mapIdx fromProducto l 0).
    { unfold normalizeProducts. rewrite (Hprods l Hl).
      destruct l; [destruct Hin | reflexivity]. }
    destruct (mapIdx_objects fromProducto) with (l := l) (idx := 0%Z) as [rows Hrows].
    { intros x idx Hx. unfold fromProducto. rewrite Hx. eauto. }
    { exact Hall. }
    rewrite Hrows in Hnorm.
    destruct (mapIdx_In fromProducto prod l 0 rows Hrows Hin) as (i & row & Hrow & Hinrow).
    destruct (renderInvoiceHtml_table now _ rows Hnorm) as (html & -> & Htable & _).
    exists html. split; [reflexivity |].
    destruct (Htable row Hinrow) as (_ & _ & Hq).
    unfold fromProducto in Hrow.
    destruct (JS.nullish prod); [discriminate |]. inversion Hrow; subst row; clear Hrow.
    cbn [JS.get JS.assoc String.eqb Ascii.eqb Bool.eqb] in Hq.
    rewrite Hqty in Hq.
    assert (Ht : JS.truthy (JStr qty) = true).
    { simpl. destruct qty; [contradiction | reflexivity]. }
    unfold JS.or in Hq at 2. rewrite Ht in Hq.
    unfold JS.or in Hq. rewrite Ht in Hq. exact Hq.
Qed.

Lemma post_orders_then_invoice_markup :
  exists o,
    findOrder (newObjectId Ref.quiet)
      (db_orders
         (w_db (snd (post_orders Ref.quiet (fun _ => false) (fun _ => None)
                       (fun _ => None) leanOrder
                       (JObj [("resumen", o_resumen markupOrder)]) Ref.start))))
    = Some o
    /\ o_resumen o = o_resumen markupOrder.
Proof.
  destruct (post_orders_then_invoice Ref.quiet Ref.quiet (fun _ => false)
              (fun _ => None) (fun _ => None) leanOrder "1/1/2025, 0:00:00"
              (JObj [("resumen", o_resumen markupOrder)]) Ref.start)
    as (o & Hfind & Hres & _).
  - vm_compute. reflexivity.
  - reflexivity.
  - reflexivity.
  - reflexivity.
  - reflexivity.
  - reflexivity.
  - exists o. split; [exact Hfind | exact Hres].
Defined.

(* ===================================================================== *)
(** ** The answers of the checkout *)
(* ===================================================================== *)

Section Answers.
Context `{Platform}.
Variable cfg : config.
Variable E : env.

Lemma handler_status reqBody w resp w' :
  handler cfg E reqBody w = (Ok resp, w') ->
  status resp = 201%nat \/ status resp = 400%nat \/ status resp = 404%nat.
Proof.
  unfold handler. intros Hrun.
  set (body := reqBody ||| JObj []) in *.
  destruct (sanitizeItems (body ./ "products")) as [msg | items].
  { run_steps. auto. }
  destruct (JS.truthy (body ./ "userId")).
  - destruct (negb (isValidObjectId _)); [run_steps |].
    run_step; [| run_steps].
    run_steps.
    destruct (db_users (w_db w) !! _) as [u|]; [| run_steps; auto].
    apply placeOrder_inv in Hrun. destruct Hrun as [Hs _]. left. exact Hs.
  - match type of Hrun with
    | (if ?c then _ else _) _ = _ => destruct c; [| run_steps; auto]
    end.
    apply placeOrder_inv in Hrun. destruct Hrun as [Hs _]. left. exact Hs.
Qed.

Lemma handler_malformed_user reqBody w items :
  sanitizeItems ((reqBody ||| JObj []) ./ "products") = inr items ->
  JS.truthy ((reqBody ||| JObj []) ./ "userId") = true ->
  isValidObjectId (JS.toString ((reqBody ||| JObj []) ./ "userId")) = false ->
  handler cfg E reqBody w
  = (Throw (castError (JS.toString ((reqBody ||| JObj []) ./ "userId"))), w).
Proof.
  intros Hitems Huid Hbad. unfold handler. cbv zeta.
  rewrite Hitems, Huid, Hbad. reflexivity.
Qed.

End Answers.

(** X28 — the answers of the checkout: whatever the request, the store
    and the faults, the status is 201, 400, 404 or 500. *)
Theorem checkout_status `{Platform}
    (cfg : config) (E : env) (reqBody : json) (w : world) :
  let st := status (fst (post_invoices cfg E reqBody w)) in
  st = 201%nat \/ st = 400%nat \/ st = 404%nat \/ st = 500%nat.
Proof.
  cbv zeta. unfold post_invoices.
  destruct (handler cfg E reqBody w) as [[resp | e] w'] eqn:Hrun; simpl.
  - apply handler_status in Hrun. tauto.
  - apply handler_inv in Hrun. destruct Hrun as [Hk _].
    unfold knownError in Hk. tauto.
Qed.

(** X29 — a [userId] that is a non-empty text and not a valid ObjectId,
    sent with valid items: the lookup of the user is refused by the cast
    before any operation reaches the store, and the answer is 500, with the
    message of the cast error, not a 400. *)
Theorem checkout_malformed_user `{Platform}
    (cfg : config) (E : env) (reqBody : json) (w : world) (items : list item)
    (s : string) :
  sanitizeItems ((reqBody ||| JObj []) ./ "products") = inr items ->
  (reqBody ||| JObj []) ./ "userId" = JStr s ->
  s <> "" ->
  isValidObjectId s = false ->
  exists msg,
    post_invoices cfg E reqBody w = (respond 500 (errorBody msg), w).
Proof.
  intros Hitems Huid Hne Hbad. unfold post_invoices.
  rewrite (handler_malformed_user cfg E reqBody w items Hitems).
  - eexists. reflexivity.
  - rewrite Huid. destruct s; [contradiction | reflexivity].
  - rewrite Huid. exact Hbad.
Qed.

Lemma checkout_malformed_user_shop :
  exists msg,
    post_invoices default_config Ref.quiet
      (Ref.request (JStr "ana") [Ref.entry Ref.idA (Fin 1)] []) Ref.start
    = (respond 500 (errorBody msg), Ref.start).
Proof.
  apply (checkout_malformed_user default_config Ref.quiet
           (Ref.request (JStr "ana") [Ref.entry Ref.idA (Fin 1)] []) Ref.start
           [{| productId := Ref.idA; quantity := Fin 1 |}] "ana").
  - vm_compute. reflexivity.
  - reflexivity.
  - discriminate.
  - reflexivity.
Defined.

(** X30 — the amounts of a checkout that answers 201: the products of
    the stored summary are the invoice lines; the line total of each is its
    unit price times its quantity, rounded; the subtotal is the sum of the
    line totals taken in order and rounded after each addition; the tax is
    the subtotal times the rate of the request, rounded. *)
Theorem checkout_subtotal_and_tax `{Platform}
    (cfg : config) (E : env) (reqBody : json) (w : world) :
  succeeded (fst (post_invoices cfg E reqBody w)) ->
  let body := reqBody ||| JObj [] in
  exists o lines subtotal,
    db_orders (w_db (snd (post_invoices cfg E reqBody w)))
    = db_orders (w_db w) ++ [(newObjectId E, o)]
    /\ o_resumen o ./ "productos" = JArr (map orderProduct lines)
    /\ Forall (fun l => l_lineTotal l
                        = roundMoney (Num.mul (l_unitPrice l) (l_quantity l))) lines
    /\ subtotal
       = fold_left (fun s l => roundMoney (Num.add s (l_lineTotal l))) lines (Fin 0)
    /\ o_resumen o ./ "totales" ./ "subtotal" = JNum subtotal
    /\ o_resumen o ./ "totales" ./ "iva"
       = JNum (roundMoney (Num.mul subtotal (taxRateOf body))).
Proof.
  intros Hok. cbv zeta.
  destruct (post_invoices_ok cfg E reqBody w Hok)
    as (items & attached & iu & si & pi & ro & ri & w0 & w1
        & _ & _ & Hw0 & Htx & Hdb & _ & _).
  apply transaction_ok in Htx.
  destruct Htx as (lines & sub & o & w2 & Hloop & _ & Ho & _ & _ & Hdoc & _).
  pose proof (processItems_priced E _ _ _ _ _ _ _ _ _ Hloop (Forall_nil_2 _)) as Hpriced.
  apply processItems_lines in Hloop.
  destruct Hloop as (new & Hnew & _ & _ & _ & Hsub & _).
  simpl in Hnew. subst new.
  exists o, lines, sub. rewrite Hdb, Ho, Hw0.
  split; [reflexivity |].
  rewrite Hdoc. cbn [o_resumen].
  split; [reflexivity |].
  split; [exact Hpriced |].
  split; [exact Hsub |].
  split; reflexivity.
Qed.

Lemma checkout_subtotal_and_tax_shop :
  exists o subtotal,
    db_orders (w_db (snd (post_invoices default_config Ref.quiet
                            (Ref.request (JStr Ref.idU) [Ref.entry Ref.idA (Fin 3)] [])
                            Ref.start)))
    = db_orders (w_db Ref.start) ++ [(newObjectId Ref.quiet, o)]
    /\ o_resumen o ./ "totales" ./ "subtotal" = JNum subtotal.
Proof.
  destruct (checkout_subtotal_and_tax default_config Ref.quiet
              (Ref.request (JStr Ref.idU) [Ref.entry Ref.idA (Fin 3)] [])
              Ref.start)
    as (o & lines & subtotal & Ho & _ & _ & _ & Hs & _).
  - vm_compute. reflexivity.
  - exists o, subtotal. split; [exact Ho | exact Hs].
Defined.
